(** * DDPG training harness: rollout generator and script-level train loop

    A shallow embedding of [rollout.py] (class [RolloutGenerator]) and of
    [train.py] (function [train]).

    Modelling conventions.
    - Python [float] is IEEE-754 binary64, taken from [SpecFloat]
      ([prec = 53], [emax = 1024]); Python [int] is [Z].
    - The environment, the agent, the checkpoint saver, the summary writer,
      [time.sleep] and the loggers are external collaborators.  The
      environment and the agent are deterministic transition systems over
      abstract states (randomness lives in those states); every call to a
      collaborator is recorded, in order, in a list of events, and is taken
      to return normally.
    - Exceptions raised by the harness' own statements (a missing
      attribute, an unbound local, a division by zero, an integer too large
      for a float) are modelled: a computation returns the state reached,
      the events emitted so far and an outcome.
    - A [while] loop is a fixpoint on an explicit fuel; running out of fuel
      is the outcome [OutOfFuel], which the termination theorems exclude. *)

From Stdlib Require Import ZArith List String Bool Lia.
From Stdlib Require Import Floats.SpecFloat.
Import ListNotations.
Open Scope string_scope.
Open Scope Z_scope.
Open Scope list_scope.

Set Implicit Arguments.

(** ** Python floats *)

Module PyFloat.

Definition float := spec_float.
Definition prec : Z := 53.
Definition emax : Z := 1024.

Definition zero : float := S754_zero false.
Definition add (a b : float) : float := SFadd prec emax a b.
Definition div (a b : float) : float := SFdiv prec emax a b.
(** [a < b]; Python's [a > b] is [ltb b a] *)
Definition ltb (a b : float) : bool := SFltb a b.
Definition leb (a b : float) : bool := SFleb a b.
Definition gtb (a b : float) : bool := ltb b a.

(** conversion of an [int] operand, round to nearest even *)
Definition of_int (z : Z) : float := binary_normalize prec emax z 0 false.

Definition mul (a b : float) : float := SFmul prec emax a b.

(** [a / b] on two [int]s: the quotient of the exact integers, rounded once *)
Definition exact_of_int (z : Z) : float :=
match z with
| Z0 => S754_zero false
| Zpos p => S754_finite false p 0
| Zneg p => S754_finite true p 0
end.
Definition int_div (a b : Z) : float :=
SFdiv prec emax (exact_of_int a) (exact_of_int b).

(** [int(a)] on a finite float: truncation towards zero *)
Definition trunc (a : float) : Z :=
match a with
| S754_finite s m e =>
    let v := match e with
             | Zneg p => Z.shiftr (Zpos m) (Zpos p)
             | _ => Z.shiftl (Zpos m) e
             end in
    if s then - v else v
| _ => 0
end.

Definition is_inf (a : float) : bool :=
  match a with S754_infinity _ => true | _ => false end.
Definition is_nan (a : float) : bool :=
  match a with S754_nan => true | _ => false end.

End PyFloat.

Definition float : Type := PyFloat.float.

(** ** Outcomes, exceptions and the harness monad *)

Inductive exn : Type :=
| AttributeError (attr : string)
| UnboundLocalError (var : string)
| KeyError (key : string)
| ZeroDivisionError
| OverflowError
| ValueError
| AssertionError.

Inductive outcome (A : Type) : Type :=
| Ret (a : A)
| Raise (e : exn)
| OutOfFuel.

Arguments Ret {A} a.
Arguments Raise {A} e.
Arguments OutOfFuel {A}.

Section Monad.

Variables (St Ev : Type).

(** state reached, events emitted, outcome *)
Definition M (A : Type) : Type := St -> St * list Ev * outcome A.

Definition ret {A} (a : A) : M A := fun s => (s, [], Ret a).

Definition bind {A B} (m : M A) (k : A -> M B) : M B :=
  fun s =>
    match m s with
    | (s1, o1, Ret a) =>
        match k a s1 with
        | (s2, o2, r) => (s2, o1 ++ o2, r)
        end
    | (s1, o1, Raise e) => (s1, o1, Raise e)
    | (s1, o1, OutOfFuel) => (s1, o1, OutOfFuel)
    end.

Definition raise {A} (e : exn) : M A := fun s => (s, [], Raise e).
Definition emit (ev : Ev) : M unit := fun s => (s, [ev], Ret tt).
Definition get : M St := fun s => (s, [], Ret s).
Definition put (s' : St) : M unit := fun _ => (s', [], Ret tt).
Definition modify (f : St -> St) : M unit := fun s => (f s, [], Ret tt).

(** [if c: body] *)
Definition when (c : bool) (body : M unit) : M unit :=
  if c then body else ret tt.

(** reading an attribute that may be absent from [__dict__] *)
Definition getattr {A} (attr : string) (v : option A) : M A :=
  match v with
  | Some a => ret a
  | None => raise (AttributeError attr)
  end.

(** [assert c] *)
Definition assert (c : bool) : M unit :=
  if c then ret tt else raise AssertionError.

(** [for _ in range(n): body], with [n] already a natural number *)
Fixpoint repeat_m (n : nat) (body : M unit) : M unit :=
  match n with
  | O => ret tt
  | S n' => bind body (fun _ => repeat_m n' body)
  end.

(** [for _ in range(n): body]: [range] of a negative [int] is empty *)
Definition for_range (n : Z) (body : M unit) : M unit :=
  repeat_m (Z.to_nat n) body.

Definition state_of {A} (r : St * list Ev * outcome A) : St := fst (fst r).
Definition events_of {A} (r : St * list Ev * outcome A) : list Ev := snd (fst r).
Definition outcome_of {A} (r : St * list Ev * outcome A) : outcome A := snd r.

End Monad.

Arguments ret {St Ev A} a.
Arguments raise {St Ev A} e.
Arguments emit {St Ev} ev.
Arguments get {St Ev}.
Arguments put {St Ev} s'.
Arguments modify {St Ev} f.
Arguments getattr {St Ev A} attr v.
Arguments assert {St Ev} c.
Arguments when {St Ev} c body.

Declare Scope harness_scope.
Delimit Scope harness_scope with harness.
Notation "x <- m ;; k" := (bind m (fun x => k))
(at level 100, m at next level, right associativity) : harness_scope.
Notation "' p <- m ;; k" := (bind m (fun x => match x with p => k end))
(at level 100, p pattern, m at next level, right associativity) : harness_scope.
Notation "m ;; k" := (bind m (fun _ => k))
(at level 100, right associativity) : harness_scope.
Open Scope harness_scope.

(** ** Python truthiness *)

(** An [int] option that may also hold a [bool] ([periodic_ckpt: int|False]);
  [bool] is a subclass of [int]. *)
Inductive pyint : Type :=
| PInt (z : Z)
| PBool (b : bool).

Definition int_of (v : pyint) : Z :=
match v with
| PInt z => z
| PBool true => 1
| PBool false => 0
end.

Definition truthy (v : pyint) : bool := negb (int_of v =? 0).

(** truth value of a string: non-empty *)
Definition truthy_str (s : string) : bool :=
match s with
| EmptyString => false
| String _ _ => true
end.

(** [int(done)] *)
Definition int_of_bool (b : bool) : Z := if b then 1 else 0.

(** ** Observing event lists *)

(** the number of events that satisfy [p] *)
Definition count {T : Type} (p : T -> bool) (l : list T) : nat :=
  List.length (filter p l).

(** ** Arithmetic that can raise *)

Section PyArith.

Variables (St Ev : Type).

(** [a / n] with [a] a float and [n] an int: [n] is converted first
    ([OverflowError] when it is too large), then a zero divisor raises. *)
Definition float_div_int (a : float) (n : Z) : M St Ev float :=
  let d := PyFloat.of_int n in
  if PyFloat.is_inf d then raise OverflowError
  else if n =? 0 then raise ZeroDivisionError
  else ret (PyFloat.div a d).

(** [a / b] with both operands ints *)
Definition int_true_div (a b : Z) : M St Ev float :=
  if b =? 0 then raise ZeroDivisionError
  else
    let q := PyFloat.int_div a b in
    if PyFloat.is_inf q then raise OverflowError else ret q.

(** [int(a)] on a float *)
Definition int_of_float (a : float) : M St Ev Z :=
  if PyFloat.is_nan a then raise ValueError
  else if PyFloat.is_inf a then raise OverflowError
  else ret (PyFloat.trunc a).

(** reading a local variable that may still be unbound *)
Definition read_local {T} (var : string) (v : option T) : M St Ev T :=
  match v with
  | Some z => ret z
  | None => raise (UnboundLocalError var)
  end.

End PyArith.

Arguments float_div_int {St Ev} a n.
Arguments int_true_div {St Ev} a b.
Arguments int_of_float {St Ev} a.
Arguments read_local {St Ev T} var v.

(** an accumulator after [+=] of the floats [rs], from left to right *)
Definition sum_from (acc : float) (rs : list float) : float :=
  fold_left PyFloat.add rs acc.

(** ** [rollout.py]: class [RolloutGenerator] *)

Module Rollout.

Section Generator.

(** [Arr]: numpy arrays (observations and goals); [Act]: the action handed
    to the environment; [Ctl]: the second component of [agent.step], the one
    stored in the transition. *)
Variables (Arr Act Ctl : Type).

(** [np.hstack] of two arrays *)
Variable hstack : Arr -> Arr -> Arr.

Record obs_dict : Type := {
  observation : Arr;
  desired_goal : Arr;
  achieved_goal : Arr }.

(** the truth value of [info["is_success"]] *)
Record info_dict : Type := { is_success : bool }.

(** An element of the list handed to [agent.remember]. *)
Inductive field : Type :=
| FArr (a : Arr)
| FCtl (u : Ctl)
| FFloat (r : float)
| FInt (z : Z).

(** Calls to the collaborators, in program order.  [EvSave c e] is
    [saver.save(sess, "__checkpoints/{}_{}".format(c, e))]. *)
Inductive event : Type :=
| EvEnvReset
| EvAgentStep (inp : Arr) (explore : bool)
| EvEnvStep (a : Act)
| EvRemember (tr : list field)
| EvRender
| EvTrain
| EvSleep (s : float)
| EvSave (category : string) (tag : Z)
| EvAddSummary (values : list (string * float)) (counter : Z)
| EvAddMerged (counter : Z)
| EvFlush
| EvInfoOut (msg : string) (args : list float)
| EvLogOut (msg : string)
| EvPrintLine (who : string) (ep : Z) (r q : float) (t : Z)
| EvPrintBlank
| EvEvalResult (r q : float) (t : Z) (rate : float).

(** The environment and agent contracts. *)
Class Environment (E : Type) : Type := {
  env_reset : E -> E * obs_dict;
  env_step : E -> Act -> E * (obs_dict * float * bool * info_dict);
  env_render : E -> E;
  max_episode_steps : Z }.

Class Agent (A : Type) : Type := {
  agent_step : A -> Arr -> bool -> A * (Act * Ctl * float);
  agent_remember : A -> list field -> A;
  agent_train : A -> A }.

(** The options merged into the object by [self.__dict__.update(config)];
    [None] is a key the mapping does not have. *)
Record config : Type := {
  render : option bool;
  train_cycles_per_ts : option Z;
  periodic_ckpt : option pyint;
  save_best : option bool;
  n_episodes : option Z;
  step_sleep : option float }.

(** An opaque framework object ([tf.Summary()], a [FileWriter]). *)
Variant tf_object : Type := TfObject.

(** The attributes of [self]; [None] is an attribute not (yet) set. *)
Record generator : Type := {
  name : string;
  eval : bool;
  best_score : float;
  summary_writer : option tf_object;
  summary : option tf_object;
  eval_counter : option Z;
  cfg : config;
  q_total : float;
  r_total : float;
  t_steps : Z;
  episode : Z;
  success : Z;
  mean_eq : option float;
  mean_er : option float }.

Definition set_best_score (v : float) (g : generator) : generator :=
  {| name := name g; eval := eval g; best_score := v;
     summary_writer := summary_writer g; summary := summary g;
     eval_counter := eval_counter g; cfg := cfg g;
     q_total := q_total g; r_total := r_total g; t_steps := t_steps g;
     episode := episode g; success := success g;
     mean_eq := mean_eq g; mean_er := mean_er g |}.

Definition set_eval_counter (v : option Z) (g : generator) : generator :=
  {| name := name g; eval := eval g; best_score := best_score g;
     summary_writer := summary_writer g; summary := summary g;
     eval_counter := v; cfg := cfg g;
     q_total := q_total g; r_total := r_total g; t_steps := t_steps g;
     episode := episode g; success := success g;
     mean_eq := mean_eq g; mean_er := mean_er g |}.

Definition set_q_total (v : float) (g : generator) : generator :=
  {| name := name g; eval := eval g; best_score := best_score g;
     summary_writer := summary_writer g; summary := summary g;
     eval_counter := eval_counter g; cfg := cfg g;
     q_total := v; r_total := r_total g; t_steps := t_steps g;
     episode := episode g; success := success g;
     mean_eq := mean_eq g; mean_er := mean_er g |}.

Definition set_r_total (v : float) (g : generator) : generator :=
  {| name := name g; eval := eval g; best_score := best_score g;
     summary_writer := summary_writer g; summary := summary g;
     eval_counter := eval_counter g; cfg := cfg g;
     q_total := q_total g; r_total := v; t_steps := t_steps g;
     episode := episode g; success := success g;
     mean_eq := mean_eq g; mean_er := mean_er g |}.

Definition set_t_steps (v : Z) (g : generator) : generator :=
  {| name := name g; eval := eval g; best_score := best_score g;
     summary_writer := summary_writer g; summary := summary g;
     eval_counter := eval_counter g; cfg := cfg g;
     q_total := q_total g; r_total := r_total g; t_steps := v;
     episode := episode g; success := success g;
     mean_eq := mean_eq g; mean_er := mean_er g |}.

Definition set_episode (v : Z) (g : generator) : generator :=
  {| name := name g; eval := eval g; best_score := best_score g;
     summary_writer := summary_writer g; summary := summary g;
     eval_counter := eval_counter g; cfg := cfg g;
     q_total := q_total g; r_total := r_total g; t_steps := t_steps g;
     episode := v; success := success g;
     mean_eq := mean_eq g; mean_er := mean_er g |}.

Definition set_success (v : Z) (g : generator) : generator :=
  {| name := name g; eval := eval g; best_score := best_score g;
     summary_writer := summary_writer g; summary := summary g;
     eval_counter := eval_counter g; cfg := cfg g;
     q_total := q_total g; r_total := r_total g; t_steps := t_steps g;
     episode := episode g; success := v;
     mean_eq := mean_eq g; mean_er := mean_er g |}.

Definition set_mean_eq (v : option float) (g : generator) : generator :=
  {| name := name g; eval := eval g; best_score := best_score g;
     summary_writer := summary_writer g; summary := summary g;
     eval_counter := eval_counter g; cfg := cfg g;
     q_total := q_total g; r_total := r_total g; t_steps := t_steps g;
     episode := episode g; success := success g;
     mean_eq := v; mean_er := mean_er g |}.

Definition set_mean_er (v : option float) (g : generator) : generator :=
  {| name := name g; eval := eval g; best_score := best_score g;
     summary_writer := summary_writer g; summary := summary g;
     eval_counter := eval_counter g; cfg := cfg g;
     q_total := q_total g; r_total := r_total g; t_steps := t_steps g;
     episode := episode g; success := success g;
     mean_eq := mean_eq g; mean_er := v |}.

Context {E A : Type} {EnvOps : Environment E} {AgentOps : Agent A}.

(** The generator together with the collaborators it holds
    ([self.env], [self.agent]). *)
Record rstate : Type := { self : generator; env : E; agent : A }.

Definition H : Type -> Type := M rstate event.

Definition gets {T} (f : generator -> T) : H T :=
  fun s => (s, [], Ret (f (self s))).

Definition update_self (f : generator -> generator) : H unit :=
  modify (fun s => {| self := f (self s); env := env s; agent := agent s |}).

(** *** Calls to the collaborators *)

Definition call_env_reset : H obs_dict :=
  fun s =>
    let '(e', x) := env_reset (env s) in
    ({| self := self s; env := e'; agent := agent s |}, [EvEnvReset], Ret x).

Definition call_agent_step (inp : Arr) (explore : bool) : H (Act * Ctl * float) :=
  fun s =>
    let '(a', res) := agent_step (agent s) inp explore in
    ({| self := self s; env := env s; agent := a' |},
     [EvAgentStep inp explore], Ret res).

Definition call_env_step (a : Act) : H (obs_dict * float * bool * info_dict) :=
  fun s =>
    let '(e', res) := env_step (env s) a in
    ({| self := self s; env := e'; agent := agent s |}, [EvEnvStep a], Ret res).

Definition call_remember (tr : list field) : H unit :=
  fun s =>
    ({| self := self s; env := env s; agent := agent_remember (agent s) tr |},
     [EvRemember tr], Ret tt).

Definition call_render : H unit :=
  fun s =>
    ({| self := self s; env := env_render (env s); agent := agent s |},
     [EvRender], Ret tt).

Definition call_train : H unit :=
  fun s =>
    ({| self := self s; env := env s; agent := agent_train (agent s) |},
     [EvTrain], Ret tt).

(** *** The methods *)

Definition reset : H unit :=
  update_self (set_q_total PyFloat.zero) ;;
  update_self (set_r_total PyFloat.zero) ;;
  update_self (set_t_steps 0) ;;
  update_self (set_episode 0) ;;
  update_self (set_success 0).

(** [__init__(env, agent, config, _eval, summary_writer)] *)
Definition init (e : E) (a : A) (c : config) (_eval : bool)
    (writer : option tf_object) : rstate * list event * outcome unit :=
  let c' :=
    {| render := render c;
       train_cycles_per_ts := train_cycles_per_ts c;
       periodic_ckpt :=
         match periodic_ckpt c with
         | Some p => Some p
         | None => Some (PBool false)
         end;
       save_best :=
         match save_best c with
         | Some b => Some b
         | None => Some false
         end;
       n_episodes := n_episodes c;
       step_sleep := step_sleep c |} in
  let nm := ((if _eval then "*EVAL" else "TRAIN") ++ "_ROLLOUT")%string in
  let g :=
    {| name := nm; eval := _eval; best_score := PyFloat.zero;
       summary_writer := writer; summary := Some TfObject;
       eval_counter := if _eval then Some 0 else None;
       cfg := c';
       q_total := PyFloat.zero; r_total := PyFloat.zero; t_steps := 0;
       episode := 0; success := 0; mean_eq := None; mean_er := None |} in
  (reset ;; emit (EvInfoOut ("Initialized " ++ nm)%string []))
    {| self := g; env := e; agent := a |}.

Definition update_stats (eps_q eps_r : float) (t : Z) : H unit :=
  q0 <- gets q_total ;;
  update_self (set_q_total (PyFloat.add q0 eps_q)) ;;
  r0 <- gets r_total ;;
  update_self (set_r_total (PyFloat.add r0 eps_r)) ;;
  t0 <- gets t_steps ;;
  update_self (set_t_steps (t0 + t)) ;;
  q1 <- gets q_total ;;
  ep <- gets episode ;;
  mq <- float_div_int q1 ep ;;
  update_self (set_mean_eq (Some mq)) ;;
  r1 <- gets r_total ;;
  ep' <- gets episode ;;
  mr <- float_div_int r1 ep' ;;
  update_self (set_mean_er (Some mr)).

Definition update_summaries (episodic_r episodic_q : float) : H unit :=
  ep <- gets episode ;;
  ev <- gets eval ;;
  counter <-
    (if ev then
       c <- bind (gets eval_counter) (getattr "eval_counter") ;;
       update_self (set_eval_counter (Some (c + 1))) ;;
       ret (c + 1)
     else ret ep) ;;
  nm <- gets name ;;
  let summaries :=
    [ ((nm ++ "/episodic_r")%string, episodic_r);
      ((nm ++ "/episodic_q")%string, episodic_q) ] in
  w <- gets summary_writer ;;
  match w with
  | None => raise (AttributeError "add_summary")
  | Some _ =>
      emit (EvAddSummary summaries counter) ;;
      emit EvFlush
  end.

(** [write_summary]: the merged summaries of the graph are run by the
    session and handed to the writer *)
Definition write_summary : H unit :=
  w <- gets summary_writer ;;
  match w with
  | None => raise (AttributeError "add_summary")
  | Some _ =>
      ep <- gets episode ;;
      emit (EvAddMerged ep) ;;
      nm <- gets name ;;
      emit (EvLogOut nm)
  end.

Definition log (q r : float) (t : Z) : H unit :=
  ev <- gets eval ;;
  if negb ev then
    nm <- gets name ;;
    ep <- gets episode ;;
    emit (EvPrintLine nm ep r q t)
  else
    emit EvPrintBlank ;;
    sc <- gets success ;;
    n <- bind (gets (fun g => n_episodes (cfg g))) (getattr "n_episodes") ;;
    rate <- int_true_div sc n ;;
    emit (EvEvalResult r q t (PyFloat.mul (PyFloat.of_int 100) rate)) ;;
    emit EvPrintBlank.

Definition create_checkpoint : H unit :=
  p <- bind (gets (fun g => periodic_ckpt (cfg g))) (getattr "periodic_ckpt") ;;
  periodic <-
    (if truthy p then
       ep <- gets episode ;;
       ret (ep mod int_of p =? 0)
     else ret false) ;;
  when periodic
    (emit (EvInfoOut "Creating periodic checkpoint" []) ;;
     ep <- gets episode ;;
     emit (EvSave "P" ep)) ;;
  ev <- gets eval ;;
  best <-
    (if ev then
       sb <- bind (gets (fun g => save_best (cfg g))) (getattr "save_best") ;;
       if sb then
         m <- bind (gets mean_er) (getattr "mean_er") ;;
         b <- gets best_score ;;
         ret (PyFloat.gtb m b)
       else ret false
     else ret false) ;;
  when best
    (m <- bind (gets mean_er) (getattr "mean_er") ;;
     emit (EvInfoOut "New best score: {}" [m]) ;;
     update_self (set_best_score m) ;;
     ep <- gets episode ;;
     emit (EvSave "B" ep)).

(** The locals of [generate_rollout]; [l_info] is [None] until the first
    [env.step] binds it. *)
Record locals : Type := {
  l_x : obs_dict;
  l_t : Z;
  l_done : bool;
  l_episodic_q : float;
  l_episodic_r : float;
  l_info : option info_dict }.

(** One iteration of the [while] loop. *)
Definition loop_body (l : locals) : H locals :=
  let x := l_x l in
  ev <- gets eval ;;
  ' (a, u, q) <-
    call_agent_step (hstack (observation x) (desired_goal x)) (negb ev) ;;
  ' (x2, r, d, inf) <- call_env_step a ;;
  call_remember
    [ FArr (observation x); FArr (desired_goal x); FArr (achieved_goal x);
      FCtl u; FFloat r; FArr (observation x2); FArr (desired_goal x2);
      FInt (int_of_bool d) ] ;;
  rd <- bind (gets (fun g => render (cfg g))) (getattr "render") ;;
  when rd call_render ;;
  ev' <- gets eval ;;
  (if negb ev' then
     assert (truthy_str "train_cycles_per_ts") ;;
     n <- bind (gets (fun g => train_cycles_per_ts (cfg g)))
               (getattr "train_cycles_per_ts") ;;
     for_range n call_train
   else
     sl <- gets (fun g => step_sleep (cfg g)) ;;
     match sl with
     | Some s => emit (EvSleep s)
     | None => ret tt
     end) ;;
  ret {| l_x := x2; l_t := l_t l + 1; l_done := d;
         l_episodic_q := PyFloat.add (l_episodic_q l) q;
         l_episodic_r := PyFloat.add (l_episodic_r l) r;
         l_info := Some inf |}.

(** [while not done and t < self.env.max_episode_steps: ...] *)
Fixpoint while_loop (fuel : nat) (l : locals) : H locals :=
  if negb (l_done l) && (l_t l <? max_episode_steps) then
    match fuel with
    | O => fun s => (s, [], OutOfFuel)
    | S fuel' => l' <- loop_body l ;; while_loop fuel' l'
    end
  else ret l.

(** reading the local [info] after the loop *)
Definition read_info (l : locals) : H info_dict :=
  read_local "info" (l_info l).

Definition generate_rollout (fuel : nat) : H unit :=
  x <- call_env_reset ;;
  l <- while_loop fuel
         {| l_x := x; l_t := 0; l_done := false;
            l_episodic_q := PyFloat.zero; l_episodic_r := PyFloat.zero;
            l_info := None |} ;;
  ep <- gets episode ;;
  update_self (set_episode (ep + 1)) ;;
  update_stats (l_episodic_q l) (l_episodic_r l) (l_t l) ;;
  sm <- gets summary ;;
  match sm with
  | Some _ => update_summaries (l_episodic_r l) (l_episodic_q l)
  | None => ret tt
  end ;;
  ev <- gets eval ;;
  when (negb ev) (log (l_episodic_q l) (l_episodic_r l) (l_t l)) ;;
  ev' <- gets eval ;;
  hit <- (if ev' then i <- read_info l ;; ret (is_success i) else ret false) ;;
  when hit (sc <- gets success ;; update_self (set_success (sc + 1))) ;;
  i <- read_info l ;;
  when (is_success i) (emit (EvLogOut "Reached goal.. hooray?")) ;;
  create_checkpoint.

Definition done : H bool :=
  n <- bind (gets (fun g => n_episodes (cfg g))) (getattr "n_episodes") ;;
  ep <- gets episode ;;
  let d := n <=? ep in
  ev <- gets eval ;;
  when (d && ev)
    (mq <- bind (gets mean_eq) (getattr "mean_eq") ;;
     mr <- bind (gets mean_er) (getattr "mean_er") ;;
     ts <- gets t_steps ;;
     log mq mr ts) ;;
  ret d.

(** *** Observations on the events of a rollout *)

Definition is_env_step (ev : event) : bool :=
  match ev with EvEnvStep _ => true | _ => false end.

Definition is_remember (ev : event) : bool :=
  match ev with EvRemember _ => true | _ => false end.

Definition is_train (ev : event) : bool :=
  match ev with EvTrain => true | _ => false end.

(** the calls made inside the [while] loop *)
Definition is_loop_event (ev : event) : bool :=
  match ev with
  | EvAgentStep _ _ | EvEnvStep _ | EvRemember _ | EvRender | EvTrain
  | EvSleep _ => true
  | _ => false
  end.

Definition is_summary (ev : event) : bool :=
  match ev with EvAddSummary _ _ => true | _ => false end.

Definition is_save (category : string) (ev : event) : bool :=
  match ev with
  | EvSave c _ => String.eqb c category
  | _ => false
  end.

(** the tags of the checkpoints of one category, in order *)
Fixpoint saved_tags (category : string) (l : list event) : list Z :=
  match l with
  | [] => []
  | EvSave c e :: rest =>
      if String.eqb c category then e :: saved_tags category rest
      else saved_tags category rest
  | _ :: rest => saved_tags category rest
  end.

(** a list of eight fields: three arrays, the control, the reward, two
    arrays and an int *)
Definition eight_fields (tr : list field) : Prop :=
  match tr with
  | [FArr _; FArr _; FArr _; FCtl _; FFloat _; FArr _; FArr _; FInt _] => True
  | _ => False
  end.

(** Every [env.step] is followed at once by one [agent.remember] of eight
    fields, and [agent.remember] is called nowhere else.  [pending] holds
    between the two calls. *)
Fixpoint recorded (pending : bool) (l : list event) : Prop :=
  match l with
  | [] => pending = false
  | EvEnvStep _ :: rest => pending = false /\ recorded true rest
  | EvRemember tr :: rest =>
      pending = true /\ eight_fields tr /\ recorded false rest
  | _ :: rest => pending = false /\ recorded false rest
  end.

(** the statements of [generate_rollout] after the [while] loop *)
Definition after_loop (l : locals) : H unit :=
  ep <- gets episode ;;
  update_self (set_episode (ep + 1)) ;;
  update_stats (l_episodic_q l) (l_episodic_r l) (l_t l) ;;
  sm <- gets summary ;;
  match sm with
  | Some _ => update_summaries (l_episodic_r l) (l_episodic_q l)
  | None => ret tt
  end ;;
  ev <- gets eval ;;
  when (negb ev) (log (l_episodic_q l) (l_episodic_r l) (l_t l)) ;;
  ev' <- gets eval ;;
  hit <- (if ev' then i <- read_info l ;; ret (is_success i) else ret false) ;;
  when hit (sc <- gets success ;; update_self (set_success (sc + 1))) ;;
  i <- read_info l ;;
  when (is_success i) (emit (EvLogOut "Reached goal.. hooray?")) ;;
  create_checkpoint.

(** the locals at the entry of the [while] loop *)
Definition start (x : obs_dict) : locals :=
  {| l_x := x; l_t := 0; l_done := false;
     l_episodic_q := PyFloat.zero; l_episodic_r := PyFloat.zero;
     l_info := None |}.

(** the locals of [generate_rollout] when its [while] loop is left *)
Definition final_locals (fuel : nat) (s : rstate) : option locals :=
  match
    outcome_of
      (while_loop fuel (start (snd (env_reset (env s))))
         {| self := self s; env := fst (env_reset (env s));
            agent := agent s |})
  with
  | Ret l => Some l
  | _ => None
  end.

(** the [info] of the last [env.step] of a rollout *)
Definition final_info (fuel : nat) (s : rstate) : option info_dict :=
  match final_locals fuel s with
  | Some l => l_info l
  | None => None
  end.

(** [loop_body] with the [assert] statement deleted *)
Definition loop_body_no_assert (l : locals) : H locals :=
  let x := l_x l in
  ev <- gets eval ;;
  ' (a, u, q) <-
    call_agent_step (hstack (observation x) (desired_goal x)) (negb ev) ;;
  ' (x2, r, d, inf) <- call_env_step a ;;
  call_remember
    [ FArr (observation x); FArr (desired_goal x); FArr (achieved_goal x);
      FCtl u; FFloat r; FArr (observation x2); FArr (desired_goal x2);
      FInt (int_of_bool d) ] ;;
  rd <- bind (gets (fun g => render (cfg g))) (getattr "render") ;;
  when rd call_render ;;
  ev' <- gets eval ;;
  (if negb ev' then
     n <- bind (gets (fun g => train_cycles_per_ts (cfg g)))
               (getattr "train_cycles_per_ts") ;;
     for_range n call_train
   else
     sl <- gets (fun g => step_sleep (cfg g)) ;;
     match sl with
     | Some s => emit (EvSleep s)
     | None => ret tt
     end) ;;
  ret {| l_x := x2; l_t := l_t l + 1; l_done := d;
         l_episodic_q := PyFloat.add (l_episodic_q l) q;
         l_episodic_r := PyFloat.add (l_episodic_r l) r;
         l_info := Some inf |}.

(** The operations a caller applies to a generator once it is built. *)
Inductive op : Type :=
| OpReset
| OpGenerateRollout (fuel : nat)
| OpCreateCheckpoint
| OpUpdateSummaries (episodic_r episodic_q : float)
| OpWriteSummary
| OpUpdateStats (eps_q eps_r : float) (t : Z)
| OpLog (q r : float) (t : Z)
| OpDone.

Definition run_op (o : op) (s : rstate) : rstate :=
  match o with
  | OpReset => state_of (reset s)
  | OpGenerateRollout fuel => state_of (generate_rollout fuel s)
  | OpCreateCheckpoint => state_of (create_checkpoint s)
  | OpUpdateSummaries r q => state_of (update_summaries r q s)
  | OpWriteSummary => state_of (write_summary s)
  | OpUpdateStats q r t => state_of (update_stats q r t s)
  | OpLog q r t => state_of (log q r t s)
  | OpDone => state_of (done s)
  end.

Definition is_reset (o : op) : bool :=
  match o with OpReset => true | _ => false end.

(** the state after a sequence of operations, whatever their outcomes *)
Definition run_ops (ops : list op) (s : rstate) : rstate :=
  fold_left (fun s o => run_op o s) ops s.

(** What the final log of [done] needs in evaluation mode once the budget
    [n] is used up. *)
Definition final_log_ok (g : generator) (n : Z) : Prop :=
  eval g = true -> n <= episode g ->
  mean_eq g <> None /\ mean_er g <> None /\ n <> 0 /\
  PyFloat.is_inf (PyFloat.int_div (success g) n) = false.

(** What a rollout needs to run to its last statement. *)
Definition ready (g : generator) : Prop :=
  render (cfg g) <> None /\
  (eval g = false -> train_cycles_per_ts (cfg g) <> None) /\
  (summary g <> None -> summary_writer g <> None) /\
  (summary g <> None -> eval g = true -> eval_counter g <> None) /\
  periodic_ckpt (cfg g) <> None /\
  (eval g = true -> save_best (cfg g) <> None) /\
  episode g + 1 <> 0 /\
  PyFloat.is_inf (PyFloat.of_int (episode g + 1)) = false.

(** *** Further observations on the events *)

Definition is_env_reset (ev : event) : bool :=
  match ev with EvEnvReset => true | _ => false end.

Definition is_render (ev : event) : bool :=
  match ev with EvRender => true | _ => false end.

Definition is_sleep (ev : event) : bool :=
  match ev with EvSleep _ => true | _ => false end.

Definition is_print_line (ev : event) : bool :=
  match ev with EvPrintLine _ _ _ _ _ => true | _ => false end.

Definition is_checkpoint (ev : event) : bool :=
  match ev with EvSave _ _ => true | _ => false end.

(** the calls made after the [while] loop of [generate_rollout]: summaries,
    log lines and checkpoints *)
Definition is_report_event (ev : event) : bool :=
  match ev with
  | EvAddSummary _ _ | EvFlush | EvInfoOut _ _ | EvLogOut _
  | EvPrintLine _ _ _ _ _ | EvSave _ _ => true
  | _ => false
  end.

(** the [explore] flags passed to [agent.step], in order *)
Fixpoint explore_flags (l : list event) : list bool :=
  match l with
  | [] => []
  | EvAgentStep _ e :: rest => e :: explore_flags rest
  | _ :: rest => explore_flags rest
  end.

(** the durations passed to [time.sleep], in order *)
Fixpoint sleeps (l : list event) : list float :=
  match l with
  | [] => []
  | EvSleep d :: rest => d :: sleeps rest
  | _ :: rest => sleeps rest
  end.

(** the rewards of the recorded transitions (their fifth field), in order *)
Fixpoint rewards (l : list event) : list float :=
  match l with
  | [] => []
  | EvRemember (_ :: _ :: _ :: _ :: FFloat r :: _) :: rest => r :: rewards rest
  | _ :: rest => rewards rest
  end.

(** the done flags of the recorded transitions (their eighth field), in
    order *)
Fixpoint done_flags (l : list event) : list Z :=
  match l with
  | [] => []
  | EvRemember (_ :: _ :: _ :: _ :: _ :: _ :: _ :: FInt d :: _) :: rest =>
      d :: done_flags rest
  | _ :: rest => done_flags rest
  end.

End Generator.

Arguments env_reset {Arr Act E _}.
Arguments env_step {Arr Act E _}.
Arguments env_render {Arr Act E _}.
Arguments max_episode_steps {Arr Act E _}.
Arguments agent_step {Arr Act Ctl A _}.
Arguments agent_remember {Arr Act Ctl A _}.
Arguments agent_train {Arr Act Ctl A _}.
Arguments gets {Arr Act Ctl E A T} f.
Arguments update_self {Arr Act Ctl E A} f.
Arguments call_env_reset {Arr Act Ctl E A EnvOps}.
Arguments call_agent_step {Arr Act Ctl E A AgentOps} inp explore.
Arguments call_env_step {Arr Act Ctl E A EnvOps} a.
Arguments call_remember {Arr Act Ctl E A AgentOps} tr.
Arguments call_render {Arr Act Ctl E A EnvOps}.
Arguments call_train {Arr Act Ctl E A AgentOps}.
Arguments reset {Arr Act Ctl E A}.
Arguments init {Arr Act Ctl E A} e a c _eval writer.
Arguments update_stats {Arr Act Ctl E A} eps_q eps_r t.
Arguments update_summaries {Arr Act Ctl E A} episodic_r episodic_q.
Arguments log {Arr Act Ctl E A} q r t.
Arguments write_summary {Arr Act Ctl E A}.
Arguments create_checkpoint {Arr Act Ctl E A}.
Arguments loop_body {Arr Act Ctl} hstack {E A EnvOps AgentOps} l.
Arguments loop_body_no_assert {Arr Act Ctl} hstack {E A EnvOps AgentOps} l.
Arguments while_loop {Arr Act Ctl} hstack {E A EnvOps AgentOps} fuel l.
Arguments read_info {Arr Act Ctl E A} l.
Arguments after_loop {Arr Act Ctl E A} l.
Arguments generate_rollout {Arr Act Ctl} hstack {E A EnvOps AgentOps} fuel.
Arguments done {Arr Act Ctl E A}.
Arguments final_locals {Arr Act Ctl} hstack {E A EnvOps AgentOps} fuel s.
Arguments final_info {Arr Act Ctl} hstack {E A EnvOps AgentOps} fuel s.
Arguments run_op {Arr Act Ctl} hstack {E A EnvOps AgentOps} o s.
Arguments run_ops {Arr Act Ctl} hstack {E A EnvOps AgentOps} ops s.
Arguments is_env_step {Arr Act Ctl} ev.
Arguments is_remember {Arr Act Ctl} ev.
Arguments is_train {Arr Act Ctl} ev.
Arguments is_summary {Arr Act Ctl} ev.
Arguments is_loop_event {Arr Act Ctl} ev.
Arguments is_save {Arr Act Ctl} category ev.
Arguments saved_tags {Arr Act Ctl} category l.
Arguments eight_fields {Arr Ctl} tr.
Arguments recorded {Arr Act Ctl} pending l.
Arguments start {Arr} x.
Arguments EvEnvReset {Arr Act Ctl}.
Arguments EvAgentStep {Arr Act Ctl} inp explore.
Arguments EvEnvStep {Arr Act Ctl} a.
Arguments EvRemember {Arr Act Ctl} tr.
Arguments EvRender {Arr Act Ctl}.
Arguments EvTrain {Arr Act Ctl}.
Arguments EvSleep {Arr Act Ctl} s.
Arguments EvSave {Arr Act Ctl} category tag.
Arguments EvAddSummary {Arr Act Ctl} values counter.
Arguments EvAddMerged {Arr Act Ctl} counter.
Arguments EvFlush {Arr Act Ctl}.
Arguments EvInfoOut {Arr Act Ctl} msg args.
Arguments EvLogOut {Arr Act Ctl} msg.
Arguments EvPrintLine {Arr Act Ctl} who ep r q t.
Arguments EvPrintBlank {Arr Act Ctl}.
Arguments EvEvalResult {Arr Act Ctl} r q t rate.
Arguments FArr {Arr Ctl} a.
Arguments FCtl {Arr Ctl} u.
Arguments FFloat {Arr Ctl} r.
Arguments FInt {Arr Ctl} z.
Arguments is_env_reset {Arr Act Ctl} ev.
Arguments is_render {Arr Act Ctl} ev.
Arguments is_sleep {Arr Act Ctl} ev.
Arguments is_print_line {Arr Act Ctl} ev.
Arguments is_checkpoint {Arr Act Ctl} ev.
Arguments is_report_event {Arr Act Ctl} ev.
Arguments explore_flags {Arr Act Ctl} l.
Arguments sleeps {Arr Act Ctl} l.
Arguments rewards {Arr Act Ctl} l.
Arguments done_flags {Arr Act Ctl} l.

End Rollout.

(** ** [train.py]: function [train] *)

Module Train.

Section Script.

Variables (Arr Act Ctl : Type).
Variable hstack : Arr -> Arr -> Arr.

(** [scale_action]: numpy arithmetic on the action array *)
Variable scale_action : Act -> Act.

(** the observation dictionary of [G2Goal], keys ["obs"], ["goal"], ["ag"] *)
Record obs_dict : Type := { obs : Arr; goal : Arr; ag : Arr }.

Record info_dict : Type := { dist : float }.

Inductive field : Type :=
| FArr (a : Arr)
| FCtl (u : Ctl)
| FFloat (r : float)
| FInt (z : Z).

(** Calls to the collaborators.  [EvAgentStep inp d e]: [d] is
    [is_u_discrete], [e] the keyword [explore] when it is passed.
    [EvStepSummary a q n step] stands for the three values added to
    [s_summary] (the two components of the action [a] and the mean Q-value
    [q / n], a numpy division) and the call
    [summarizer.add_summary(s_summary, step)].  In [EvPrintLine] the last
    field is [None] for the literal [-1] of the evaluation lines.
    [EvSave e] is [saver.save(tf_session, "__checkpoints/nb_policy", e)]. *)
Inductive event : Type :=
| EvEnvReset
| EvAgentStep (inp : Arr) (discrete : bool) (explore : option bool)
| EvEnvStep (a : Act)
| EvRender
| EvTrain
| EvRemember (tr : list field)
| EvStepSummary (a : Act) (episodic_q : float) (steps : Z) (step : Z)
| EvRunSummary (episode : Z)
| EvFlush
| EvPrintLine (who : string) (n : Z) (r : Z) (q : float) (t : Z)
    (min_d : option float)
| EvPrintBlank
| EvPrintBest (new_score old_score : float)
| EvSave (episode : Z).

Class Environment (E : Type) : Type := {
  env_reset : E -> E * obs_dict;
  env_step : E -> Act -> E * (obs_dict * float * bool * info_dict);
  env_render : E -> E;
  get_current_distance : E -> float;
  _max_episode_steps : Z;
  (** [len(env.action_space.shape) == 0] *)
  is_u_discrete : bool }.

Class Agent (A : Type) : Type := {
  agent_step : A -> Arr -> bool -> option bool -> A * (Act * Ctl * float);
  agent_remember : A -> list field -> A;
  agent_train : A -> A }.

(** The keys of the configuration mapping that matter here; [train] reads
    ["n_episodes"] and ["render"] only. *)
Record config : Type := {
  n_episodes : option Z;
  render : option bool;
  train_cycles_per_ts : option Z }.

Context {E A : Type} {EnvOps : Environment E} {AgentOps : Agent A}.

Record world : Type := { env : E; agent : A }.

Definition H : Type -> Type := M world event.

Definition call_env_reset : H obs_dict :=
  fun s =>
    let '(e', x) := env_reset (env s) in
    ({| env := e'; agent := agent s |}, [EvEnvReset], Ret x).

Definition call_get_current_distance : H float :=
  fun s => (s, [], Ret (get_current_distance (env s))).

Definition call_agent_step (inp : Arr) (discrete : bool)
    (explore : option bool) : H (Act * Ctl * float) :=
  fun s =>
    let '(a', res) := agent_step (agent s) inp discrete explore in
    ({| env := env s; agent := a' |}, [EvAgentStep inp discrete explore],
     Ret res).

Definition call_env_step (a : Act) : H (obs_dict * float * bool * info_dict) :=
  fun s =>
    let '(e', res) := env_step (env s) a in
    ({| env := e'; agent := agent s |}, [EvEnvStep a], Ret res).

Definition call_render : H unit :=
  fun s => ({| env := env_render (env s); agent := agent s |}, [EvRender], Ret tt).

Definition call_train : H unit :=
  fun s => ({| env := env s; agent := agent_train (agent s) |}, [EvTrain], Ret tt).

Definition call_remember (tr : list field) : H unit :=
  fun s =>
    ({| env := env s; agent := agent_remember (agent s) tr |},
     [EvRemember tr], Ret tt).

(** The locals of one training episode. *)
Record ep_locals : Type := {
  l_obs : obs_dict;
  l_episodic_r : float;
  l_episodic_q : float;
  l_episode_batch : list (list field);
  l_min_d2goal : float;
  l_done : bool;
  l_i : option Z }.

(** The body of [for i in range(env._max_episode_steps)] up to the test
    [if done: break]. *)
Definition step_body (c : config) (i : Z) (l : ep_locals)
    : H (ep_locals * Act) :=
  let o := l_obs l in
  ' (action, u, q) <-
    call_agent_step (hstack (obs o) (goal o)) is_u_discrete None ;;
  let episodic_q := PyFloat.add (l_episodic_q l) q in
  let action := scale_action action in
  ' (new_obs, r, d, inf) <- call_env_step action ;;
  let batch :=
    l_episode_batch l ++
    [ [ FArr (obs o); FArr (goal o); FArr (ag o); FCtl u; FFloat r;
        FArr (obs new_obs); FArr (goal new_obs); FInt (int_of_bool d) ] ] in
  let min_d :=
    if PyFloat.ltb (dist inf) (l_min_d2goal l) then dist inf
    else l_min_d2goal l in
  when (match render c with Some b => b | None => false end) call_render ;;
  let episodic_r := PyFloat.add (l_episodic_r l) r in
  for_range 5 call_train ;;
  ret ({| l_obs := new_obs; l_episodic_r := episodic_r;
          l_episodic_q := episodic_q; l_episode_batch := batch;
          l_min_d2goal := min_d; l_done := d; l_i := Some i |}, action).

(** [for i in range(env._max_episode_steps)]: [k] iterations remain, the
    next index is [i]. *)
Fixpoint step_loop (c : config) (episode : Z) (k : nat) (i : Z)
    (l : ep_locals) : H ep_locals :=
  match k with
  | O => ret l
  | S k' =>
      ' (l', action) <- step_body c i l ;;
      if l_done l' then ret l'
      else
        emit (EvStepSummary action (l_episodic_q l') (i + 1)
                (episode * _max_episode_steps + i)) ;;
        step_loop c episode k' (i + 1) l'
  end.

(** [for experience in episode_batch: ddpg_agent.remember(experience)] *)
Fixpoint flush_batch (batch : list (list field)) : H unit :=
  match batch with
  | [] => ret tt
  | tr :: rest => call_remember tr ;; flush_batch rest
  end.

(** The locals of one evaluation run. *)
Record run_locals : Type := {
  r_obs : obs_dict;
  r_eval_score : float;
  r_eval_q : float;
  r_j : option Z }.

(** [for j in range(env._max_episode_steps)] of an evaluation run *)
Fixpoint eval_loop (k : nat) (j : Z) (l : run_locals) : H run_locals :=
  match k with
  | O => ret l
  | S k' =>
      let o := r_obs l in
      ' (u, _, q) <-
        call_agent_step (hstack (obs o) (goal o)) is_u_discrete (Some false) ;;
      ' (o', r, d, _) <- call_env_step u ;;
      let l' := {| r_obs := o';
                   r_eval_score := PyFloat.add (r_eval_score l) r;
                   r_eval_q := PyFloat.add (r_eval_q l) q;
                   r_j := Some j |} in
      if d then ret l' else eval_loop k' (j + 1) l'
  end.

(** The locals of [train] that outlive an episode. *)
Record train_locals : Type := {
  current_best_eval_score : float;
  t_i : option Z;
  t_j : option Z }.

(** [for eval_run in range(5)]: [k] runs remain, the next is [eval_run]. *)
Fixpoint eval_runs (k : nat) (eval_run : Z) (m_eval_score m_eval_q : float)
    (j : option Z) : H (float * float * option Z) :=
  match k with
  | O => ret (m_eval_score, m_eval_q, j)
  | S k' =>
      o <- call_env_reset ;;
      l <- eval_loop (Z.to_nat _max_episode_steps) 0
             {| r_obs := o; r_eval_score := PyFloat.zero;
                r_eval_q := PyFloat.zero; r_j := j |} ;;
      let m_eval_q' := PyFloat.add m_eval_q (r_eval_q l) in
      let m_eval_score' := PyFloat.add m_eval_score (r_eval_score l) in
      sc <- int_of_float (r_eval_score l) ;;
      jv <- read_local "j" (r_j l) ;;
      emit (EvPrintLine "E" (eval_run + 1) sc m_eval_q' (jv + 1) None) ;;
      eval_runs k' (eval_run + 1) m_eval_score' m_eval_q' (r_j l)
  end.

(** The body of [for episode in range(config["n_episodes"])]. *)
Definition episode_body (c : config) (episode : Z) (tl : train_locals)
    : H train_locals :=
  o <- call_env_reset ;;
  d0 <- call_get_current_distance ;;
  l <- step_loop c episode (Z.to_nat _max_episode_steps) 0
         {| l_obs := o; l_episodic_r := PyFloat.zero;
            l_episodic_q := PyFloat.zero; l_episode_batch := [];
            l_min_d2goal := d0; l_done := false; l_i := t_i tl |} ;;
  flush_batch (l_episode_batch l) ;;
  r <- int_of_float (l_episodic_r l) ;;
  iv <- read_local "i" (l_i l) ;;
  emit (EvPrintLine "T" (episode + 1) r (l_episodic_q l) (iv + 1)
          (Some (l_min_d2goal l))) ;;
  emit (EvRunSummary episode) ;;
  emit EvFlush ;;
  if negb ((episode + 1) mod 20 =? 0) then
    ret {| current_best_eval_score := current_best_eval_score tl;
           t_i := l_i l; t_j := t_j tl |}
  else
    emit EvPrintBlank ;;
    ' (m_eval_score, m_eval_q, j) <-
      eval_runs 5 0 PyFloat.zero PyFloat.zero (t_j tl) ;;
    emit EvPrintBlank ;;
    if PyFloat.gtb m_eval_score (current_best_eval_score tl) then
      emit (EvPrintBest m_eval_score (current_best_eval_score tl)) ;;
      emit (EvSave episode) ;;
      ret {| current_best_eval_score := m_eval_score;
             t_i := l_i l; t_j := j |}
    else
      ret {| current_best_eval_score := current_best_eval_score tl;
             t_i := l_i l; t_j := j |}.

(** [for episode in range(n)]: [k] episodes remain, the next is [episode]. *)
Fixpoint episodes (c : config) (k : nat) (episode : Z) (tl : train_locals)
    : H train_locals :=
  match k with
  | O => ret tl
  | S k' =>
      tl' <- episode_body c episode tl ;;
      episodes c k' (episode + 1) tl'
  end.

(** [train(config)], from the first statement of the episode loop; the
    value returned is the locals at the end (the function returns [None]). *)
Definition train (c : config) : H train_locals :=
  match n_episodes c with
  | None => raise (KeyError "n_episodes")
  | Some n =>
      episodes c (Z.to_nat n) 0
        {| current_best_eval_score := PyFloat.zero;
           t_i := None; t_j := None |}
  end.

(** *** Observations on the events of [train] *)

Definition is_env_step (ev : event) : bool :=
  match ev with EvEnvStep _ => true | _ => false end.

Definition is_train (ev : event) : bool :=
  match ev with EvTrain => true | _ => false end.

Definition is_remember (ev : event) : bool :=
  match ev with EvRemember _ => true | _ => false end.

Definition is_save (ev : event) : bool :=
  match ev with EvSave _ => true | _ => false end.

(** the scores announced as new best, in order *)
Fixpoint best_scores (l : list event) : list float :=
  match l with
  | [] => []
  | EvPrintBest m _ :: rest => m :: best_scores rest
  | _ :: rest => best_scores rest
  end.

(** the transitions handed to [ddpg_agent.remember], in order *)
Fixpoint remembered (l : list event) : list (list field) :=
  match l with
  | [] => []
  | EvRemember tr :: rest => tr :: remembered rest
  | _ :: rest => remembered rest
  end.

Definition eight_fields (tr : list field) : Prop :=
  match tr with
  | [FArr _; FArr _; FArr _; FCtl _; FFloat _; FArr _; FArr _; FInt _] => True
  | _ => False
  end.

(** *** Further observations on the events *)

Definition is_env_reset (ev : event) : bool :=
  match ev with EvEnvReset => true | _ => false end.

Definition is_render (ev : event) : bool :=
  match ev with EvRender => true | _ => false end.

(** a training step: [ddpg_agent.step] called without [explore] *)
Definition is_training_step (ev : event) : bool :=
  match ev with EvAgentStep _ _ None => true | _ => false end.

(** an evaluation step: [ddpg_agent.step] called with [explore=False] *)
Definition is_eval_step (ev : event) : bool :=
  match ev with EvAgentStep _ _ (Some false) => true | _ => false end.

(** the log line of an evaluation run *)
Definition is_eval_line (ev : event) : bool :=
  match ev with
  | EvPrintLine who _ _ _ _ _ => String.eqb who "E"
  | _ => false
  end.

(** the log line of a training episode *)
Definition is_train_line (ev : event) : bool :=
  match ev with
  | EvPrintLine who _ _ _ _ _ => String.eqb who "T"
  | _ => false
  end.

Definition is_step_summary (ev : event) : bool :=
  match ev with EvStepSummary _ _ _ _ => true | _ => false end.

(** the global step indices of the step summaries, in order *)
Fixpoint summary_steps (l : list event) : list Z :=
  match l with
  | [] => []
  | EvStepSummary _ _ _ step :: rest => step :: summary_steps rest
  | _ :: rest => summary_steps rest
  end.

(** the rewards of a batch of transitions (their fifth field), in order *)
Fixpoint batch_rewards (batch : list (list field)) : list float :=
  match batch with
  | [] => []
  | (_ :: _ :: _ :: _ :: FFloat r :: _) :: rest => r :: batch_rewards rest
  | _ :: rest => batch_rewards rest
  end.

(** the episode indices of the checkpoints, in order *)
Fixpoint saved_episodes (l : list event) : list Z :=
  match l with
  | [] => []
  | EvSave e :: rest => e :: saved_episodes rest
  | _ :: rest => saved_episodes rest
  end.

End Script.

Arguments env_reset {Arr Act E _}.
Arguments env_step {Arr Act E _}.
Arguments env_render {Arr Act E _}.
Arguments get_current_distance {Arr Act E _}.
Arguments _max_episode_steps {Arr Act E _}.
Arguments is_u_discrete {Arr Act E _}.
Arguments agent_step {Arr Act Ctl A _}.
Arguments agent_remember {Arr Act Ctl A _}.
Arguments agent_train {Arr Act Ctl A _}.
Arguments call_env_reset {Arr Act Ctl E A EnvOps}.
Arguments call_get_current_distance {Arr Act Ctl E A EnvOps}.
Arguments call_agent_step {Arr Act Ctl E A AgentOps} inp discrete explore.
Arguments call_env_step {Arr Act Ctl E A EnvOps} a.
Arguments call_render {Arr Act Ctl E A EnvOps}.
Arguments call_train {Arr Act Ctl E A AgentOps}.
Arguments call_remember {Arr Act Ctl E A AgentOps} tr.
Arguments step_body {Arr Act Ctl} hstack scale_action {E A EnvOps AgentOps} c i l.
Arguments step_loop {Arr Act Ctl} hstack scale_action {E A EnvOps AgentOps} c episode k i l.
Arguments flush_batch {Arr Act Ctl E A AgentOps} batch.
Arguments eval_loop {Arr Act Ctl} hstack {E A EnvOps AgentOps} k j l.
Arguments eval_runs {Arr Act Ctl} hstack {E A EnvOps AgentOps} k eval_run m_eval_score m_eval_q j.
Arguments episode_body {Arr Act Ctl} hstack scale_action {E A EnvOps AgentOps} c episode tl.
Arguments episodes {Arr Act Ctl} hstack scale_action {E A EnvOps AgentOps} c k episode tl.
Arguments train {Arr Act Ctl} hstack scale_action {E A EnvOps AgentOps} c.
Arguments is_env_step {Arr Act Ctl} ev.
Arguments is_train {Arr Act Ctl} ev.
Arguments is_remember {Arr Act Ctl} ev.
Arguments is_save {Arr Act Ctl} ev.
Arguments best_scores {Arr Act Ctl} l.
Arguments remembered {Arr Act Ctl} l.
Arguments eight_fields {Arr Ctl} tr.
Arguments EvEnvReset {Arr Act Ctl}.
Arguments EvAgentStep {Arr Act Ctl} inp discrete explore.
Arguments EvEnvStep {Arr Act Ctl} a.
Arguments EvRender {Arr Act Ctl}.
Arguments EvTrain {Arr Act Ctl}.
Arguments EvRemember {Arr Act Ctl} tr.
Arguments EvStepSummary {Arr Act Ctl} a episodic_q steps step.
Arguments EvRunSummary {Arr Act Ctl} episode.
Arguments EvFlush {Arr Act Ctl}.
Arguments EvPrintLine {Arr Act Ctl} who n r q t min_d.
Arguments EvPrintBlank {Arr Act Ctl}.
Arguments EvPrintBest {Arr Act Ctl} new_score old_score.
Arguments EvSave {Arr Act Ctl} episode.
Arguments FArr {Arr Ctl} a.
Arguments FCtl {Arr Ctl} u.
Arguments FFloat {Arr Ctl} r.
Arguments FInt {Arr Ctl} z.
Arguments is_env_reset {Arr Act Ctl} ev.
Arguments is_render {Arr Act Ctl} ev.
Arguments is_training_step {Arr Act Ctl} ev.
Arguments is_eval_step {Arr Act Ctl} ev.
Arguments is_eval_line {Arr Act Ctl} ev.
Arguments is_train_line {Arr Act Ctl} ev.
Arguments is_step_summary {Arr Act Ctl} ev.
Arguments summary_steps {Arr Act Ctl} l.
Arguments saved_episodes {Arr Act Ctl} l.
Arguments batch_rewards {Arr Ctl} batch.

End Train.

(** ** A scripted environment and a counting agent

    Concrete collaborators on which the model is run: arrays, actions and
    controls are integers, the environment plays a script of steps, the
    agent counts what it is asked to remember. *)

Module Stub.

Definition hstack (a b : Z) : Z := a + b.

Definition scale_action (a : Z) : Z := a.

(** the steps still to be played: reward, done flag, success flag *)
Definition script : Type := list (float * bool * bool).

Definition f1 : float := PyFloat.of_int 1.
Definition f2 : float := PyFloat.of_int 2.
Definition f3 : float := PyFloat.of_int 3.
Definition f6 : float := PyFloat.of_int 6.
(** 1.5 *)
Definition f1_5 : float := PyFloat.div f3 f2.

Definition an_obs : Rollout.obs_dict Z :=
  {| Rollout.observation := 1; Rollout.desired_goal := 2;
     Rollout.achieved_goal := 3 |}.

Definition next_obs : Rollout.obs_dict Z :=
  {| Rollout.observation := 4; Rollout.desired_goal := 5;
     Rollout.achieved_goal := 6 |}.

Definition play (s : script) (_ : Z)
    : script * (Rollout.obs_dict Z * float * bool * Rollout.info_dict) :=
  match s with
  | [] => ([], (next_obs, PyFloat.zero, true,
                {| Rollout.is_success := false |}))
  | (r, d, ok) :: rest =>
      (rest, (next_obs, r, d, {| Rollout.is_success := ok |}))
  end.

Definition scripted_env (cap : Z) : Rollout.Environment Z Z script :=
  {| Rollout.env_reset := fun s => (s, an_obs);
     Rollout.env_step := play;
     Rollout.env_render := fun s => s;
     Rollout.max_episode_steps := cap |}.

(** the agent answers action 0, control 7 and Q-value 0; its state is the
    number of transitions it holds *)
Definition counting_agent : Rollout.Agent Z Z Z nat :=
  {| Rollout.agent_step := fun a _ _ => (a, (0, 7, PyFloat.zero));
     Rollout.agent_remember := fun a _ => S a;
     Rollout.agent_train := fun a => a |}.

Definition state : Type := @Rollout.rstate script nat.

Definition events : Type := list (Rollout.event Z Z Z).

(** [generate_rollout] on the stub, with a step cap of 3 *)
Definition rollout (s : state) : state * events * outcome unit :=
  @Rollout.generate_rollout Z Z Z hstack script nat (scripted_env 3)
    counting_agent 3 s.

(** [n] rollouts in a row *)
Definition rollouts (n : nat) (s : state) : state * events * outcome unit :=
  repeat_m n rollout s.

Definition one_step (r : float) (ok : bool) : float * bool * bool :=
  (r, true, ok).

(** an evaluation generator with "save best", on episodes of one step
    with rewards 2, 1 and 6: the running means are 2, 1.5 and 3 *)
Definition eval_config : Rollout.config :=
  {| Rollout.render := Some false; Rollout.train_cycles_per_ts := None;
     Rollout.periodic_ckpt := None; Rollout.save_best := Some true;
     Rollout.n_episodes := Some 3; Rollout.step_sleep := None |}.

Definition eval_start : state :=
  state_of
    (@Rollout.init Z Z Z script nat
       [one_step f2 false; one_step f1 false; one_step f6 false] 0%nat
       eval_config true (Some Rollout.TfObject)).

(** a training generator with [periodic_ckpt = 5], on twelve episodes of
    one step *)
Definition train_config : Rollout.config :=
  {| Rollout.render := Some false; Rollout.train_cycles_per_ts := Some 2;
     Rollout.periodic_ckpt := Some (PInt 5); Rollout.save_best := None;
     Rollout.n_episodes := Some 12; Rollout.step_sleep := None |}.

Definition train_start : state :=
  state_of
    (@Rollout.init Z Z Z script nat
       (repeat (one_step f1 false) 12) 0%nat
       train_config false (Some Rollout.TfObject)).

(** a training generator whose episode ends on a success *)
Definition train_success_start : state :=
  state_of
    (@Rollout.init Z Z Z script nat
       [one_step f1 true] 0%nat
       train_config false (Some Rollout.TfObject)).

(** an evaluation generator whose episode ends on a success *)
Definition eval_success_start : state :=
  state_of
    (@Rollout.init Z Z Z script nat
       [one_step f1 true] 0%nat
       eval_config true (Some Rollout.TfObject)).

(** a training generator built without a summary writer
    ([summary_writer=None], the default) *)
Definition no_sink_start : state :=
  state_of
    (@Rollout.init Z Z Z script nat
       [one_step f1 false] 0%nat
       train_config false None).

(** a training generator whose configuration has no
    [train_cycles_per_ts] *)
Definition missing_cycles_start : state :=
  state_of
    (@Rollout.init Z Z Z script nat
       [one_step f1 false] 0%nat
       eval_config false (Some Rollout.TfObject)).

(** an evaluation generator with "save best" on an episode of reward 0 *)
Definition eval_zero_start : state :=
  state_of
    (@Rollout.init Z Z Z script nat
       [one_step PyFloat.zero false] 0%nat
       eval_config true (Some Rollout.TfObject)).

(** an evaluation generator that renders and sleeps 1.5 s after each step,
    on an episode of two steps that ends on a success *)
Definition sleepy_config : Rollout.config :=
  {| Rollout.render := Some true; Rollout.train_cycles_per_ts := None;
     Rollout.periodic_ckpt := None; Rollout.save_best := None;
     Rollout.n_episodes := Some 1; Rollout.step_sleep := Some f1_5 |}.

Definition sleepy_start : state :=
  state_of
    (@Rollout.init Z Z Z script nat
       [(f1, false, false); (f2, true, true)] 0%nat
       sleepy_config true (Some Rollout.TfObject)).

(** a training generator whose configuration has no [render] *)
Definition no_render_config : Rollout.config :=
  {| Rollout.render := None; Rollout.train_cycles_per_ts := Some 2;
     Rollout.periodic_ckpt := None; Rollout.save_best := None;
     Rollout.n_episodes := Some 1; Rollout.step_sleep := None |}.

Definition no_render_start : state :=
  state_of
    (@Rollout.init Z Z Z script nat
       [(f1, false, false); (f2, true, true)] 0%nat
       no_render_config false (Some Rollout.TfObject)).

(** a training generator that renders, with a [step_sleep] it never uses,
    on an episode of two steps *)
Definition rendering_config : Rollout.config :=
  {| Rollout.render := Some true; Rollout.train_cycles_per_ts := Some 2;
     Rollout.periodic_ckpt := None; Rollout.save_best := None;
     Rollout.n_episodes := Some 1; Rollout.step_sleep := Some f1_5 |}.

Definition rendering_start : state :=
  state_of
    (@Rollout.init Z Z Z script nat
       [(f1, false, false); (f2, true, true)] 0%nat
       rendering_config false (Some Rollout.TfObject)).

(** an evaluation generator with an episode budget of zero *)
Definition zero_budget_config : Rollout.config :=
  {| Rollout.render := Some false; Rollout.train_cycles_per_ts := None;
     Rollout.periodic_ckpt := None; Rollout.save_best := None;
     Rollout.n_episodes := Some 0; Rollout.step_sleep := None |}.

(** *** The same for [train.py] *)

Definition g_obs : Train.obs_dict Z :=
  {| Train.obs := 1; Train.goal := 2; Train.ag := 3 |}.

Definition g_next : Train.obs_dict Z :=
  {| Train.obs := 4; Train.goal := 5; Train.ag := 6 |}.

Definition g_play (s : script) (_ : Z)
    : script * (Train.obs_dict Z * float * bool * Train.info_dict) :=
  match s with
  | [] => ([], (g_next, PyFloat.zero, true, {| Train.dist := PyFloat.zero |}))
  | (r, d, _) :: rest => (rest, (g_next, r, d, {| Train.dist := f1 |}))
  end.

Definition g2goal (cap : Z) : Train.Environment Z Z script :=
  {| Train.env_reset := fun s => (s, g_obs);
     Train.env_step := g_play;
     Train.env_render := fun s => s;
     Train.get_current_distance := fun _ => f2;
     Train._max_episode_steps := cap;
     Train.is_u_discrete := false |}.

Definition ddpg : Train.Agent Z Z Z nat :=
  {| Train.agent_step := fun a _ _ _ => (a, (0, 7, PyFloat.zero));
     Train.agent_remember := fun a _ => S a;
     Train.agent_train := fun a => a |}.

Definition world : Type := @Train.world script nat.

Definition script_config : Train.config :=
  {| Train.n_episodes := Some 2; Train.render := None;
     Train.train_cycles_per_ts := Some 40 |}.

(** two steps, the second one terminal, then one terminal step *)
Definition script_world : world :=
  {| Train.env := [(f1, false, false); (f2, true, false); (f1, true, false)];
     Train.agent := 0%nat |}.

(** an episode whose only reward is not a number *)
Definition nan_world : world :=
  {| Train.env := [(S754_nan, true, false)]; Train.agent := 0%nat |}.

(** thirty terminal steps of reward 1, then terminal steps of reward 0 *)
Definition long_world : world :=
  {| Train.env := repeat (f1, true, false) 30; Train.agent := 0%nat |}.

(** the locals of [train] before its first episode *)
Definition fresh_locals : Train.train_locals :=
  {| Train.current_best_eval_score := PyFloat.zero;
     Train.t_i := None; Train.t_j := None |}.

(** forty episodes, rendered *)
Definition long_config : Train.config :=
  {| Train.n_episodes := Some 40; Train.render := Some true;
     Train.train_cycles_per_ts := None |}.

End Stub.

Unset Implicit Arguments.

(** ** Order facts on floats *)

Module PyFloatFacts.

Lemma gtb_nonneg (a b : float) :
  PyFloat.leb PyFloat.zero a = true -> PyFloat.gtb b a = true ->
  PyFloat.leb PyFloat.zero b = true.
Proof.
  unfold PyFloat.leb, PyFloat.gtb, PyFloat.ltb, PyFloat.zero, SFleb, SFltb.
  destruct a as [sa|sa| |sa ma ea], b as [sb|sb| |sb mb eb]; simpl;
    try discriminate; try reflexivity;
    repeat match goal with
           | s : bool |- _ => destruct s
           end; simpl; try discriminate; try reflexivity.
Qed.

Lemma gtb_nonpos_false (m b : float) :
  PyFloat.leb PyFloat.zero b = true -> PyFloat.leb m PyFloat.zero = true ->
  PyFloat.gtb m b = false.
Proof.
  unfold PyFloat.leb, PyFloat.gtb, PyFloat.ltb, PyFloat.zero, SFleb, SFltb.
  destruct m as [sa|sa| |sa ma ea], b as [sb|sb| |sb mb eb]; simpl;
    try discriminate; try reflexivity;
    repeat match goal with
           | s : bool |- _ => destruct s
           end; simpl; try discriminate; try reflexivity.
Qed.

Lemma gtb_pos (a b : float) :
  PyFloat.leb PyFloat.zero a = true -> PyFloat.gtb b a = true ->
  PyFloat.gtb b PyFloat.zero = true.
Proof.
  unfold PyFloat.leb, PyFloat.gtb, PyFloat.ltb, PyFloat.zero, SFleb, SFltb.
  destruct a as [sa|sa| |sa ma ea], b as [sb|sb| |sb mb eb]; simpl;
    try discriminate; try reflexivity;
    repeat match goal with
           | s : bool |- _ => destruct s
           end; simpl; try discriminate; try reflexivity.
Qed.

Lemma leb_zero_zero : PyFloat.leb PyFloat.zero PyFloat.zero = true.
Proof. reflexivity. Qed.

End PyFloatFacts.

(** ** Facts on event counts *)

Lemma count_app {T} (p : T -> bool) (a b : list T) :
  count p (a ++ b) = (count p a + count p b)%nat.
Proof. unfold count. rewrite filter_app, length_app. reflexivity. Qed.

Lemma count_nil {T} (p : T -> bool) : count p [] = 0%nat.
Proof. reflexivity. Qed.

Lemma count_cons {T} (p : T -> bool) (x : T) (l : list T) :
  count p (x :: l) = ((if p x then 1 else 0) + count p l)%nat.
Proof. unfold count. simpl. destruct (p x); reflexivity. Qed.

Lemma count_repeat_true {T} (p : T -> bool) (x : T) (n : nat) :
  p x = true -> count p (repeat x n) = n.
Proof.
  intros Hx. induction n as [|n IH]; simpl.
  - reflexivity.
  - rewrite count_cons, Hx, IH. reflexivity.
Qed.

Lemma count_repeat_false {T} (p : T -> bool) (x : T) (n : nat) :
  p x = false -> count p (repeat x n) = 0%nat.
Proof.
  intros Hx. induction n as [|n IH]; simpl.
  - reflexivity.
  - rewrite count_cons, Hx, IH. reflexivity.
Qed.

Lemma count_zero_not_in {T} (p : T -> bool) (l : list T) (x : T) :
  count p l = 0%nat -> In x l -> p x = false.
Proof.
  intros Hc Hin. destruct (p x) eqn:Hp; [|reflexivity].
  assert (Hf : In x (filter p l)) by (apply filter_In; split; assumption).
  unfold count in Hc. destruct (filter p l); [destruct Hf | discriminate].
Qed.

Arguments PyFloat.of_int : simpl never.
Arguments PyFloat.add : simpl never.
Arguments PyFloat.div : simpl never.
Arguments PyFloat.mul : simpl never.
Arguments PyFloat.int_div : simpl never.
Arguments PyFloat.gtb : simpl never.
Arguments PyFloat.ltb : simpl never.
Arguments PyFloat.leb : simpl never.
Arguments Z.add : simpl never.
Arguments Z.modulo : simpl never.
Arguments Z.eqb : simpl never.
Arguments Z.leb : simpl never.
Arguments Z.ltb : simpl never.

Module RolloutFacts.
Import Rollout.
Section Facts.
Context {Arr Act Ctl : Type} (hstack : Arr -> Arr -> Arr).
Context {E A : Type} {EnvOps : Environment Arr Act E} {AgentOps : Agent Arr Act Ctl A}.



Ltac unfold_ops :=
  unfold bind, gets, getattr, when, emit, update_self, modify, ret, raise,
    read_info, read_local, assert, events_of, state_of, outcome_of,
    float_div_int, int_true_div in *.

Ltac case_scrut :=
  match goal with
  | |- context [match ?x with _ => _ end] => is_var x; destruct x
  | |- context [match ?x with _ => _ end] =>
      lazymatch x with
      | context [match _ with _ => _ end] => fail
      | _ => destruct x eqn:?
      end
  end.

Ltac open_state s :=
  let g := fresh "g" in
  let ev := fresh "ev" in
  destruct s as [g ? ?];
  destruct g as [? ev ? ? ? ? [? ? ? ? ? ?] ? ? ? ? ? ? ?];
  simpl in *; subst; try destruct ev.

(** [for _ in range(n): self.agent.train()] *)
Lemma repeat_train (k : nat) (s : @rstate E A) :
  repeat_m k call_train s =
  ({| self := self s; env := env s;
      agent := Nat.iter k agent_train (agent s) |},
   repeat EvTrain k, Ret tt).
Proof.
  revert s. induction k as [|k IH]; intros s.
  - destruct s; reflexivity.
  - simpl. unfold bind at 1. unfold call_train at 1. rewrite IH. simpl.
    rewrite <- Nat.iter_succ_r. reflexivity.
Qed.


Lemma recorded_app (a b : list (event Arr Act Ctl)) (p : bool) :
  recorded p a -> recorded false b -> recorded p (a ++ b).
Proof.
  revert p. induction a as [|ev a IH]; intros p Ha Hb.
  - simpl in *. subst. exact Hb.
  - destruct ev; simpl in *;
      repeat match goal with
             | H : _ /\ _ |- _ => destruct H
             end;
      repeat split; auto.
Qed.

Lemma recorded_repeat_train (k : nat) :
  recorded false (repeat (@EvTrain Arr Act Ctl) k).
Proof. induction k; simpl; auto. Qed.

Ltac exec_body :=
  unfold loop_body, loop_body_no_assert, for_range; unfold_ops;
  unfold call_agent_step, call_env_step, call_remember, call_render;
  simpl;
  repeat (case_scrut; simpl; try rewrite repeat_train; simpl).

Lemma loop_body_self (l : locals Arr) (s : @rstate E A) :
  self (state_of (loop_body hstack l s)) = self s.
Proof. open_state s; exec_body; reflexivity. Qed.

Lemma loop_body_recorded (l : locals Arr) (s : @rstate E A) :
  recorded false (events_of (loop_body hstack l s)).
Proof.
  open_state s; exec_body; repeat split; auto;
    try (rewrite app_nil_r); try apply recorded_repeat_train.
Qed.

Lemma loop_body_counts (l : locals Arr) (s : @rstate E A) :
  count is_env_step (events_of (loop_body hstack l s)) = 1%nat /\
  count is_remember (events_of (loop_body hstack l s)) = 1%nat.
Proof.
  open_state s; exec_body; 
  repeat rewrite ?count_cons, ?count_app, ?count_nil, ?count_repeat_false by reflexivity;
  simpl; auto.
Qed.

Lemma loop_body_outcome (l : locals Arr) (s : @rstate E A) :
  outcome_of (loop_body hstack l s) <> OutOfFuel /\
  outcome_of (loop_body hstack l s) <> Raise AssertionError /\
  (forall l', outcome_of (loop_body hstack l s) = Ret l' ->
              l_t l' = l_t l + 1 /\ l_info l' <> None).
Proof.
  open_state s; exec_body; repeat split; try discriminate.
  all: match goal with
       | H : Ret _ = Ret _ |- _ => inversion H; subst; simpl
       end; try reflexivity; discriminate.
Qed.

Lemma loop_body_returns (l : locals Arr) (s : @rstate E A) :
  render (cfg (self s)) <> None ->
  (eval (self s) = false -> train_cycles_per_ts (cfg (self s)) <> None) ->
  exists l', outcome_of (loop_body hstack l s) = Ret l'.
Proof.
  intros Hr Ht. open_state s; exec_body; try congruence; eauto.
  all: exfalso; apply Ht; reflexivity.
Qed.

Lemma loop_body_train_eval (l : locals Arr) (s : @rstate E A) :
  eval (self s) = true ->
  count is_train (events_of (loop_body hstack l s)) = 0%nat.
Proof.
  intros He. open_state s; exec_body; reflexivity.
Qed.

Lemma loop_body_train_training (l : locals Arr) (s : @rstate E A) (n : Z) :
  eval (self s) = false ->
  render (cfg (self s)) <> None ->
  train_cycles_per_ts (cfg (self s)) = Some n ->
  count is_train (events_of (loop_body hstack l s)) = Z.to_nat n.
Proof.
  intros He Hr Ht. open_state s; exec_body; try congruence;
  repeat rewrite ?count_cons, ?count_app, ?count_nil, ?count_repeat_true by reflexivity;
  simpl; try lia; inversion Ht; subst; lia.
Qed.

Lemma loop_body_shape (l : locals Arr) (s : @rstate E A)
    (a1 : A) (act : Act) (u : Ctl) (q : float)
    (e1 : E) (x2 : obs_dict Arr) (r : float) (d : bool) (inf : info_dict) :
  agent_step (agent s)
    (hstack (observation (l_x l)) (desired_goal (l_x l)))
    (negb (eval (self s))) = (a1, (act, u, q)) ->
  env_step (env s) act = (e1, (x2, r, d, inf)) ->
  exists rest,
    events_of (loop_body hstack l s) =
      EvAgentStep (hstack (observation (l_x l)) (desired_goal (l_x l)))
                  (negb (eval (self s)))
      :: EvEnvStep act
      :: EvRemember
           [ FArr (observation (l_x l)); FArr (desired_goal (l_x l));
             FArr (achieved_goal (l_x l)); FCtl u; FFloat r;
             FArr (observation x2); FArr (desired_goal x2);
             FInt (int_of_bool d) ]
      :: rest /\
    count is_env_step rest = 0%nat /\
    count is_remember rest = 0%nat.
Proof.
  intros Hag Hen. open_state s; simpl in Hag, Hen;
    unfold loop_body, loop_body_no_assert, for_range; unfold_ops;
    unfold call_agent_step, call_env_step, call_remember, call_render;
    simpl; rewrite Hag; simpl; rewrite Hen; simpl;
    repeat (case_scrut; simpl; try rewrite repeat_train; simpl);
    eexists; (split; [reflexivity|]);
    rewrite ?count_cons, ?count_app, ?count_nil,
      ?count_repeat_false by reflexivity;
    split; reflexivity.
Qed.

Lemma loop_body_missing_cycles (l : locals Arr) (s : @rstate E A) :
  eval (self s) = false ->
  render (cfg (self s)) <> None ->
  train_cycles_per_ts (cfg (self s)) = None ->
  outcome_of (loop_body hstack l s) =
  Raise (AttributeError "train_cycles_per_ts").
Proof.
  intros He Hr Ht. open_state s; exec_body; congruence.
Qed.

Lemma loop_body_assert_dead (l : locals Arr) (s : @rstate E A) :
  loop_body hstack l s = loop_body_no_assert hstack l s.
Proof. open_state s; exec_body; reflexivity. Qed.


Lemma Forall_repeat {T} (P : T -> Prop) (x : T) (n : nat) :
  P x -> Forall P (repeat x n).
Proof. intros Hx. induction n; simpl; constructor; assumption. Qed.

Lemma loop_body_loop_events (l : locals Arr) (s : @rstate E A) :
  Forall (fun ev => is_loop_event ev = true) (events_of (loop_body hstack l s)).
Proof.
  open_state s; exec_body;
    repeat first [ apply Forall_nil
                 | apply Forall_cons; [reflexivity|]
                 | apply Forall_app; split
                 | apply Forall_repeat; reflexivity ].
Qed.

(** splitting a [bind] on the result of its first computation *)
Ltac bind_split Hm Hk :=
  unfold bind;
  match goal with
  | |- context [match ?m ?s with _ => _ end] =>
      let s1 := fresh "s1" in
      let o1 := fresh "o1" in
      let a := fresh "a" in
      let e := fresh "e" in
      destruct (m s) as [[s1 o1] [a|e|]] eqn:Hm;
      [ match goal with
        | |- context [match ?k a s1 with _ => _ end] =>
            let s2 := fresh "s2" in
            let o2 := fresh "o2" in
            let r := fresh "r" in
            destruct (k a s1) as [[s2 o2] r] eqn:Hk
        end | | ]
  end.

Lemma while_loop_unfold (fuel : nat) (l : locals Arr) (s : @rstate E A) :
  while_loop hstack (S fuel) l s =
  if negb (l_done l) && (l_t l <? max_episode_steps)
  then bind (loop_body hstack l) (while_loop hstack fuel) s
  else (s, [], Ret l).
Proof. simpl. destruct (negb (l_done l) && (l_t l <? max_episode_steps)); reflexivity. Qed.

Lemma while_loop_exit (fuel : nat) (l : locals Arr) (s : @rstate E A) :
  negb (l_done l) && (l_t l <? max_episode_steps) = false ->
  while_loop hstack fuel l s = (s, [], Ret l).
Proof. intros Hc. destruct fuel; simpl; rewrite Hc; reflexivity. Qed.

Lemma while_loop_inv (fuel : nat) :
  forall (l : locals Arr) (s : @rstate E A),
    let r := while_loop hstack fuel l s in
    self (state_of r) = self s /\
    recorded false (events_of r) /\
    count is_remember (events_of r) = count is_env_step (events_of r) /\
    (count is_env_step (events_of r) <= Z.to_nat (max_episode_steps - l_t l))%nat /\
    outcome_of r <> Raise AssertionError /\
    (forall l', outcome_of r = Ret l' ->
       l_t l' = l_t l + Z.of_nat (count is_env_step (events_of r)) /\
       (l_info l <> None \/
        negb (l_done l) && (l_t l <? max_episode_steps) = true ->
        l_info l' <> None)) /\
    (eval (self s) = true -> count is_train (events_of r) = 0%nat).
Proof.
  induction fuel as [|fuel IH]; intros l s r; subst r.
  - simpl. destruct (negb (l_done l) && (l_t l <? max_episode_steps)) eqn:Hc;
      simpl; repeat apply conj; auto; try lia; try discriminate;
      try (unfold events_of, ret, count; simpl; lia).
    all: intros l' Hl; inversion Hl; subst; split; [lia|].
    all: intros [Hi|Hi]; [exact Hi | discriminate].
  - rewrite while_loop_unfold.
    destruct (negb (l_done l) && (l_t l <? max_episode_steps)) eqn:Hc.
    + assert (Hlt : l_t l < max_episode_steps).
      { apply andb_true_iff in Hc. destruct Hc as [_ Hc].
        apply Z.ltb_lt in Hc. exact Hc. }
      pose proof (loop_body_self l s) as Bself.
      pose proof (loop_body_recorded l s) as Brec.
      pose proof (loop_body_counts l s) as [Bstep Brem].
      pose proof (loop_body_outcome l s) as [Bfuel [Bassert Bret]].
      pose proof (loop_body_train_eval l s) as Btrain.
      bind_split Hm Hk; unfold state_of, events_of, outcome_of in *; simpl in *.
      * specialize (IH a s1). rewrite Hk in IH.
        unfold state_of, events_of, outcome_of in IH. simpl in IH.
        destruct IH as [I1 [I2 [I3 [I4 [I5 [I6 I7]]]]]].
        destruct (Bret a eq_refl) as [Bt Bi].
        repeat apply conj.
        -- congruence.
        -- apply recorded_app; assumption.
        -- rewrite !count_app. lia.
        -- rewrite count_app. lia.
        -- exact I5.
        -- intros l' Hl. destruct (I6 l' Hl) as [I6a I6b]. split.
           ++ rewrite count_app. lia.
           ++ intros _. apply I6b. left. exact Bi.
        -- intros He. rewrite count_app, (Btrain He), I7; [reflexivity|congruence].
      * repeat apply conj; auto; try lia; try discriminate;
      try (unfold events_of, ret, count; simpl; lia).
      * exfalso. apply Bfuel. reflexivity.
    + simpl. repeat apply conj; auto; try lia; try discriminate;
      try (unfold events_of, ret, count; simpl; lia).
      all: intros l' Hl; inversion Hl; subst; split; [lia|].
      all: intros [Hi|Hi]; [exact Hi | discriminate].
Qed.

Lemma while_loop_loop_events (fuel : nat) :
  forall (l : locals Arr) (s : @rstate E A),
    Forall (fun ev => is_loop_event ev = true)
           (events_of (while_loop hstack fuel l s)).
Proof.
  induction fuel as [|fuel IH]; intros l s.
  - simpl. destruct (negb (l_done l) && (l_t l <? max_episode_steps));
      apply Forall_nil.
  - rewrite while_loop_unfold.
    destruct (negb (l_done l) && (l_t l <? max_episode_steps));
      [|apply Forall_nil].
    pose proof (loop_body_loop_events l s) as Hb.
    bind_split Hm Hk; unfold events_of in *; simpl in *; try assumption.
    apply Forall_app. split; [assumption|].
    specialize (IH a s1). rewrite Hk in IH. exact IH.
Qed.

Lemma while_loop_fuel (fuel : nat) :
  forall (l : locals Arr) (s : @rstate E A),
    (Z.to_nat (max_episode_steps - l_t l) <= fuel)%nat ->
    outcome_of (while_loop hstack fuel l s) <> OutOfFuel.
Proof.
  induction fuel as [|fuel IH]; intros l s Hf.
  - simpl. destruct (negb (l_done l) && (l_t l <? max_episode_steps)) eqn:Hc.
    + apply andb_true_iff in Hc. destruct Hc as [_ Hc]. apply Z.ltb_lt in Hc. lia.
    + simpl. discriminate.
  - rewrite while_loop_unfold.
    destruct (negb (l_done l) && (l_t l <? max_episode_steps)) eqn:Hc.
    + apply andb_true_iff in Hc. destruct Hc as [_ Hc]. apply Z.ltb_lt in Hc.
      pose proof (loop_body_outcome l s) as [Bfuel [_ Bret]].
      bind_split Hm Hk; unfold outcome_of in *; simpl in *.
      * destruct (Bret a eq_refl) as [Bt _].
        specialize (IH a s1). rewrite Hk in IH. simpl in IH. apply IH. lia.
      * discriminate.
      * exfalso. apply Bfuel. reflexivity.
    + simpl. discriminate.
Qed.


Lemma while_loop_more_fuel (fuel : nat) :
  forall (l : locals Arr) (s : @rstate E A) (fuel' : nat),
    outcome_of (while_loop hstack fuel l s) <> OutOfFuel ->
    (fuel <= fuel')%nat ->
    while_loop hstack fuel' l s = while_loop hstack fuel l s.
Proof.
  induction fuel as [|fuel IH]; intros l s fuel' Hout Hle.
  - simpl in *. destruct (negb (l_done l) && (l_t l <? max_episode_steps)) eqn:Hc.
    + exfalso. apply Hout. reflexivity.
    + apply while_loop_exit. exact Hc.
  - destruct fuel' as [|fuel']; [lia|].
    rewrite !while_loop_unfold in *.
    destruct (negb (l_done l) && (l_t l <? max_episode_steps)) eqn:Hc;
      [|reflexivity].
    revert Hout. unfold bind.
    destruct (loop_body hstack l s) as [[s1 o1] [a|e|]]; try reflexivity.
    intros Hout. rewrite (IH a s1 fuel'); [reflexivity| |lia].
    intros Hf. apply Hout.
    destruct (while_loop hstack fuel a s1) as [[s2 o2] r]. exact Hf.
Qed.

Lemma while_loop_train_training (fuel : nat) (n : Z) :
  forall (l : locals Arr) (s : @rstate E A),
    eval (self s) = false ->
    render (cfg (self s)) <> None ->
    train_cycles_per_ts (cfg (self s)) = Some n ->
    count is_train (events_of (while_loop hstack fuel l s)) =
    (Z.to_nat n * count is_env_step (events_of (while_loop hstack fuel l s)))%nat.
Proof.
  induction fuel as [|fuel IH]; intros l s He Hr Ht.
  - simpl. destruct (negb (l_done l) && (l_t l <? max_episode_steps));
      unfold events_of, ret, count; simpl; lia.
  - rewrite while_loop_unfold.
    destruct (negb (l_done l) && (l_t l <? max_episode_steps)) eqn:Hc;
      [|unfold events_of, count; simpl; lia].
    pose proof (loop_body_self l s) as Bself.
    pose proof (loop_body_counts l s) as [Bstep _].
    pose proof (loop_body_train_training l s n He Hr Ht) as Btrain.
    pose proof (loop_body_outcome l s) as [Bfuel _].
    bind_split Hm Hk; unfold state_of, events_of, outcome_of in *; simpl in *.
    + specialize (IH a s1). rewrite Hk in IH. simpl in IH.
      rewrite !count_app, IH by congruence. lia.
    + lia.
    + lia.
Qed.

Lemma while_loop_returns (fuel : nat) :
  forall (l : locals Arr) (s : @rstate E A),
    render (cfg (self s)) <> None ->
    (eval (self s) = false -> train_cycles_per_ts (cfg (self s)) <> None) ->
    (Z.to_nat (max_episode_steps - l_t l) <= fuel)%nat ->
    exists l', outcome_of (while_loop hstack fuel l s) = Ret l'.
Proof.
  induction fuel as [|fuel IH]; intros l s Hr Ht Hf.
  - simpl. destruct (negb (l_done l) && (l_t l <? max_episode_steps)) eqn:Hc.
    + apply andb_true_iff in Hc. destruct Hc as [_ Hc]. apply Z.ltb_lt in Hc. lia.
    + eexists. reflexivity.
  - rewrite while_loop_unfold.
    destruct (negb (l_done l) && (l_t l <? max_episode_steps)) eqn:Hc;
      [|eexists; reflexivity].
    apply andb_true_iff in Hc. destruct Hc as [_ Hc]. apply Z.ltb_lt in Hc.
    pose proof (loop_body_self l s) as Bself.
    pose proof (loop_body_outcome l s) as [_ [_ Bret]].
    destruct (loop_body_returns l s Hr Ht) as [l1 Hl1].
    bind_split Hm Hk; unfold state_of, events_of, outcome_of in *; simpl in *;
      try discriminate.
    destruct (Bret a eq_refl) as [Bt _].
    specialize (IH a s1). rewrite Hk in IH. simpl in IH.
    apply IH; try (rewrite Bself; assumption). lia.
Qed.


Ltac red_in H :=
  cbv beta iota zeta delta
    [bind gets getattr when emit update_self modify ret raise read_info
     read_local assert float_div_int int_true_div
     after_loop update_stats update_summaries log create_checkpoint done
     reset write_summary
     self env agent name eval best_score summary_writer summary eval_counter
     cfg q_total r_total t_steps episode success mean_eq mean_er
     render train_cycles_per_ts periodic_ckpt save_best n_episodes step_sleep
     set_best_score set_eval_counter set_q_total set_r_total set_t_steps
     set_episode set_success set_mean_eq set_mean_er
     l_x l_t l_done l_episodic_q l_episodic_r l_info is_success
     app negb andb] in H.

Ltac case_in H :=
  match type of H with
  | context [match ?x with _ => _ end] =>
      first
        [ is_var x; destruct x
        | lazymatch x with
          | context [match _ with _ => _ end] => fail
          | _ => destruct x eqn:?
          end ]
  end.

Ltac run_in H := red_in H; repeat (case_in H; red_in H).

Ltac finish H := injection H as <- <- <-.

Lemma after_loop_quiet (l : locals Arr) (s : @rstate E A) :
  recorded false (events_of (@after_loop Arr Act Ctl E A l s)) /\
  count is_env_step (events_of (@after_loop Arr Act Ctl E A l s)) = 0%nat /\
  count is_remember (events_of (@after_loop Arr Act Ctl E A l s)) = 0%nat /\
  count is_train (events_of (@after_loop Arr Act Ctl E A l s)) = 0%nat.
Proof.
  destruct (@after_loop Arr Act Ctl E A l s) as [[s' o] r] eqn:Ha.
  unfold events_of; simpl.
  destruct l as [? ? ? ? ? [[[]]|]]; open_state s; run_in Ha; finish Ha;
    repeat apply conj; simpl; auto.
Qed.


Ltac open_locals l := destruct l as [? ? ? ? ? [[[]]|]].

Ltac run_after Ha l s :=
  match goal with
  | |- context [@after_loop ?a ?b ?c ?d ?e l s] =>
      destruct (@after_loop a b c d e l s) as [[? ?] ?] eqn:Ha
  end;
  unfold events_of, state_of, outcome_of; simpl;
  open_locals l; open_state s; run_in Ha; finish Ha; simpl.

Lemma after_loop_frame (l : locals Arr) (s : @rstate E A) :
  let s' := state_of (@after_loop Arr Act Ctl E A l s) in
  episode (self s') = episode (self s) + 1 /\
  cfg (self s') = cfg (self s) /\
  eval (self s') = eval (self s) /\
  summary_writer (self s') = summary_writer (self s) /\
  summary (self s') = summary (self s) /\
  env s' = env s /\ agent s' = agent s.
Proof. run_after Ha l s; repeat apply conj; reflexivity. Qed.

Lemma after_loop_outcome (l : locals Arr) (s : @rstate E A) :
  outcome_of (@after_loop Arr Act Ctl E A l s) <> OutOfFuel /\
  outcome_of (@after_loop Arr Act Ctl E A l s) <> Raise AssertionError.
Proof. run_after Ha l s; split; discriminate. Qed.

Lemma after_loop_success (l : locals Arr) (s : @rstate E A) :
  let r := @after_loop Arr Act Ctl E A l s in
  (eval (self s) = false -> success (self (state_of r)) = success (self s)) /\
  (eval (self s) = true -> outcome_of r = Ret tt ->
   exists i, l_info l = Some i /\
             success (self (state_of r)) =
             success (self s) + (if is_success i then 1 else 0)) /\
  (success (self s) <= success (self (state_of r)) <= success (self s) + 1).
Proof.
  run_after Ha l s; repeat apply conj; intros; try discriminate;
    try reflexivity; try lia;
    try (eexists; split; [reflexivity | simpl; lia]).
Qed.

Lemma after_loop_no_sink (l : locals Arr) (s : @rstate E A) :
  summary_writer (self s) = None -> summary (self s) <> None ->
  outcome_of (@after_loop Arr Act Ctl E A l s) <> Ret tt.
Proof.
  intros Hw Hs. run_after Ha l s; try discriminate; congruence.
Qed.

Lemma after_loop_returns (l : locals Arr) (s : @rstate E A) :
  ready (self s) -> l_info l <> None ->
  outcome_of (@after_loop Arr Act Ctl E A l s) = Ret tt.
Proof.
  intros (R1 & R2 & R3 & R4 & R5 & R6 & R7 & R8) Hi.
  run_after Ha l s; try reflexivity; try congruence;
    try solve [ exfalso; apply R2; first [reflexivity | discriminate]
              | exfalso; apply R3; first [reflexivity | discriminate]
              | exfalso; apply R4; first [reflexivity | discriminate]
              | exfalso; apply R6; first [reflexivity | discriminate]
              | rewrite Z.eqb_eq in *; congruence ].
Qed.


Ltac crush_events :=
  simpl in *; intuition (try congruence; try discriminate).

Lemma after_loop_checkpoints (l : locals Arr) (s : @rstate E A) :
  let r := @after_loop Arr Act Ctl E A l s in
  let g := self s in
  let g' := self (state_of r) in
  let m := PyFloat.div (PyFloat.add (r_total g) (l_episodic_r l))
                       (PyFloat.of_int (episode g + 1)) in
  outcome_of r = Ret tt ->
  r_total g' = PyFloat.add (r_total g) (l_episodic_r l) /\
  mean_er g' = Some m /\
  (forall tag,
     In (EvSave "B" tag) (events_of r) <->
     (eval g = true /\ save_best (cfg g) = Some true /\
      PyFloat.gtb m (best_score g) = true /\ tag = episode g + 1)) /\
  (best_score g' =
   if eval g && match save_best (cfg g) with Some b => b | None => false end
      && PyFloat.gtb m (best_score g)
   then m else best_score g) /\
  (forall p tag,
     periodic_ckpt (cfg g) = Some p ->
     (In (EvSave "P" tag) (events_of r) <->
      (truthy p = true /\ (episode g + 1) mod int_of p = 0 /\
       tag = episode g + 1))).
Proof.
  run_after Ha l s; intros Hret; try discriminate;
    repeat apply conj; try reflexivity;
    try (rewrite ?Heqb, ?Heqb0, ?Heqb1, ?Heqb2, ?Heqb3, ?Heqb4; reflexivity);
    intros;
    repeat match goal with
           | H : (_ =? _) = true |- _ => apply Z.eqb_eq in H
           | H : (_ =? _) = false |- _ => apply Z.eqb_neq in H
           | H : Some _ = Some _ |- _ =>
               first [ discriminate H | injection H as <- | injection H as ->
                     | clear H ]
           end;
    crush_events.
Qed.


(** executing a call that occurs in the goal *)
Ltac run_call Ha s :=
  match goal with
  | |- context [?m s] =>
      match type of (m s) with
      | (_ * _ * outcome _)%type =>
          destruct (m s) as [[? ?] ?] eqn:Ha
      end
  end;
  unfold events_of, state_of, outcome_of; simpl;
  open_state s; run_in Ha; finish Ha; simpl.

Lemma after_loop_best (l : locals Arr) (s : @rstate E A) :
  let r := @after_loop Arr Act Ctl E A l s in
  let g := self s in
  let g' := self (state_of r) in
  (best_score g' = best_score g /\
   forall tag, ~ In (EvSave "B" tag) (events_of r)) \/
  (eval g = true /\
   PyFloat.gtb (best_score g') (best_score g) = true /\
   mean_er g' = Some (best_score g') /\
   outcome_of r = Ret tt /\
   In (EvSave "B" (episode g')) (events_of r)).
Proof.
  run_after Ha l s;
    first [ left; split; [reflexivity | intros tag; crush_events]
          | right; repeat apply conj; try reflexivity; try assumption;
            crush_events ].
Qed.

Lemma after_loop_summaries (l : locals Arr) (s : @rstate E A) :
  let r := @after_loop Arr Act Ctl E A l s in
  let g := self s in
  (summary_writer g <> None -> summary g <> None -> outcome_of r = Ret tt ->
   exists counter,
     filter is_summary (events_of r) =
     [EvAddSummary [((name g ++ "/episodic_r")%string, l_episodic_r l);
                    ((name g ++ "/episodic_q")%string, l_episodic_q l)]
                   counter] /\
     counter = (if eval g
                then match eval_counter g with Some c => c + 1 | None => 0 end
                else episode g + 1)) /\
  (summary_writer g = None -> filter is_summary (events_of r) = []) /\
  (summary g = None -> filter is_summary (events_of r) = []).
Proof.
  run_after Ha l s; repeat apply conj; intros; try discriminate;
    try congruence; try reflexivity;
    try (eexists; split; reflexivity).
Qed.

Lemma create_checkpoint_periodic (s : @rstate E A) (p : pyint) :
  periodic_ckpt (cfg (self s)) = Some p ->
  forall tag,
    In (EvSave "P" tag) (events_of (@create_checkpoint Arr Act Ctl E A s)) <->
    (truthy p = true /\ episode (self s) mod int_of p = 0 /\
     tag = episode (self s)).
Proof.
  intros Hp tag. run_call Ha s;
    repeat match goal with
           | H : (_ =? _) = true |- _ => apply Z.eqb_eq in H
           | H : (_ =? _) = false |- _ => apply Z.eqb_neq in H
           | H : Some _ = Some _ |- _ =>
               first [ discriminate H | injection H as <- | injection H as ->
                     | clear H ]
           end;
    crush_events.
Qed.

Lemma create_checkpoint_best (s : @rstate E A) :
  periodic_ckpt (cfg (self s)) <> None ->
  forall tag,
    In (EvSave "B" tag) (events_of (@create_checkpoint Arr Act Ctl E A s)) <->
    (eval (self s) = true /\ save_best (cfg (self s)) = Some true /\
     (exists m, mean_er (self s) = Some m /\
                PyFloat.gtb m (best_score (self s)) = true) /\
     tag = episode (self s)).
Proof.
  intros Hp tag. run_call Ha s;
    (split; [intros Hin | intros (H1 & H2 & (m & H3 & H4) & H5)]);
    repeat match goal with
           | H : Some _ = Some _ |- _ =>
               first [ discriminate H | injection H as <- | injection H as ->
                     | clear H ]
           end;
    try solve [crush_events];
    repeat apply conj; try reflexivity;
    try (eexists; split; [reflexivity | assumption]);
    crush_events.
Qed.

Lemma create_checkpoint_step (s : @rstate E A) :
  let r := @create_checkpoint Arr Act Ctl E A s in
  let g := self s in
  let g' := self (state_of r) in
  episode g' = episode g /\ cfg g' = cfg g /\ eval g' = eval g /\
  mean_er g' = mean_er g /\
  ((best_score g' = best_score g /\
    forall tag, ~ In (EvSave "B" tag) (events_of r)) \/
   (eval g = true /\ save_best (cfg g) = Some true /\
    mean_er g = Some (best_score g') /\
    PyFloat.gtb (best_score g') (best_score g) = true /\
    outcome_of r = Ret tt /\
    In (EvSave "B" (episode g)) (events_of r))).
Proof.
  run_call Ha s; repeat apply conj; try reflexivity;
    first [ left; split; [reflexivity | intros tag; crush_events]
          | right; repeat apply conj; try reflexivity; try assumption;
            crush_events ].
Qed.

Lemma create_checkpoint_nonpos (s : @rstate E A) (m : float) :
  PyFloat.leb PyFloat.zero (best_score (self s)) = true ->
  mean_er (self s) = Some m ->
  PyFloat.leb m PyFloat.zero = true ->
  forall tag,
    ~ In (EvSave "B" tag) (events_of (@create_checkpoint Arr Act Ctl E A s)).
Proof.
  intros Hb Hm Hle tag Hin.
  pose proof (create_checkpoint_step s) as (_ & _ & _ & _ & C5).
  destruct C5 as [[_ C5] | (_ & _ & C1 & C2 & _)].
  - exact (C5 tag Hin).
  - rewrite Hm in C1. injection C1 as ->.
    rewrite (PyFloatFacts.gtb_nonpos_false _ _ Hb Hle) in C2. discriminate.
Qed.

Lemma done_frame (s : @rstate E A) :
  state_of (@done Arr Act Ctl E A s) = s.
Proof. run_call Ha s; reflexivity. Qed.

Lemma done_sound (s : @rstate E A) (b : bool) :
  outcome_of (@done Arr Act Ctl E A s) = Ret b ->
  exists n, n_episodes (cfg (self s)) = Some n /\ b = (n <=? episode (self s)).
Proof.
  run_call Ha s; intros Hb; try discriminate; injection Hb as <-;
    eexists; split; try reflexivity; try (symmetry; assumption).
Qed.

Lemma done_returns (s : @rstate E A) (n : Z) :
  n_episodes (cfg (self s)) = Some n ->
  final_log_ok (self s) n ->
  outcome_of (@done Arr Act Ctl E A s) = Ret (n <=? episode (self s)).
Proof.
  intros Hn Hok. unfold final_log_ok in Hok.
  run_call Ha s;
    repeat match goal with
           | H : Some _ = Some _ |- _ =>
               first [ discriminate H | injection H as <- | injection H as ->
                     | clear H ]
           | H : (_ <=? _) = true |- _ => apply Z.leb_le in H
           | H : (_ =? _) = true |- _ => apply Z.eqb_eq in H
           end;
    try congruence;
    try (destruct (Hok eq_refl ltac:(assumption)) as (K1 & K2 & K3 & K4);
         congruence).
Qed.

Lemma done_training (s : @rstate E A) (n : Z) :
  n_episodes (cfg (self s)) = Some n ->
  eval (self s) = false ->
  @done Arr Act Ctl E A s = (s, [], Ret (n <=? episode (self s))).
Proof.
  intros Hn He. run_call Ha s;
    repeat match goal with
           | H : Some _ = Some _ |- _ =>
               first [ discriminate H | injection H as <- | injection H as ->
                     | clear H ]
           end; congruence.
Qed.


(** *** The whole rollout *)

Lemma generate_rollout_run (fuel : nat) (s : @rstate E A) :
  generate_rollout hstack fuel s =
  match while_loop hstack fuel (start (snd (env_reset (env s))))
          {| self := self s; env := fst (env_reset (env s)); agent := agent s |}
  with
  | (s2, o2, Ret l) =>
      match @after_loop Arr Act Ctl E A l s2 with
      | (s3, o3, r) => (s3, EvEnvReset :: o2 ++ o3, r)
      end
  | (s2, o2, Raise e) => (s2, EvEnvReset :: o2, Raise e)
  | (s2, o2, OutOfFuel) => (s2, EvEnvReset :: o2, OutOfFuel)
  end.
Proof.
  change (generate_rollout hstack fuel s) with
    ((x <- call_env_reset ;;
      l <- while_loop hstack fuel (start x) ;; after_loop l) s).
  unfold bind at 1. unfold call_env_reset.
  destruct (env_reset (env s)) as [e1 x]. simpl.
  unfold bind.
  destruct (while_loop hstack fuel (start x) _) as [[s2 o2] [l|e|]];
    try reflexivity.
  destruct (after_loop l s2) as [[s3 o3] r]. reflexivity.
Qed.

(** opening a rollout into its loop and its tail *)
Ltac open_rollout fuel s Hw Ha :=
  rewrite (generate_rollout_run fuel s) in *;
  pose proof (while_loop_inv fuel (start (snd (env_reset (env s))))
                {| self := self s; env := fst (env_reset (env s));
                   agent := agent s |}) as Hw;
  cbv zeta in Hw;
  destruct (while_loop hstack fuel (start (snd (env_reset (env s))))
              {| self := self s; env := fst (env_reset (env s));
                 agent := agent s |}) as [[?s2 ?o2] [?l|?e|]] eqn:Ha;
  unfold state_of, events_of, outcome_of in Hw; simpl in Hw;
  destruct Hw as (W1 & W2 & W3 & W4 & W5 & W6 & W7).

Lemma rollout_events (fuel : nat) (s : @rstate E A) :
  let r := generate_rollout hstack fuel s in
  recorded false (events_of r) /\
  count is_remember (events_of r) = count is_env_step (events_of r) /\
  (count is_env_step (events_of r) <= Z.to_nat max_episode_steps)%nat /\
  outcome_of r <> Raise AssertionError /\
  (eval (self s) = true -> count is_train (events_of r) = 0%nat).
Proof.
  cbv zeta. open_rollout fuel s Hw Ha.
  - pose proof (after_loop_quiet l s2) as (Q1 & Q2 & Q3 & Q4).
    pose proof (after_loop_outcome l s2) as (Q5 & Q6).
    destruct (after_loop l s2) as [[s3 o3] r].
    unfold state_of, events_of, outcome_of in *; simpl in *.
    rewrite !count_cons, !count_app. simpl.
    repeat apply conj; try lia; try assumption.
    + apply recorded_app; assumption.
    + intros He. rewrite (W7 He), Q4. reflexivity.
  - unfold state_of, events_of, outcome_of in *; simpl in *.
    rewrite !count_cons. simpl.
    repeat apply conj; try lia; try assumption; try reflexivity.
    intros He. apply W5. injection He as ->. reflexivity.
  - unfold state_of, events_of, outcome_of in *; simpl in *.
    rewrite !count_cons. simpl.
    repeat apply conj; try lia; try assumption; try discriminate;
      try reflexivity.
Qed.


Lemma rollout_fuel (fuel : nat) (s : @rstate E A) :
  (Z.to_nat max_episode_steps <= fuel)%nat ->
  outcome_of (generate_rollout hstack fuel s) <> OutOfFuel /\
  forall fuel', (fuel <= fuel')%nat ->
                generate_rollout hstack fuel' s = generate_rollout hstack fuel s.
Proof.
  intros Hf.
  pose proof (while_loop_fuel fuel (start (snd (env_reset (env s))))
                {| self := self s; env := fst (env_reset (env s));
                   agent := agent s |}) as Hnf.
  simpl in Hnf. rewrite Z.sub_0_r in Hnf. specialize (Hnf Hf).
  split.
  - rewrite generate_rollout_run.
    destruct (while_loop hstack fuel _ _) as [[s2 o2] [l|e|]].
    + pose proof (after_loop_outcome l s2) as [Q _].
      destruct (after_loop l s2) as [[s3 o3] r]. exact Q.
    + discriminate.
    + exfalso. apply Hnf. reflexivity.
  - intros fuel' Hle. rewrite !generate_rollout_run.
    rewrite (while_loop_more_fuel fuel _ _ fuel' Hnf Hle). reflexivity.
Qed.

Lemma rollout_train_training (fuel : nat) (s : @rstate E A) (n : Z) :
  eval (self s) = false ->
  render (cfg (self s)) <> None ->
  train_cycles_per_ts (cfg (self s)) = Some n ->
  count is_train (events_of (generate_rollout hstack fuel s)) =
  (Z.to_nat n * count is_env_step (events_of (generate_rollout hstack fuel s)))%nat.
Proof.
  intros He Hr Ht.
  pose proof (while_loop_train_training fuel n
                (start (snd (env_reset (env s))))
                {| self := self s; env := fst (env_reset (env s));
                   agent := agent s |} He Hr Ht) as Hc.
  open_rollout fuel s Hw Ha; unfold events_of in *; simpl in *.
  - pose proof (after_loop_quiet l s2) as (Q1 & Q2 & Q3 & Q4).
    destruct (after_loop l s2) as [[s3 o3] r].
    unfold events_of in *; simpl in *.
    rewrite !count_cons, !count_app. simpl. lia.
  - rewrite !count_cons. simpl. lia.
  - rewrite !count_cons. simpl. lia.
Qed.

Lemma rollout_frame (fuel : nat) (s : @rstate E A) :
  let r := generate_rollout hstack fuel s in
  let g := self s in
  let g' := self (state_of r) in
  cfg g' = cfg g /\ eval g' = eval g /\
  summary_writer g' = summary_writer g /\ summary g' = summary g /\
  (episode g <= episode g' <= episode g + 1) /\
  (outcome_of r = Ret tt -> episode g' = episode g + 1) /\
  (success g <= success g' <= success g + 1) /\
  (eval g = false -> success g' = success g).
Proof.
  cbv zeta. open_rollout fuel s Hw Ha.
  - pose proof (after_loop_frame l s2) as (F1 & F2 & F3 & F4 & F5 & F6 & F7).
    pose proof (after_loop_success l s2) as (S1 & S2 & S3).
    destruct (after_loop l s2) as [[s3 o3] r].
    unfold state_of, events_of, outcome_of in *; simpl in *.
    rewrite W1 in *.
    repeat apply conj; try congruence; try lia; try assumption.
  - unfold state_of, events_of, outcome_of in *; simpl in *.
    rewrite W1. repeat apply conj; try reflexivity; try lia; discriminate.
  - unfold state_of, events_of, outcome_of in *; simpl in *.
    rewrite W1. repeat apply conj; try reflexivity; try lia; discriminate.
Qed.

Lemma rollout_no_sink (fuel : nat) (s : @rstate E A) :
  summary_writer (self s) = None -> summary (self s) <> None ->
  outcome_of (generate_rollout hstack fuel s) <> Ret tt.
Proof.
  intros Hw0 Hs. open_rollout fuel s Hw Ha.
  - pose proof (after_loop_no_sink l s2) as Q. rewrite W1 in Q.
    specialize (Q Hw0 Hs).
    destruct (after_loop l s2) as [[s3 o3] r]. exact Q.
  - discriminate.
  - discriminate.
Qed.

Lemma rollout_returns (fuel : nat) (s : @rstate E A) :
  ready (self s) -> 0 < max_episode_steps ->
  (Z.to_nat max_episode_steps <= fuel)%nat ->
  outcome_of (generate_rollout hstack fuel s) = Ret tt.
Proof.
  intros Hr Hpos Hf.
  pose proof Hr as (R1 & R2 & _).
  destruct (while_loop_returns fuel (start (snd (env_reset (env s))))
              {| self := self s; env := fst (env_reset (env s));
                 agent := agent s |} R1 R2) as [l' Hl'].
  { simpl. rewrite Z.sub_0_r. exact Hf. }
  open_rollout fuel s Hw Ha; unfold outcome_of in Hl'; simpl in Hl';
    try discriminate.
  destruct (W6 l eq_refl) as [_ Hinfo].
  pose proof (after_loop_returns l s2) as Q. rewrite W1 in Q.
  specialize (Q Hr).
  destruct (after_loop l s2) as [[s3 o3] r]. apply Q. apply Hinfo.
  right. apply Z.ltb_lt. exact Hpos.
Qed.


Lemma loop_events_no_save (o : list (event Arr Act Ctl)) (c : string) (tag : Z) :
  Forall (fun ev => is_loop_event ev = true) o -> ~ In (EvSave c tag) o.
Proof.
  intros Hf Hin. rewrite Forall_forall in Hf. apply Hf in Hin. discriminate.
Qed.

Lemma loop_events_no_summary (o : list (event Arr Act Ctl)) :
  Forall (fun ev => is_loop_event ev = true) o -> filter is_summary o = [].
Proof.
  induction o as [|ev o IH]; intros Hf; [reflexivity|].
  inversion Hf as [|? ? Hev Ho]; subst. simpl.
  destruct ev; simpl in *; try discriminate; apply IH; assumption.
Qed.

(** opening a rollout, keeping the facts on the events of its loop *)
Ltac open_rollout_ev fuel s Hw Ha Hev :=
  pose proof (while_loop_loop_events fuel (start (snd (env_reset (env s))))
                {| self := self s; env := fst (env_reset (env s));
                   agent := agent s |}) as Hev;
  unfold final_info, final_locals in *;
  open_rollout fuel s Hw Ha; unfold events_of, outcome_of in Hev; simpl in Hev.

Lemma rollout_best (fuel : nat) (s : @rstate E A) :
  let r := generate_rollout hstack fuel s in
  let g := self s in
  let g' := self (state_of r) in
  (best_score g' = best_score g /\
   forall tag, ~ In (EvSave "B" tag) (events_of r)) \/
  (eval g = true /\
   PyFloat.gtb (best_score g') (best_score g) = true /\
   mean_er g' = Some (best_score g') /\
   outcome_of r = Ret tt /\
   In (EvSave "B" (episode g')) (events_of r)).
Proof.
  cbv zeta. open_rollout_ev fuel s Hw Ha Hev.
  - pose proof (after_loop_best l s2) as Q. cbv zeta in Q. rewrite W1 in Q.
    destruct (after_loop l s2) as [[s3 o3] r].
    unfold state_of, events_of, outcome_of in *; simpl in *.
    destruct Q as [[Q1 Q2] | (Q1 & Q2 & Q3 & Q4 & Q5)].
    + left. split; [exact Q1|]. intros tag [Hin|Hin]; [discriminate|].
      apply in_app_or in Hin. destruct Hin as [Hin|Hin].
      * exact (loop_events_no_save o2 "B" tag Hev Hin).
      * exact (Q2 tag Hin).
    + right. repeat apply conj; try assumption.
      right. apply in_or_app. right. exact Q5.
  - left. unfold state_of, events_of; simpl. rewrite W1. split; [reflexivity|].
    intros tag [Hin|Hin]; [discriminate|].
    exact (loop_events_no_save o2 "B" tag Hev Hin).
  - left. unfold state_of, events_of; simpl. rewrite W1. split; [reflexivity|].
    intros tag [Hin|Hin]; [discriminate|].
    exact (loop_events_no_save o2 "B" tag Hev Hin).
Qed.

Lemma in_rollout_events (o2 o3 : list (event Arr Act Ctl)) (c : string) (tag : Z) :
  Forall (fun ev => is_loop_event ev = true) o2 ->
  (In (EvSave c tag) (EvEnvReset :: o2 ++ o3) <-> In (EvSave c tag) o3).
Proof.
  intros Hev. split.
  - intros [Hin|Hin]; [discriminate|].
    apply in_app_or in Hin. destruct Hin as [Hin|Hin]; [|exact Hin].
    exfalso. exact (loop_events_no_save o2 c tag Hev Hin).
  - intros Hin. right. apply in_or_app. right. exact Hin.
Qed.

Lemma rollout_checkpoints (fuel : nat) (s : @rstate E A) :
  let r := generate_rollout hstack fuel s in
  let g := self s in
  let g' := self (state_of r) in
  let m := PyFloat.div (r_total g') (PyFloat.of_int (episode g')) in
  outcome_of r = Ret tt ->
  episode g' = episode g + 1 /\
  mean_er g' = Some m /\
  (forall tag,
     In (EvSave "B" tag) (events_of r) <->
     (eval g = true /\ save_best (cfg g) = Some true /\
      PyFloat.gtb m (best_score g) = true /\ tag = episode g')) /\
  (best_score g' =
   if eval g && match save_best (cfg g) with Some b => b | None => false end
      && PyFloat.gtb m (best_score g)
   then m else best_score g) /\
  (forall p tag,
     periodic_ckpt (cfg g) = Some p ->
     (In (EvSave "P" tag) (events_of r) <->
      (truthy p = true /\ episode g' mod int_of p = 0 /\ tag = episode g'))).
Proof.
  cbv zeta. open_rollout_ev fuel s Hw Ha Hev; try discriminate.
  pose proof (after_loop_checkpoints l s2) as Q. cbv zeta in Q.
  pose proof (after_loop_frame l s2) as (F1 & _). rewrite W1 in *.
  destruct (after_loop l s2) as [[s3 o3] r].
  unfold state_of, events_of, outcome_of in *; simpl in *.
  intros Hret. destruct (Q Hret) as (Q1 & Q2 & Q3 & Q4 & Q5).
  rewrite Q1, F1.
  repeat apply conj; try assumption; try reflexivity.
  - intros tag. rewrite (in_rollout_events o2 o3 "B" tag Hev). apply Q3.
  - intros p tag Hp. rewrite (in_rollout_events o2 o3 "P" tag Hev).
    apply Q5. exact Hp.
Qed.

Lemma rollout_success (fuel : nat) (s : @rstate E A) :
  let r := generate_rollout hstack fuel s in
  eval (self s) = true -> outcome_of r = Ret tt ->
  exists i, final_info hstack fuel s = Some i /\
            success (self (state_of r)) =
            success (self s) + (if is_success i then 1 else 0).
Proof.
  cbv zeta. intros He. open_rollout_ev fuel s Hw Ha Hev; try discriminate.
  pose proof (after_loop_success l s2) as (_ & S2 & _). rewrite W1 in *.
  destruct (after_loop l s2) as [[s3 o3] r].
  unfold state_of, events_of, outcome_of in *; simpl in *.
  intros Hret. exact (S2 He Hret).
Qed.

Lemma rollout_summaries (fuel : nat) (s : @rstate E A) :
  let r := generate_rollout hstack fuel s in
  let g := self s in
  (summary_writer g <> None -> summary g <> None -> outcome_of r = Ret tt ->
   exists l counter,
     final_locals hstack fuel s = Some l /\
     filter is_summary (events_of r) =
     [EvAddSummary [((name g ++ "/episodic_r")%string, l_episodic_r l);
                    ((name g ++ "/episodic_q")%string, l_episodic_q l)]
                   counter]) /\
  (summary_writer g = None -> filter is_summary (events_of r) = []).
Proof.
  cbv zeta. open_rollout_ev fuel s Hw Ha Hev.
  - pose proof (after_loop_summaries l s2) as (Q1 & Q2 & _). rewrite W1 in *.
    destruct (after_loop l s2) as [[s3 o3] r].
    unfold state_of, events_of, outcome_of in *; simpl in *.
    rewrite filter_app, (loop_events_no_summary o2 Hev). simpl.
    split.
    + intros H1 H2 H3. destruct (Q1 H1 H2 H3) as (c & Hc & _).
      exists l, c. split; [reflexivity | exact Hc].
    + exact Q2.
  - unfold events_of, outcome_of; simpl.
    rewrite (loop_events_no_summary o2 Hev).
    split; [intros; discriminate | reflexivity].
  - unfold events_of, outcome_of; simpl.
    rewrite (loop_events_no_summary o2 Hev).
    split; [intros; discriminate | reflexivity].
Qed.

(** *** Operations on a generator *)

Lemma simple_methods_frame (s : @rstate E A) :
  (forall r q,
     let s' := state_of (@update_summaries Arr Act Ctl E A r q s) in
     cfg (self s') = cfg (self s) /\ eval (self s') = eval (self s) /\
     episode (self s') = episode (self s) /\
     best_score (self s') = best_score (self s)) /\
  (let s' := state_of (@write_summary Arr Act Ctl E A s) in
   cfg (self s') = cfg (self s) /\ eval (self s') = eval (self s) /\
   episode (self s') = episode (self s) /\
   best_score (self s') = best_score (self s)) /\
  (forall q r t,
     let s' := state_of (@update_stats Arr Act Ctl E A q r t s) in
     cfg (self s') = cfg (self s) /\ eval (self s') = eval (self s) /\
     episode (self s') = episode (self s) /\
     best_score (self s') = best_score (self s)) /\
  (forall q r t,
     let s' := state_of (@log Arr Act Ctl E A q r t s) in
     cfg (self s') = cfg (self s) /\ eval (self s') = eval (self s) /\
     episode (self s') = episode (self s) /\
     best_score (self s') = best_score (self s)) /\
  (let s' := state_of (@reset Arr Act Ctl E A s) in
   cfg (self s') = cfg (self s) /\ eval (self s') = eval (self s) /\
   episode (self s') = 0 /\
   best_score (self s') = best_score (self s)).
Proof.
  repeat apply conj; intros;
    repeat match goal with
           | x := _ |- _ => subst x
           end;
    run_call Ha s; repeat apply conj; reflexivity.
Qed.

Lemma run_op_facts (o : op) (s : @rstate E A) :
  let g := self s in
  let g' := self (run_op hstack o s) in
  cfg g' = cfg g /\ eval g' = eval g /\
  (is_reset o = false -> episode g <= episode g') /\
  (best_score g' = best_score g \/
   (PyFloat.gtb (best_score g') (best_score g) = true /\
    mean_er g' = Some (best_score g'))).
Proof.
  cbv zeta.
  pose proof (simple_methods_frame s) as (M1 & M2 & M3 & M4 & M5).
  destruct o as [|fuel| |r q| |q r t|q r t|]; simpl.
  - destruct M5 as (X1 & X2 & X3 & X4).
    repeat apply conj; try assumption; [discriminate | left; assumption].
  - pose proof (rollout_frame fuel s) as (F1 & F2 & _ & _ & F5 & _).
    pose proof (rollout_best fuel s) as B. cbv zeta in B.
    repeat apply conj; try assumption; try (intros _; lia).
    destruct B as [[B1 _] | (_ & B2 & B3 & _)]; [left | right; split]; assumption.
  - pose proof (create_checkpoint_step s) as (C1 & C2 & C3 & C4 & C5).
    repeat apply conj; try assumption; try (intros _; lia).
    destruct C5 as [[B1 _] | (_ & _ & B2 & B3 & _)];
      [left; assumption | right; split; [assumption | congruence]].
  - destruct (M1 r q) as (X1 & X2 & X3 & X4).
    repeat apply conj; try assumption; try (intros _; lia); left; assumption.
  - destruct M2 as (X1 & X2 & X3 & X4).
    repeat apply conj; try assumption; try (intros _; lia); left; assumption.
  - destruct (M3 q r t) as (X1 & X2 & X3 & X4).
    repeat apply conj; try assumption; try (intros _; lia); left; assumption.
  - destruct (M4 q r t) as (X1 & X2 & X3 & X4).
    repeat apply conj; try assumption; try (intros _; lia); left; assumption.
  - rewrite done_frame.
    repeat apply conj; try reflexivity; try (intros _; lia); left; reflexivity.
Qed.

Lemma run_ops_facts (ops : list op) :
  forall s : @rstate E A,
    let g := self s in
    let g' := self (run_ops hstack ops s) in
    cfg g' = cfg g /\ eval g' = eval g /\
    (forallb (fun o => negb (is_reset o)) ops = true ->
     episode g <= episode g') /\
    (PyFloat.leb PyFloat.zero (best_score g) = true ->
     PyFloat.leb PyFloat.zero (best_score g') = true).
Proof.
  induction ops as [|o ops IH]; intros s; cbv zeta.
  - simpl. repeat apply conj; try reflexivity; try (intros _; lia); auto.
  - unfold run_ops. simpl. fold (run_ops hstack ops (run_op hstack o s)).
    pose proof (run_op_facts o s) as (O1 & O2 & O3 & O4).
    pose proof (IH (run_op hstack o s)) as (I1 & I2 & I3 & I4).
    repeat apply conj; try congruence.
    + intros Hall. apply andb_true_iff in Hall. destruct Hall as [Ho Hall].
      apply negb_true_iff in Ho. specialize (O3 Ho). specialize (I3 Hall). lia.
    + intros Hpos. apply I4.
      destruct O4 as [O4 | [O4 _]]; [rewrite O4; exact Hpos|].
      exact (PyFloatFacts.gtb_nonneg _ _ Hpos O4).
Qed.

Lemma init_facts (e : E) (a : A) (c : config) (_eval : bool)
    (writer : option tf_object) :
  let r := @init Arr Act Ctl E A e a c _eval writer in
  let g := self (state_of r) in
  outcome_of r = Ret tt /\
  best_score g = PyFloat.zero /\ episode g = 0 /\ success g = 0 /\
  eval g = _eval /\ summary_writer g = writer /\ summary g <> None /\
  periodic_ckpt (cfg g) <> None /\ save_best (cfg g) <> None /\
  n_episodes (cfg g) = n_episodes c /\
  mean_er g = None /\
  (periodic_ckpt c = None -> periodic_ckpt (cfg g) = Some (PBool false)) /\
  (save_best c = None -> save_best (cfg g) = Some false).
Proof.
  cbv zeta. destruct c as [rd tc pc sb ne ss].
  unfold init, reset, bind, update_self, modify, emit, state_of, outcome_of.
  simpl.
  repeat apply conj; try reflexivity; try discriminate;
    try (destruct pc; discriminate); try (destruct sb; discriminate);
    intros H; rewrite H; reflexivity.
Qed.

(** *** Further observations: the calls of one iteration *)

Lemma explore_flags_app (x y : list (event Arr Act Ctl)) :
  explore_flags (x ++ y) = explore_flags x ++ explore_flags y.
Proof.
  induction x as [|ev x IHx]; [reflexivity|].
  destruct ev; simpl; rewrite ?IHx; reflexivity.
Qed.

Lemma sleeps_app (x y : list (event Arr Act Ctl)) :
  sleeps (x ++ y) = sleeps x ++ sleeps y.
Proof.
  induction x as [|ev x IHx]; [reflexivity|].
  destruct ev; simpl; rewrite ?IHx; reflexivity.
Qed.

Lemma rewards_app (x y : list (event Arr Act Ctl)) :
  rewards (x ++ y) = rewards x ++ rewards y.
Proof.
  induction x as [|ev x IHx]; [reflexivity|].
  destruct ev as [| | |tr| | | | | | | | | | | |]; simpl; rewrite ?IHx;
    try reflexivity.
  destruct tr as [|? [|? [|? [|? [|[] ?]]]]]; simpl; rewrite ?IHx; reflexivity.
Qed.

Lemma done_flags_app (x y : list (event Arr Act Ctl)) :
  done_flags (x ++ y) = done_flags x ++ done_flags y.
Proof.
  induction x as [|ev x IHx]; [reflexivity|].
  destruct ev as [| | |tr| | | | | | | | | | | |]; simpl; rewrite ?IHx;
    try reflexivity.
  destruct tr as [|? [|? [|? [|? [|? [|? [|? [|[] ?]]]]]]]]; simpl;
    rewrite ?IHx; reflexivity.
Qed.

(** the calls to [agent.train] carry no flag, duration or transition *)
Lemma repeat_train_silent (k : nat) :
  explore_flags (repeat (@EvTrain Arr Act Ctl) k) = [] /\
  sleeps (repeat (@EvTrain Arr Act Ctl) k) = [] /\
  rewards (repeat (@EvTrain Arr Act Ctl) k) = [] /\
  done_flags (repeat (@EvTrain Arr Act Ctl) k) = [].
Proof. induction k as [|k (I1 & I2 & I3 & I4)]; simpl; auto. Qed.

Ltac silence :=
  rewrite ?explore_flags_app, ?sleeps_app, ?rewards_app, ?done_flags_app,
    ?(proj1 (repeat_train_silent _)),
    ?(proj1 (proj2 (repeat_train_silent _))),
    ?(proj1 (proj2 (proj2 (repeat_train_silent _)))),
    ?(proj2 (proj2 (proj2 (repeat_train_silent _)))),
    ?count_cons, ?count_app, ?count_nil, ?count_repeat_false by reflexivity;
  simpl.

Lemma loop_body_explore (l : locals Arr) (s : @rstate E A) :
  explore_flags (events_of (loop_body hstack l s)) = [negb (eval (self s))].
Proof. open_state s; exec_body; silence; reflexivity. Qed.

Lemma loop_body_sleeps (l : locals Arr) (s : @rstate E A) :
  let o := events_of (loop_body hstack l s) in
  (eval (self s) = false -> sleeps o = []) /\
  (step_sleep (cfg (self s)) = None -> sleeps o = []) /\
  (forall d, eval (self s) = true -> render (cfg (self s)) <> None ->
             step_sleep (cfg (self s)) = Some d -> sleeps o = [d]).
Proof.
  cbv zeta. open_state s; exec_body; silence;
    repeat apply conj; intros; try reflexivity; try discriminate;
    try congruence.
Qed.

Lemma loop_body_render (l : locals Arr) (s : @rstate E A) :
  let r := loop_body hstack l s in
  (forall b, render (cfg (self s)) = Some b ->
             count is_render (events_of r) = if b then 1%nat else 0%nat) /\
  (render (cfg (self s)) = None ->
   outcome_of r = Raise (AttributeError "render") /\
   count is_render (events_of r) = 0%nat /\
   count is_train (events_of r) = 0%nat /\
   sleeps (events_of r) = []).
Proof.
  cbv zeta. open_state s; exec_body; silence;
    repeat apply conj; intros; repeat apply conj; try reflexivity;
    try discriminate; try congruence;
    try match goal with
        | H : Some _ = Some ?b |- _ => injection H as <-; reflexivity
        end.
Qed.

Lemma loop_body_transition (l : locals Arr) (s : @rstate E A) :
  let r := loop_body hstack l s in
  exists rw d,
    rewards (events_of r) = [rw] /\
    done_flags (events_of r) = [int_of_bool d] /\
    forall l', outcome_of r = Ret l' ->
      l_episodic_r l' = PyFloat.add (l_episodic_r l) rw /\ l_done l' = d.
Proof.
  cbv zeta. open_state s; exec_body; silence;
    do 2 eexists; (split; [reflexivity | split; [reflexivity|]]);
    intros l' Hl; try discriminate; injection Hl as <-; split; reflexivity.
Qed.

(** *** Further observations: the [while] loop *)

Lemma while_loop_obs (fuel : nat) :
  forall (l : locals Arr) (s : @rstate E A),
    let r := while_loop hstack fuel l s in
    let o := events_of r in
    Forall (fun e => e = negb (eval (self s))) (explore_flags o) /\
    (eval (self s) = false -> sleeps o = []) /\
    (step_sleep (cfg (self s)) = None -> sleeps o = []) /\
    (forall d, eval (self s) = true -> render (cfg (self s)) <> None ->
               step_sleep (cfg (self s)) = Some d ->
               sleeps o = repeat d (count is_env_step o)) /\
    (forall b, render (cfg (self s)) = Some b ->
               count is_render o =
               if b then count is_env_step o else 0%nat) /\
    List.length (rewards o) = count is_env_step o /\
    (forall l', outcome_of r = Ret l' ->
                l_episodic_r l' = sum_from (l_episodic_r l) (rewards o)).
Proof.
  induction fuel as [|fuel IH]; intros l s; cbv zeta.
  - simpl. destruct (negb (l_done l) && (l_t l <? max_episode_steps));
      unfold events_of, outcome_of, ret; simpl;
      repeat apply conj; intros; try reflexivity; try constructor;
      try discriminate;
      try (destruct b; reflexivity);
      match goal with
      | H : Ret _ = Ret _ |- _ => injection H as <-; reflexivity
      end.
  - rewrite while_loop_unfold.
    destruct (negb (l_done l) && (l_t l <? max_episode_steps)) eqn:Hc.
    + pose proof (loop_body_self l s) as Bself.
      pose proof (loop_body_explore l s) as Bexp.
      pose proof (loop_body_sleeps l s) as (Bs1 & Bs2 & Bs3).
      pose proof (loop_body_render l s) as (Br1 & Br2).
      pose proof (loop_body_counts l s) as (Bstep & _).
      pose proof (loop_body_outcome l s) as (Bfuel & _).
      destruct (loop_body_transition l s) as (rw & d & Bt1 & _ & Bt3).
      bind_split Hm Hk; unfold state_of, events_of, outcome_of in *;
        simpl in *.
      * specialize (IH a s1). cbv zeta in IH. rewrite Hk in IH.
        unfold state_of, events_of, outcome_of in IH. simpl in IH.
        rewrite Bself in IH.
        destruct IH as (I1 & I2 & I3 & I4 & I5 & I6 & I7).
        destruct (Bt3 a eq_refl) as (Ba & _).
        rewrite explore_flags_app, sleeps_app, rewards_app, !count_app,
          Bexp, Bt1, Bstep.
        repeat apply conj.
        -- constructor; [reflexivity | exact I1].
        -- intros He. rewrite (Bs1 He), (I2 He). reflexivity.
        -- intros Hn. rewrite (Bs2 Hn), (I3 Hn). reflexivity.
        -- intros d0 He Hr Hs. rewrite (Bs3 d0 He Hr Hs), (I4 d0 He Hr Hs).
           reflexivity.
        -- intros b Hb. rewrite (Br1 b Hb), (I5 b Hb). destruct b; reflexivity.
        -- simpl. rewrite I6. reflexivity.
        -- intros l' Hl. rewrite (I7 l' Hl), Ba. reflexivity.
      * rewrite Bexp, Bt1, Bstep.
        repeat apply conj.
        -- constructor; [reflexivity | constructor].
        -- exact Bs1.
        -- exact Bs2.
        -- intros d0 He Hr Hs. exact (Bs3 d0 He Hr Hs).
        -- intros b Hb. rewrite (Br1 b Hb). destruct b; reflexivity.
        -- reflexivity.
        -- intros l' Hl. discriminate.
      * exfalso. apply Bfuel. reflexivity.
    + unfold events_of, outcome_of; simpl.
      repeat apply conj; intros; try reflexivity; try constructor;
        try discriminate;
        try (destruct b; reflexivity);
        match goal with
        | H : Ret _ = Ret _ |- _ => injection H as <-; reflexivity
        end.
Qed.

(** Without [render] in the configuration the first iteration raises,
    after the step was taken and recorded. *)
Lemma while_loop_no_render (fuel : nat) (l : locals Arr) (s : @rstate E A) :
  render (cfg (self s)) = None ->
  negb (l_done l) && (l_t l <? max_episode_steps) = true ->
  let r := while_loop hstack (S fuel) l s in
  outcome_of r = Raise (AttributeError "render") /\
  self (state_of r) = self s /\
  count is_env_step (events_of r) = 1%nat /\
  count is_remember (events_of r) = 1%nat /\
  count is_train (events_of r) = 0%nat /\
  count is_render (events_of r) = 0%nat.
Proof.
  intros Hr Hc. cbv zeta. rewrite while_loop_unfold, Hc.
  pose proof (loop_body_self l s) as Bself.
  pose proof (loop_body_render l s) as (_ & Br2).
  destruct (Br2 Hr) as (R1 & R2 & R3 & _).
  pose proof (loop_body_counts l s) as (Bstep & Brem).
  bind_split Hm Hk; unfold state_of, events_of, outcome_of in *; simpl in *;
    try discriminate.
  repeat apply conj; assumption.
Qed.

(** The loop is left at the first step that reports done, or when the step
    cap is reached. *)
Lemma while_loop_done_flags (fuel : nat) :
  forall (l : locals Arr) (s : @rstate E A) (l' : locals Arr),
    let r := while_loop hstack fuel l s in
    outcome_of r = Ret l' ->
    negb (l_done l') && (l_t l' <? max_episode_steps) = false /\
    (negb (l_done l) && (l_t l <? max_episode_steps) = true ->
     exists k,
       done_flags (events_of r) = repeat 0 k ++ [int_of_bool (l_done l')] /\
       count is_env_step (events_of r) = S k).
Proof.
  induction fuel as [|fuel IH]; intros l s l'; cbv zeta.
  - simpl. destruct (negb (l_done l) && (l_t l <? max_episode_steps)) eqn:Hc;
      unfold outcome_of; simpl; intros Hl; [discriminate|].
    injection Hl as <-. split; [exact Hc | discriminate].
  - rewrite while_loop_unfold.
    destruct (negb (l_done l) && (l_t l <? max_episode_steps)) eqn:Hc.
    + pose proof (loop_body_counts l s) as (Bstep & _).
      destruct (loop_body_transition l s) as (rw & d & _ & Bt2 & Bt3).
      bind_split Hm Hk; unfold state_of, events_of, outcome_of in *;
        simpl in *; try discriminate.
      intros Hl. specialize (IH a s1 l'). cbv zeta in IH. rewrite Hk in IH.
      unfold events_of, outcome_of in IH. simpl in IH.
      destruct (IH Hl) as (I1 & I2). split; [exact I1|]. intros _.
      destruct (Bt3 a eq_refl) as (_ & Bd).
      rewrite done_flags_app, count_app, Bt2, Bstep.
      destruct (negb (l_done a) && (l_t a <? max_episode_steps)) eqn:Hc1.
      * destruct (I2 eq_refl) as (k & K1 & K2).
        exists (S k). rewrite K1, K2.
        apply andb_true_iff in Hc1. destruct Hc1 as (Hd & _).
        apply negb_true_iff in Hd. rewrite <- Bd, Hd. split; reflexivity.
      * rewrite (while_loop_exit fuel a s1 Hc1) in Hk.
        injection Hk as <- <- <-. injection Hl as <-.
        exists 0%nat. rewrite Bd. split; reflexivity.
    + unfold outcome_of; simpl. intros Hl. injection Hl as <-.
      split; [exact Hc | discriminate].
Qed.

(** Events of the loop carry no report. *)
Lemma loop_events_counts (o : list (event Arr Act Ctl)) :
  Forall (fun ev => is_loop_event ev = true) o ->
  count is_env_reset o = 0%nat /\ count is_print_line o = 0%nat /\
  count is_checkpoint o = 0%nat /\
  filter is_print_line o = [].
Proof.
  induction o as [|ev o IH]; intros Hf; [repeat apply conj; reflexivity|].
  inversion Hf as [|? ? Hev Ho]; subst.
  destruct (IH Ho) as (I1 & I2 & I3 & I4).
  rewrite !count_cons.
  destruct ev; simpl in *; try discriminate; rewrite ?I1, ?I2, ?I3, ?I4;
    repeat apply conj; reflexivity.
Qed.

(** *** Further observations: after the loop *)

Lemma after_loop_report (l : locals Arr) (s : @rstate E A) :
  let o := events_of (@after_loop Arr Act Ctl E A l s) in
  Forall (fun ev => is_report_event ev = true) o /\
  explore_flags o = [] /\ sleeps o = [] /\ rewards o = [] /\
  done_flags o = [] /\ count is_render o = 0%nat /\
  count is_env_reset o = 0%nat.
Proof.
  run_after Ha l s; repeat apply conj; try reflexivity;
    repeat first [ apply Forall_nil | apply Forall_cons; [reflexivity|] ].
Qed.

Lemma after_loop_stats (l : locals Arr) (s : @rstate E A) :
  let r := @after_loop Arr Act Ctl E A l s in
  let g := self s in
  let g' := self (state_of r) in
  outcome_of r = Ret tt ->
  q_total g' = PyFloat.add (q_total g) (l_episodic_q l) /\
  t_steps g' = t_steps g + l_t l /\
  mean_eq g' = Some (PyFloat.div (PyFloat.add (q_total g) (l_episodic_q l))
                                 (PyFloat.of_int (episode g + 1))) /\
  name g' = name g /\
  (eval g = false -> eval_counter g' = eval_counter g) /\
  (eval g = true -> summary g <> None ->
   exists c, eval_counter g = Some c /\ eval_counter g' = Some (c + 1)) /\
  filter is_print_line (events_of r) =
    (if eval g then []
     else [EvPrintLine (name g) (episode g + 1) (l_episodic_r l)
             (l_episodic_q l) (l_t l)]).
Proof.
  run_after Ha l s; intros Hret; try discriminate;
    repeat apply conj; intros; try reflexivity; try discriminate;
    try congruence;
    try (eexists; split; reflexivity).
Qed.

Lemma after_loop_edges (l : locals Arr) (s : @rstate E A) :
  let r := @after_loop Arr Act Ctl E A l s in
  let g := self s in
  (l_info l = None -> outcome_of r <> Ret tt) /\
  (episode g + 1 <> 0 -> outcome_of r <> Raise ZeroDivisionError) /\
  (forall p, periodic_ckpt (cfg g) = Some p -> truthy p = false ->
             eval g = false \/ save_best (cfg g) = Some false ->
             count is_checkpoint (events_of r) = 0%nat).
Proof.
  run_after Ha l s; repeat apply conj; intros;
    repeat match goal with
           | H : (_ =? _) = true |- _ => apply Z.eqb_eq in H
           | H : (_ =? _) = false |- _ => apply Z.eqb_neq in H
           | H : Some _ = Some _ |- _ =>
               first [ discriminate H | injection H as <- | injection H as ->
                     | clear H ]
           | H : _ \/ _ |- _ => destruct H
           end;
    try discriminate; try congruence; try reflexivity.
Qed.

Lemma after_loop_unbound (l : locals Arr) (s : @rstate E A) :
  ready (self s) -> l_info l = None ->
  outcome_of (@after_loop Arr Act Ctl E A l s) =
  Raise (UnboundLocalError "info").
Proof.
  intros (R1 & R2 & R3 & R4 & R5 & R6 & R7 & R8) Hi.
  run_after Ha l s; try reflexivity; try congruence;
    try solve [ exfalso; apply R2; first [reflexivity | discriminate]
              | exfalso; apply R3; first [reflexivity | discriminate]
              | exfalso; apply R4; first [reflexivity | discriminate]
              | exfalso; apply R6; first [reflexivity | discriminate]
              | rewrite Z.eqb_eq in *; congruence ].
Qed.

Lemma after_loop_raises (l : locals Arr) (s : @rstate E A) (e : exn) :
  outcome_of (@after_loop Arr Act Ctl E A l s) = Raise e ->
  In e [ AttributeError "eval_counter"; AttributeError "add_summary";
         AttributeError "periodic_ckpt"; AttributeError "save_best";
         UnboundLocalError "info"; ZeroDivisionError; OverflowError ].
Proof.
  run_after Ha l s; intros He; try discriminate; injection He as <-;
    repeat first [ left; reflexivity | right ].
Qed.

Lemma loop_body_raises (l : locals Arr) (s : @rstate E A) (e : exn) :
  outcome_of (loop_body hstack l s) = Raise e ->
  e = AttributeError "render" \/ e = AttributeError "train_cycles_per_ts".
Proof.
  open_state s; exec_body; intros He; try discriminate; injection He as <-;
    first [ left; reflexivity | right; reflexivity ].
Qed.

Lemma while_loop_raises (fuel : nat) :
  forall (l : locals Arr) (s : @rstate E A) (e : exn),
    outcome_of (while_loop hstack fuel l s) = Raise e ->
    e = AttributeError "render" \/ e = AttributeError "train_cycles_per_ts".
Proof.
  induction fuel as [|fuel IH]; intros l s e.
  - simpl. destruct (negb (l_done l) && (l_t l <? max_episode_steps));
      unfold outcome_of; simpl; discriminate.
  - rewrite while_loop_unfold.
    destruct (negb (l_done l) && (l_t l <? max_episode_steps));
      [|unfold outcome_of; simpl; discriminate].
    pose proof (loop_body_raises l s) as Hb.
    bind_split Hm Hk; unfold outcome_of in *; simpl in *.
    + specialize (IH a s1 e). rewrite Hk in IH. exact IH.
    + exact (Hb e).
    + discriminate.
Qed.

(** *** Further observations: [done] and [update_stats] *)

Lemma done_eval_log (s : @rstate E A) (n : Z) (mq mr : float) :
  eval (self s) = true ->
  n_episodes (cfg (self s)) = Some n ->
  mean_eq (self s) = Some mq -> mean_er (self s) = Some mr ->
  (episode (self s) < n -> @done Arr Act Ctl E A s = (s, [], Ret false)) /\
  (n <= episode (self s) -> n <> 0 ->
   PyFloat.is_inf (PyFloat.int_div (success (self s)) n) = false ->
   @done Arr Act Ctl E A s =
   (s, [ EvPrintBlank;
         EvEvalResult mr mq (t_steps (self s))
           (PyFloat.mul (PyFloat.of_int 100)
              (PyFloat.int_div (success (self s)) n));
         EvPrintBlank ], Ret true)) /\
  (n <= episode (self s) -> n = 0 ->
   @done Arr Act Ctl E A s = (s, [EvPrintBlank], Raise ZeroDivisionError)).
Proof.
  intros He Hn Hq Hr.
  destruct (@done Arr Act Ctl E A s) as [[s' o] r] eqn:Ha.
  open_state s; run_in Ha; finish Ha;
    repeat match goal with
           | H : Some _ = Some _ |- _ =>
               first [ discriminate H | injection H as <- | injection H as ->
                     | clear H ]
           | H : (_ <=? _) = true |- _ => apply Z.leb_le in H
           | H : (_ <=? _) = false |- _ => apply Z.leb_gt in H
           | H : (_ =? _) = true |- _ => apply Z.eqb_eq in H
           | H : (_ =? _) = false |- _ => apply Z.eqb_neq in H
           end;
    repeat apply conj; intros; try reflexivity; try lia; try congruence.
Qed.

Lemma done_eval_unset (s : @rstate E A) (n : Z) :
  eval (self s) = true ->
  n_episodes (cfg (self s)) = Some n ->
  n <= episode (self s) ->
  mean_eq (self s) = None ->
  @done Arr Act Ctl E A s = (s, [], Raise (AttributeError "mean_eq")).
Proof.
  intros He Hn Hle Hq.
  destruct (@done Arr Act Ctl E A s) as [[s' o] r] eqn:Ha.
  open_state s; run_in Ha; finish Ha;
    repeat match goal with
           | H : Some _ = Some _ |- _ =>
               first [ discriminate H | injection H as <- | injection H as ->
                     | clear H ]
           | H : (_ <=? _) = true |- _ => apply Z.leb_le in H
           | H : (_ <=? _) = false |- _ => apply Z.leb_gt in H
           end;
    try reflexivity; try lia; try congruence.
Qed.

Lemma update_stats_zero_episode (q r : float) (t : Z) (s : @rstate E A) :
  episode (self s) = 0 ->
  let res := @update_stats Arr Act Ctl E A q r t s in
  let g := self s in
  let g' := self (state_of res) in
  outcome_of res = Raise ZeroDivisionError /\
  q_total g' = PyFloat.add (q_total g) q /\
  r_total g' = PyFloat.add (r_total g) r /\
  t_steps g' = t_steps g + t /\
  mean_eq g' = mean_eq g /\ mean_er g' = mean_er g.
Proof.
  intros He. cbv zeta.
  destruct (@update_stats Arr Act Ctl E A q r t s) as [[s' o] res] eqn:Ha.
  unfold state_of, outcome_of; simpl.
  open_state s; run_in Ha; finish Ha; simpl;
    repeat match goal with
           | H : PyFloat.is_inf _ = true |- _ => vm_compute in H; discriminate H
           | H : (0 =? 0) = false |- _ => vm_compute in H; discriminate H
           end;
    try congruence; repeat apply conj; reflexivity.
Qed.

Lemma run_ops_episode (ops : list op) :
  forall s : @rstate E A,
    0 <= episode (self s) -> 0 <= episode (self (run_ops hstack ops s)).
Proof.
  induction ops as [|o ops IH]; intros s Hs; [exact Hs|].
  unfold run_ops. simpl. fold (run_ops hstack ops (run_op hstack o s)).
  apply IH.
  destruct (is_reset o) eqn:Ho.
  - pose proof (simple_methods_frame s) as (_ & _ & _ & _ & M5).
    cbv zeta in M5. destruct M5 as (_ & _ & M5 & _).
    destruct o; try discriminate Ho. simpl. rewrite ?M5. lia.
  - pose proof (run_op_facts o s) as (_ & _ & O3 & _).
    specialize (O3 Ho). lia.
Qed.

(** *** Further observations: the whole rollout *)

Lemma rollout_call_order (fuel : nat) (s : @rstate E A) :
  exists o2 o3,
    events_of (generate_rollout hstack fuel s) = EvEnvReset :: o2 ++ o3 /\
    Forall (fun ev => is_loop_event ev = true) o2 /\
    Forall (fun ev => is_report_event ev = true) o3.
Proof.
  open_rollout_ev fuel s Hw Ha Hev.
  - pose proof (after_loop_report l s2) as (Q & _).
    destruct (after_loop l s2) as [[s3 o3] r]. exists o2, o3.
    repeat apply conj; [reflexivity | exact Hev | exact Q].
  - exists o2, []. rewrite app_nil_r.
    repeat apply conj; [reflexivity | exact Hev | constructor].
  - exists o2, []. rewrite app_nil_r.
    repeat apply conj; [reflexivity | exact Hev | constructor].
Qed.

(** opening a rollout, keeping the further facts on its loop *)
Ltac open_rollout_obs fuel s Hw Ha Hev Hobs :=
  pose proof (while_loop_obs fuel (start (snd (env_reset (env s))))
                {| self := self s; env := fst (env_reset (env s));
                   agent := agent s |}) as Hobs;
  cbv zeta in Hobs;
  open_rollout_ev fuel s Hw Ha Hev;
  unfold state_of, events_of, outcome_of in Hobs; simpl in Hobs;
  destruct Hobs as (B1 & B2 & B3 & B4 & B5 & B6 & B7);
  pose proof (loop_events_counts _ Hev) as (C1 & C2 & C3 & C4).

Lemma rollout_obs (fuel : nat) (s : @rstate E A) :
  let o := events_of (generate_rollout hstack fuel s) in
  Forall (fun e => e = negb (eval (self s))) (explore_flags o) /\
  (eval (self s) = false -> sleeps o = []) /\
  (step_sleep (cfg (self s)) = None -> sleeps o = []) /\
  (forall d, eval (self s) = true -> render (cfg (self s)) <> None ->
             step_sleep (cfg (self s)) = Some d ->
             sleeps o = repeat d (count is_env_step o)) /\
  (forall b, render (cfg (self s)) = Some b ->
             count is_render o = if b then count is_env_step o else 0%nat) /\
  count is_env_reset o = 1%nat /\
  List.length (rewards o) = count is_env_step o /\
  (forall l, final_locals hstack fuel s = Some l ->
             l_episodic_r l = sum_from PyFloat.zero (rewards o) /\
             l_t l = Z.of_nat (count is_env_step o)).
Proof.
  cbv zeta. open_rollout_obs fuel s Hw Ha Hev Hobs.
  - pose proof (after_loop_report l s2) as (_ & Q2 & Q3 & Q4 & _ & Q6 & Q7).
    pose proof (after_loop_quiet l s2) as (_ & Q8 & _).
    destruct (after_loop l s2) as [[s3 o3] r].
    unfold state_of, events_of, outcome_of in *; simpl in *.
    rewrite explore_flags_app, sleeps_app, rewards_app, Q2, Q3, Q4,
      !app_nil_r, !count_cons, !count_app, Q6, Q7, Q8, C1. simpl.
    rewrite !Nat.add_0_r.
    repeat apply conj; try assumption; try reflexivity.
    intros l0 Hl0. injection Hl0 as <-. split.
    + exact (B7 l eq_refl).
    + destruct (W6 l eq_refl) as (W6a & _). rewrite W6a. simpl. lia.
  - unfold state_of, events_of, outcome_of in *; simpl in *.
    rewrite !count_cons, C1. simpl.
    repeat apply conj; try assumption; try reflexivity.
    intros l0 Hl0. discriminate.
  - unfold state_of, events_of, outcome_of in *; simpl in *.
    rewrite !count_cons, C1. simpl.
    repeat apply conj; try assumption; try reflexivity.
    intros l0 Hl0. discriminate.
Qed.

Lemma rollout_stats (fuel : nat) (s : @rstate E A) :
  let r := generate_rollout hstack fuel s in
  let g := self s in
  let g' := self (state_of r) in
  outcome_of r = Ret tt ->
  exists l,
    final_locals hstack fuel s = Some l /\
    q_total g' = PyFloat.add (q_total g) (l_episodic_q l) /\
    r_total g' = PyFloat.add (r_total g) (l_episodic_r l) /\
    t_steps g' = t_steps g + l_t l /\
    mean_eq g' = Some (PyFloat.div (q_total g') (PyFloat.of_int (episode g'))) /\
    mean_er g' = Some (PyFloat.div (r_total g') (PyFloat.of_int (episode g'))) /\
    name g' = name g /\
    (eval g = false -> eval_counter g' = eval_counter g) /\
    (eval g = true -> summary g <> None ->
     exists c, eval_counter g = Some c /\ eval_counter g' = Some (c + 1)) /\
    filter is_print_line (events_of r) =
      (if eval g then []
       else [EvPrintLine (name g) (episode g') (l_episodic_r l)
               (l_episodic_q l) (l_t l)]).
Proof.
  cbv zeta. open_rollout_obs fuel s Hw Ha Hev Hobs; try discriminate.
  pose proof (after_loop_stats l s2) as Q. cbv zeta in Q.
  pose proof (after_loop_checkpoints l s2) as K. cbv zeta in K.
  pose proof (after_loop_frame l s2) as (F1 & _). rewrite W1 in *.
  destruct (after_loop l s2) as [[s3 o3] r].
  unfold state_of, events_of, outcome_of in *; simpl in *.
  intros Hret. destruct (Q Hret) as (Q1 & Q2 & Q3 & Q4 & Q5 & Q6 & Q7).
  destruct (K Hret) as (K1 & K2 & _).
  exists l. rewrite Q1, K1, F1, filter_app, C4.
  repeat apply conj; try assumption; try reflexivity.
Qed.

Lemma rollout_no_render (fuel : nat) (s : @rstate E A) :
  render (cfg (self s)) = None -> 0 < max_episode_steps ->
  let r := generate_rollout hstack (S fuel) s in
  outcome_of r = Raise (AttributeError "render") /\
  self (state_of r) = self s /\
  count is_env_step (events_of r) = 1%nat /\
  count is_remember (events_of r) = 1%nat /\
  count is_train (events_of r) = 0%nat /\
  count is_render (events_of r) = 0%nat.
Proof.
  intros Hr Hpos. cbv zeta.
  pose proof (while_loop_no_render fuel (start (snd (env_reset (env s))))
                {| self := self s; env := fst (env_reset (env s));
                   agent := agent s |} Hr) as Q.
  cbv zeta in Q. rewrite generate_rollout_run.
  destruct (while_loop hstack (S fuel) _ _) as [[s2 o2] [l|e|]];
    unfold state_of, events_of, outcome_of in *; simpl in *;
    destruct Q as (Q1 & Q2 & Q3 & Q4 & Q5 & Q6);
    try (apply Z.ltb_lt; exact Hpos); try discriminate.
  rewrite !count_cons. simpl.
  repeat apply conj; try assumption.
  injection Q1 as ->. reflexivity.
Qed.

Lemma rollout_zero_cap (fuel : nat) (s : @rstate E A) :
  max_episode_steps <= 0 ->
  let r := generate_rollout hstack fuel s in
  events_of r =
    EvEnvReset
    :: events_of (@after_loop Arr Act Ctl E A (start (snd (env_reset (env s))))
                    {| self := self s; env := fst (env_reset (env s));
                       agent := agent s |}) /\
  count is_env_step (events_of r) = 0%nat /\
  outcome_of r <> Ret tt /\
  episode (self (state_of r)) = episode (self s) + 1 /\
  (ready (self s) -> outcome_of r = Raise (UnboundLocalError "info")).
Proof.
  intros Hcap. cbv zeta. rewrite generate_rollout_run.
  rewrite while_loop_exit
    by (simpl; apply Z.ltb_ge; exact Hcap).
  set (l0 := start (snd (env_reset (env s)))).
  set (s0 := {| self := self s; env := fst (env_reset (env s));
                agent := agent s |}).
  pose proof (after_loop_edges l0 s0) as (E1 & _).
  pose proof (after_loop_frame l0 s0) as (F1 & _).
  pose proof (after_loop_quiet l0 s0) as (_ & Q2 & _).
  pose proof (after_loop_unbound l0 s0) as U.
  destruct (after_loop l0 s0) as [[s3 o3] r].
  unfold state_of, events_of, outcome_of in *; simpl in *.
  rewrite count_cons. simpl.
  repeat apply conj; try assumption; try reflexivity.
  - apply E1. reflexivity.
  - intros Hr. apply U; [exact Hr | reflexivity].
Qed.

Lemma rollout_raises (fuel : nat) (s : @rstate E A) (e : exn) :
  outcome_of (generate_rollout hstack fuel s) = Raise e ->
  In e [ AttributeError "render"; AttributeError "train_cycles_per_ts";
         AttributeError "eval_counter"; AttributeError "add_summary";
         AttributeError "periodic_ckpt"; AttributeError "save_best";
         UnboundLocalError "info"; ZeroDivisionError; OverflowError ].
Proof.
  pose proof (while_loop_raises fuel (start (snd (env_reset (env s))))
                {| self := self s; env := fst (env_reset (env s));
                   agent := agent s |} e) as Hl.
  rewrite generate_rollout_run.
  destruct (while_loop hstack fuel _ _) as [[s2 o2] [l|e'|]].
  - pose proof (after_loop_raises l s2 e) as Q.
    destruct (after_loop l s2) as [[s3 o3] r].
    unfold outcome_of in *; simpl in *. intros He.
    right. right. exact (Q He).
  - unfold outcome_of in *; simpl in *. intros He. injection He as ->.
    destruct (Hl eq_refl) as [-> | ->]; [left | right; left]; reflexivity.
  - unfold outcome_of; simpl. discriminate.
Qed.

Lemma rollout_no_zero_div (fuel : nat) (s : @rstate E A) :
  0 <= episode (self s) ->
  outcome_of (generate_rollout hstack fuel s) <> Raise ZeroDivisionError.
Proof.
  intros Hep.
  pose proof (while_loop_raises fuel (start (snd (env_reset (env s))))
                {| self := self s; env := fst (env_reset (env s));
                   agent := agent s |} ZeroDivisionError) as Hl.
  open_rollout fuel s Hw Ha.
  - pose proof (after_loop_edges l s2) as (_ & E2 & _). rewrite W1 in E2.
    destruct (after_loop l s2) as [[s3 o3] r].
    unfold outcome_of in *; simpl in *. apply E2. lia.
  - unfold outcome_of in *; simpl in *. intros He. injection He as ->.
    destruct (Hl eq_refl); discriminate.
  - discriminate.
Qed.

Lemma rollout_no_checkpoint (fuel : nat) (s : @rstate E A) (p : pyint) :
  periodic_ckpt (cfg (self s)) = Some p -> truthy p = false ->
  eval (self s) = false \/ save_best (cfg (self s)) = Some false ->
  count is_checkpoint (events_of (generate_rollout hstack fuel s)) = 0%nat.
Proof.
  intros Hp Ht Hb. open_rollout_obs fuel s Hw Ha Hev Hobs.
  - pose proof (after_loop_edges l s2) as (_ & _ & E3). rewrite W1 in E3.
    specialize (E3 p Hp Ht Hb).
    destruct (after_loop l s2) as [[s3 o3] r].
    unfold events_of in *; simpl in *.
    rewrite count_cons, count_app, C3, E3. reflexivity.
  - unfold events_of; simpl. rewrite count_cons, C3. reflexivity.
  - unfold events_of; simpl. rewrite count_cons, C3. reflexivity.
Qed.

Lemma rollout_done_flags (fuel : nat) (s : @rstate E A) :
  let r := generate_rollout hstack fuel s in
  outcome_of r = Ret tt ->
  exists k b,
    done_flags (events_of r) = repeat 0 k ++ [int_of_bool b] /\
    count is_env_step (events_of r) = S k /\
    (b = true \/ Z.of_nat (S k) = max_episode_steps).
Proof.
  cbv zeta.
  pose proof (while_loop_done_flags fuel (start (snd (env_reset (env s))))
                {| self := self s; env := fst (env_reset (env s));
                   agent := agent s |}) as Hd.
  cbv zeta in Hd.
  open_rollout fuel s Hw Ha; try discriminate.
  unfold state_of, events_of, outcome_of in Hd; simpl in Hd.
  destruct (Hd l eq_refl) as (D1 & D2).
  destruct (W6 l eq_refl) as (W6a & _). simpl in W6a.
  pose proof (after_loop_edges l s2) as (E1 & _).
  pose proof (after_loop_report l s2) as (_ & _ & _ & _ & Q5 & _).
  pose proof (after_loop_quiet l s2) as (_ & Q8 & _).
  destruct (after_loop l s2) as [[s3 o3] r].
  unfold state_of, events_of, outcome_of in *; simpl in *.
  intros Hret.
  destruct (0 <? max_episode_steps) eqn:Hc.
  - destruct (D2 eq_refl) as (k & K1 & K2).
    exists k, (l_done l). rewrite done_flags_app, Q5, app_nil_r, K1.
    rewrite count_cons, count_app, Q8, K2. simpl.
    repeat apply conj; try reflexivity; try lia.
    destruct (l_done l); [left; reflexivity | right].
    simpl in D1. apply Z.ltb_ge in D1. apply Z.ltb_lt in Hc.
    rewrite K2 in W4, W6a. lia.
  - exfalso. apply E1; [|exact Hret].
    rewrite (while_loop_exit fuel _ _) in Ha by (simpl; exact Hc).
    injection Ha as <- <- <-. reflexivity.
Qed.

Lemma rollout_summary_counter (fuel : nat) (s : @rstate E A) :
  let r := generate_rollout hstack fuel s in
  let g := self s in
  summary_writer g <> None -> summary g <> None -> outcome_of r = Ret tt ->
  exists l,
    final_locals hstack fuel s = Some l /\
    filter is_summary (events_of r) =
    [EvAddSummary [((name g ++ "/episodic_r")%string, l_episodic_r l);
                   ((name g ++ "/episodic_q")%string, l_episodic_q l)]
       (if eval g
        then match eval_counter g with Some c => c + 1 | None => 0 end
        else episode g + 1)].
Proof.
  cbv zeta. open_rollout_ev fuel s Hw Ha Hev; try (intros; discriminate).
  pose proof (after_loop_summaries l s2) as (Q1 & _). rewrite W1 in *.
  destruct (after_loop l s2) as [[s3 o3] r].
  unfold state_of, events_of, outcome_of in *; simpl in *.
  rewrite filter_app, (loop_events_no_summary o2 Hev). simpl.
  intros H1 H2 H3. destruct (Q1 H1 H2 H3) as (c & Hc & ->).
  exists l. split; [reflexivity | exact Hc].
Qed.

End Facts.
End RolloutFacts.

Module TrainFacts.
Import Train.
Section Facts.
Context {Arr Act Ctl : Type} (hstack : Arr -> Arr -> Arr)
        (scale_action : Act -> Act).
Context {E A : Type} {EnvOps : Environment Arr Act E}
        {AgentOps : Agent Arr Act Ctl A}.

Ltac unfold_ops :=
  unfold bind, when, emit, ret, raise, read_local, int_of_float,
    events_of, state_of, outcome_of in *.

Ltac case_scrut :=
  match goal with
  | |- context [match ?x with _ => _ end] => is_var x; destruct x
  | |- context [match ?x with _ => _ end] =>
      lazymatch x with
      | context [match _ with _ => _ end] => fail
      | _ => destruct x eqn:?
      end
  end.

Ltac bind_split Hm Hk :=
  unfold bind;
  match goal with
  | |- context [match ?m ?s with _ => _ end] =>
      let s1 := fresh "s1" in
      let o1 := fresh "o1" in
      let a := fresh "a" in
      let e := fresh "e" in
      destruct (m s) as [[s1 o1] [a|e|]] eqn:Hm;
      [ match goal with
        | |- context [match ?k a s1 with _ => _ end] =>
            let s2 := fresh "s2" in
            let o2 := fresh "o2" in
            let r := fresh "r" in
            destruct (k a s1) as [[s2 o2] r] eqn:Hk
        end | | ]
  end.

Lemma train_calls_repeat (k : nat) (s : @world E A) :
  repeat_m k call_train s =
  ({| env := env s; agent := Nat.iter k agent_train (agent s) |},
   repeat (@EvTrain Arr Act Ctl) k, Ret tt).
Proof.
  revert s. induction k as [|k IH]; intros s.
  - destruct s; reflexivity.
  - simpl. unfold bind at 1. unfold call_train at 1. rewrite IH. simpl.
    rewrite <- Nat.iter_succ_r. reflexivity.
Qed.

(** One training step: the calls it makes and the locals it leaves. *)
Lemma step_body_run (c : config) (i : Z) (l : ep_locals Arr Ctl) (s : @world E A) :
  exists s' o l' action tr,
    step_body hstack scale_action c i l s = (s', o, Ret (l', action)) /\
    count is_env_step o = 1%nat /\
    count is_train o = 5%nat /\
    count is_remember o = 0%nat /\
    count is_save o = 0%nat /\
    best_scores o = [] /\
    l_episode_batch l' = l_episode_batch l ++ [tr] /\
    eight_fields tr /\
    l_i l' = Some i.
Proof.
  unfold step_body, for_range. unfold_ops.
  unfold call_agent_step, call_env_step, call_render.
  destruct s as [e a]. simpl.
  repeat (case_scrut; simpl; try rewrite train_calls_repeat; simpl).
  all: do 5 eexists; split; [reflexivity|];
    repeat apply conj; try reflexivity; exact I.
Qed.

Lemma step_body_shape (c : config) (i : Z) (l : ep_locals Arr Ctl)
    (s : @world E A)
    (a1 : A) (action : Act) (u : Ctl) (q : float)
    (e1 : E) (new_obs : obs_dict Arr) (r : float) (d : bool) (inf : info_dict) :
  agent_step (agent s) (hstack (obs (l_obs l)) (goal (l_obs l)))
    is_u_discrete None = (a1, (action, u, q)) ->
  env_step (env s) (scale_action action) = (e1, (new_obs, r, d, inf)) ->
  exists s' o l',
    step_body hstack scale_action c i l s =
      (s', o, Ret (l', scale_action action)) /\
    l_episode_batch l' =
      l_episode_batch l ++
      [ [ FArr (obs (l_obs l)); FArr (goal (l_obs l)); FArr (ag (l_obs l));
          FCtl u; FFloat r; FArr (obs new_obs); FArr (goal new_obs);
          FInt (int_of_bool d) ] ].
Proof.
  intros Hag Hen. unfold step_body, for_range. unfold_ops.
  unfold call_agent_step, call_env_step, call_render.
  destruct s as [e a]. simpl in *. rewrite Hag. simpl. rewrite Hen. simpl.
  repeat (case_scrut; simpl; try rewrite train_calls_repeat; simpl).
  all: do 3 eexists; split; reflexivity.
Qed.

Lemma step_loop_run (c : config) (episode : Z) (k : nat) :
  forall (i : Z) (l : ep_locals Arr Ctl) (s : @world E A),
  exists s' o l' new,
    step_loop hstack scale_action c episode k i l s = (s', o, Ret l') /\
    (count is_env_step o <= k)%nat /\
    count is_train o = (5 * count is_env_step o)%nat /\
    count is_remember o = 0%nat /\
    count is_save o = 0%nat /\
    best_scores o = [] /\
    l_episode_batch l' = l_episode_batch l ++ new /\
    List.length new = count is_env_step o /\
    Forall eight_fields new /\
    (l_i l <> None \/ k <> 0%nat -> l_i l' <> None).
Proof.
  induction k as [|k IH]; intros i l s.
  - exists s, [], l, []. simpl. rewrite app_nil_r.
    repeat apply conj; try reflexivity; try lia; try constructor.
    intros [H|H]; [exact H | congruence].
  - destruct (step_body_run c i l s)
      as (s1 & o1 & l1 & action & tr & Hb & B1 & B2 & B3 & B4 & B5 & B6 & B7 & B8).
    simpl. unfold bind at 1. rewrite Hb.
    destruct (l_done l1) eqn:Hd.
    + exists s1, (o1 ++ []), l1, [tr]. unfold ret. rewrite app_nil_r.
      repeat apply conj; try reflexivity; try lia; try assumption.
      * simpl. lia.
      * constructor; [assumption | constructor].
      * intros _. congruence.
    + destruct (IH (i + 1) l1 s1)
        as (s2 & o2 & l2 & new & Hl & L1 & L2 & L3 & L4 & L5 & L6 & L7 & L8 & L9).
      unfold bind, emit. rewrite Hl.
      eexists s2, _, l2, (tr :: new). split; [reflexivity|].
      assert (Hbs : forall (x y : list (event Arr Act Ctl)),
                 best_scores (x ++ y) = best_scores x ++ best_scores y).
      { intros x y. induction x as [|ev x IHx]; [reflexivity|].
        destruct ev; simpl; rewrite ?IHx; reflexivity. }
      rewrite !count_app, !count_cons, !Hbs. simpl.
      rewrite B5, L5.
      repeat apply conj; try reflexivity; try lia.
      * rewrite L6, B6, <- app_assoc. reflexivity.
      * constructor; assumption.
      * intros _. apply L9. left. congruence.
Qed.

Lemma flush_batch_run (batch : list (list (field Arr Ctl))) :
  forall s : @world E A,
  exists s', flush_batch batch s = (s', map EvRemember batch, Ret tt).
Proof.
  induction batch as [|tr rest IH]; intros s.
  - exists s. reflexivity.
  - simpl. unfold bind, call_remember.
    destruct (IH {| env := env s; agent := agent_remember (agent s) tr |})
      as [s' Hs'].
    rewrite Hs'. exists s'. reflexivity.
Qed.

Lemma eval_loop_run (k : nat) :
  forall (j : Z) (l : run_locals Arr) (s : @world E A),
  exists s' o l',
    eval_loop hstack k j l s = (s', o, Ret l') /\
    (count is_env_step o <= k)%nat /\
    count is_train o = 0%nat /\
    count is_remember o = 0%nat /\
    count is_save o = 0%nat /\
    best_scores o = [].
Proof.
  induction k as [|k IH]; intros j l s.
  - exists s, [], l. repeat apply conj; try reflexivity; simpl; lia.
  - simpl. unfold bind, call_agent_step, call_env_step.
    destruct (agent_step (agent s) _ _ _) as [a1 [[u c0] q]].
    simpl. destruct (env_step (env s) u) as [e1 [[[o' r] d] inf]]. simpl.
    destruct d.
    + unfold ret. do 3 eexists. split; [reflexivity|].
      repeat apply conj; try reflexivity; unfold count; simpl; lia.
    + match goal with
      | |- context [eval_loop hstack k ?j' ?l' ?s'] =>
          destruct (IH j' l' s') as (s2 & o2 & l2 & Hl & L1 & L2 & L3 & L4 & L5)
      end.
      rewrite Hl. do 3 eexists. split; [reflexivity|].
      simpl. rewrite !count_cons. simpl.
      repeat apply conj; try assumption; try lia.
Qed.

Lemma best_scores_app (x y : list (event Arr Act Ctl)) :
  best_scores (x ++ y) = best_scores x ++ best_scores y.
Proof.
  induction x as [|ev x IHx]; [reflexivity|].
  destruct ev; simpl; rewrite ?IHx; reflexivity.
Qed.

Lemma flush_events_quiet (batch : list (list (field Arr Ctl))) :
  count is_save (map (@EvRemember Arr Act Ctl) batch) = 0%nat /\
  count is_train (map (@EvRemember Arr Act Ctl) batch) = 0%nat /\
  count is_env_step (map (@EvRemember Arr Act Ctl) batch) = 0%nat /\
  best_scores (map (@EvRemember Arr Act Ctl) batch) = [] /\
  remembered (map (@EvRemember Arr Act Ctl) batch) = batch.
Proof.
  induction batch as [|tr rest (I1 & I2 & I3 & I4 & I5)]; simpl.
  - repeat apply conj; reflexivity.
  - rewrite !count_cons, I1, I2, I3, I4, I5. repeat apply conj; reflexivity.
Qed.

Ltac red_in H :=
  cbv beta iota zeta delta
    [bind when emit ret raise read_local int_of_float
     episode_body call_env_reset call_get_current_distance train
     env agent current_best_eval_score t_i t_j
     negb] in H;
  cbn [app] in H.

Ltac case_in H :=
  match type of H with
  | context [match ?x with _ => _ end] =>
      first
        [ is_var x; destruct x
        | lazymatch x with
          | context [match _ with _ => _ end] => fail
          | _ => destruct x eqn:?
          end ]
  end.

Ltac run_in H := red_in H; repeat (case_in H; red_in H).

Lemma eval_runs_quiet (k : nat) :
  forall (eval_run : Z) (ms mq : float) (j : option Z) (s : @world E A),
    let o := events_of (eval_runs hstack k eval_run ms mq j s) in
    count is_train o = 0%nat /\ count is_remember o = 0%nat /\
    count is_save o = 0%nat /\ best_scores o = [].
Proof.
  induction k as [|k IH]; intros eval_run ms mq j s; cbv zeta.
  - repeat apply conj; reflexivity.
  - destruct (eval_runs hstack (S k) eval_run ms mq j s) as [[s' o] r] eqn:Hr.
    unfold events_of; simpl. simpl in Hr. destruct s as [e0 a0].
    red_in Hr.
    destruct (env_reset e0) as [e1 ob]. red_in Hr.
    match type of Hr with
    | context [eval_loop hstack ?k0 ?j0 ?l0 ?s0] =>
        destruct (eval_loop_run k0 j0 l0 s0)
          as (s2 & o2 & l2 & Hl & L1 & L2 & L3 & L4 & L5)
    end.
    rewrite Hl in Hr. red_in Hr.
    destruct (PyFloat.is_nan (r_eval_score l2));
      [injection Hr as <- <- <-; rewrite ?app_nil_r, !count_cons; simpl;
       repeat apply conj; assumption|].
    destruct (PyFloat.is_inf (r_eval_score l2));
      [injection Hr as <- <- <-; rewrite ?app_nil_r, !count_cons; simpl;
       repeat apply conj; assumption|].
    red_in Hr.
    destruct (r_j l2) as [jv|];
      [|injection Hr as <- <- <-; rewrite ?app_nil_r, !count_cons; simpl;
        repeat apply conj; assumption].
    red_in Hr.
    match type of Hr with
    | context [eval_runs hstack k ?a ?b ?c ?d ?s0] =>
        pose proof (IH a b c d s0) as Q; cbv zeta in Q;
        destruct (eval_runs hstack k a b c d s0) as [[s3 o3] r3]
    end.
    unfold events_of in Q; simpl in Q. destruct Q as (Q1 & Q2 & Q3 & Q4).
    injection Hr as <- <- <-.
    rewrite !count_cons, !count_app, !count_cons. simpl.
    rewrite best_scores_app. simpl. rewrite L2, L3, L4, L5, Q1, Q2, Q3, Q4.
    repeat apply conj; reflexivity.
Qed.

Lemma remembered_app (x y : list (event Arr Act Ctl)) :
  remembered (x ++ y) = remembered x ++ remembered y.
Proof.
  induction x as [|ev x IHx]; [reflexivity|].
  destruct ev; simpl; rewrite ?IHx; reflexivity.
Qed.

Lemma remembered_none (o : list (event Arr Act Ctl)) :
  count is_remember o = 0%nat -> remembered o = [].
Proof.
  induction o as [|ev o IH]; [reflexivity|].
  rewrite count_cons. destruct ev; simpl; intros Hc; try (apply IH; exact Hc).
  discriminate.
Qed.

(** One episode of [train]: what is remembered, how often the agent is
    trained, and when the best score moves. *)
Lemma episode_body_facts (c : config) (episode : Z) (tl : train_locals)
    (s : @world E A) :
  let r := episode_body hstack scale_action c episode tl s in
  let o := events_of r in
  Forall eight_fields (remembered o) /\
  count is_train o = (5 * List.length (remembered o))%nat /\
  (List.length (remembered o) <= Z.to_nat _max_episode_steps)%nat /\
  match outcome_of r with
  | Ret tl' =>
      (current_best_eval_score tl' = current_best_eval_score tl /\
       count is_save o = 0%nat /\ best_scores o = []) \/
      (PyFloat.gtb (current_best_eval_score tl')
                   (current_best_eval_score tl) = true /\
       count is_save o = 1%nat /\
       best_scores o = [current_best_eval_score tl'])
  | _ => count is_save o = 0%nat /\ best_scores o = []
  end.
Proof.
  cbv zeta.
  destruct (episode_body hstack scale_action c episode tl s) as [[s' o] r] eqn:Ha.
  unfold events_of, outcome_of; simpl.
  destruct s as [e0 a0]. destruct tl as [best ti tj]. red_in Ha.
  destruct (env_reset e0) as [e1 ob]. red_in Ha.
  match type of Ha with
  | context [step_loop hstack scale_action c episode ?k0 ?i0 ?l0 ?s0] =>
      destruct (step_loop_run c episode k0 i0 l0 s0)
        as (s1 & o1 & l1 & new & Hl & L1 & L2 & L3 & L4 & L5 & L6 & L7 & L8 & L9)
  end.
  rewrite Hl in Ha. red_in Ha.
  destruct (flush_batch_run (l_episode_batch l1) s1) as [s2 Hf].
  rewrite Hf in Ha. red_in Ha.
  simpl in L6. subst.
  pose proof (flush_events_quiet (l_episode_batch l1)) as (F1 & F2 & F3 & F4 & F5).
  pose proof (remembered_none o1 L3) as Hrem.
  pose proof (eval_runs_quiet 5 0 PyFloat.zero PyFloat.zero tj) as Q.
  cbv zeta in Q.
  repeat (case_in Ha; red_in Ha); injection Ha as <- <- <-;
    try match goal with
        | H : eval_runs _ _ _ _ _ _ ?s0 = _ |- _ =>
            specialize (Q s0); rewrite H in Q; unfold events_of in Q;
            simpl in Q; destruct Q as (Q1 & Q2 & Q3 & Q4);
            pose proof (remembered_none _ Q2) as Hrem3
        end;
    repeat first
      [ progress rewrite ?count_cons, ?count_app, ?best_scores_app,
          ?remembered_app, ?app_nil_r, ?Hrem, ?Hrem3, ?F1, ?F2, ?F3, ?F4, ?F5,
          ?L2, ?L4, ?L5, ?Q1, ?Q3, ?Q4, ?L6
      | progress simpl ];
    rewrite ?count_nil;
    repeat apply conj; try assumption; try lia; try reflexivity;
    try (left; repeat apply conj; reflexivity);
    try (right; repeat apply conj; try reflexivity; assumption).
Qed.

Lemma episodes_facts (c : config) (k : nat) :
  forall (episode : Z) (tl : train_locals) (s : @world E A),
    PyFloat.leb PyFloat.zero (current_best_eval_score tl) = true ->
    let r := episodes hstack scale_action c k episode tl s in
    let o := events_of r in
    Forall eight_fields (remembered o) /\
    count is_train o = (5 * List.length (remembered o))%nat /\
    count is_save o = List.length (best_scores o) /\
    Forall (fun m => PyFloat.gtb m PyFloat.zero = true) (best_scores o) /\
    (forall tl', outcome_of r = Ret tl' ->
       PyFloat.leb PyFloat.zero (current_best_eval_score tl') = true).
Proof.
  induction k as [|k IH]; intros episode tl s Hpos; cbv zeta.
  - simpl. unfold ret, events_of, outcome_of. simpl.
    repeat apply conj; try constructor; try reflexivity.
    intros tl' Ht. injection Ht as <-. exact Hpos.
  - simpl. unfold bind.
    pose proof (episode_body_facts c episode tl s) as Q. cbv zeta in Q.
    destruct (episode_body hstack scale_action c episode tl s)
      as [[s1 o1] [tl1|e|]];
      unfold events_of, outcome_of in *; simpl in *;
      destruct Q as (Q1 & Q2 & Q3 & Q4).
    + assert (Hpos1 : PyFloat.leb PyFloat.zero (current_best_eval_score tl1) = true).
      { destruct Q4 as [(E1 & _) | (E1 & _)].
        - rewrite E1. exact Hpos.
        - exact (PyFloatFacts.gtb_nonneg _ _ Hpos E1). }
      pose proof (IH (episode + 1) tl1 s1 Hpos1) as R. cbv zeta in R.
      destruct (episodes hstack scale_action c k (episode + 1) tl1 s1)
        as [[s2 o2] r2].
      unfold events_of, outcome_of in *; simpl in *.
      destruct R as (R1 & R2 & R3 & R4 & R5).
      rewrite remembered_app, best_scores_app, !count_app, !length_app.
      repeat apply conj.
      * apply Forall_app. split; assumption.
      * lia.
      * destruct Q4 as [(_ & E2 & E3) | (_ & E2 & E3)];
          rewrite E2, E3, R3; reflexivity.
      * apply Forall_app. split; [|assumption].
        destruct Q4 as [(_ & _ & E3) | (E1 & _ & E3)]; rewrite E3.
        -- constructor.
        -- constructor; [|constructor].
           exact (PyFloatFacts.gtb_pos _ _ Hpos E1).
      * exact R5.
    + destruct Q4 as (E2 & E3). rewrite E2, E3.
      repeat apply conj; try assumption; try reflexivity; try constructor.
      intros tl' Ht. discriminate.
    + destruct Q4 as (E2 & E3). rewrite E2, E3.
      repeat apply conj; try assumption; try reflexivity; try constructor.
      intros tl' Ht. discriminate.
Qed.

Lemma step_body_config (c1 c2 : config) (i : Z) (l : ep_locals Arr Ctl)
    (s : @world E A) :
  render c1 = render c2 ->
  step_body hstack scale_action c1 i l s = step_body hstack scale_action c2 i l s.
Proof. intros Hr. unfold step_body. rewrite Hr. reflexivity. Qed.

Lemma step_loop_config (c1 c2 : config) (episode : Z) (k : nat) :
  render c1 = render c2 ->
  forall (i : Z) (l : ep_locals Arr Ctl) (s : @world E A),
    step_loop hstack scale_action c1 episode k i l s =
    step_loop hstack scale_action c2 episode k i l s.
Proof.
  intros Hr. induction k as [|k IH]; intros i l s; [reflexivity|].
  simpl. unfold bind at 1 3. rewrite (step_body_config c1 c2 i l s Hr).
  destruct (step_body hstack scale_action c2 i l s) as [[s1 o1] [[l1 act]|e|]];
    try reflexivity.
  destruct (l_done l1); [reflexivity|].
  unfold bind, emit. rewrite IH. reflexivity.
Qed.

Lemma episode_body_config (c1 c2 : config) (episode : Z) (tl : train_locals)
    (s : @world E A) :
  render c1 = render c2 ->
  episode_body hstack scale_action c1 episode tl s =
  episode_body hstack scale_action c2 episode tl s.
Proof.
  intros Hr. unfold episode_body. unfold bind.
  destruct (call_env_reset s) as [[s1 o1] [x|e|]]; try reflexivity.
  destruct (call_get_current_distance s1) as [[s2 o2] [d|e|]]; try reflexivity.
  rewrite (step_loop_config c1 c2 episode _ Hr). reflexivity.
Qed.

Lemma episodes_config (c1 c2 : config) (k : nat) :
  render c1 = render c2 ->
  forall (episode : Z) (tl : train_locals) (s : @world E A),
    episodes hstack scale_action c1 k episode tl s =
    episodes hstack scale_action c2 k episode tl s.
Proof.
  intros Hr. induction k as [|k IH]; intros episode tl s; [reflexivity|].
  simpl. unfold bind. rewrite (episode_body_config c1 c2 episode tl s Hr).
  destruct (episode_body hstack scale_action c2 episode tl s)
    as [[s1 o1] [tl1|e|]]; try reflexivity.
  rewrite IH. reflexivity.
Qed.

Lemma train_config (c1 c2 : config) (s : @world E A) :
  n_episodes c1 = n_episodes c2 -> render c1 = render c2 ->
  train hstack scale_action c1 s = train hstack scale_action c2 s.
Proof.
  intros Hn Hr. unfold train. rewrite Hn.
  destruct (n_episodes c2); [|reflexivity].
  apply episodes_config. exact Hr.
Qed.

Lemma train_facts (c : config) (s : @world E A) :
  let r := train hstack scale_action c s in
  let o := events_of r in
  Forall eight_fields (remembered o) /\
  count is_train o = (5 * List.length (remembered o))%nat /\
  count is_save o = List.length (best_scores o) /\
  Forall (fun m => PyFloat.gtb m PyFloat.zero = true) (best_scores o) /\
  (forall tl', outcome_of r = Ret tl' ->
     PyFloat.leb PyFloat.zero (current_best_eval_score tl') = true).
Proof.
  cbv zeta. unfold train. destruct (n_episodes c) as [n|].
  - apply (episodes_facts c (Z.to_nat n) 0
             {| current_best_eval_score := PyFloat.zero;
                t_i := None; t_j := None |} s).
    reflexivity.
  - unfold raise, events_of, outcome_of. simpl.
    repeat apply conj; try constructor; try reflexivity.
    intros tl' Ht. discriminate.
Qed.

(** *** Further observations on the events of [train] *)

Lemma saved_episodes_app (x y : list (event Arr Act Ctl)) :
  saved_episodes (x ++ y) = saved_episodes x ++ saved_episodes y.
Proof.
  induction x as [|ev x IHx]; [reflexivity|].
  destruct ev; simpl; rewrite ?IHx; reflexivity.
Qed.

Lemma summary_steps_app (x y : list (event Arr Act Ctl)) :
  summary_steps (x ++ y) = summary_steps x ++ summary_steps y.
Proof.
  induction x as [|ev x IHx]; [reflexivity|].
  destruct ev; simpl; rewrite ?IHx; reflexivity.
Qed.

Lemma batch_rewards_app (x y : list (list (field Arr Ctl))) :
  batch_rewards (x ++ y) = batch_rewards x ++ batch_rewards y.
Proof.
  induction x as [|tr x IHx]; [reflexivity|].
  destruct tr as [|? [|? [|? [|? [|[] ?]]]]]; simpl; rewrite ?IHx;
    reflexivity.
Qed.

Lemma step_body_obs (c : config) (i : Z) (l : ep_locals Arr Ctl)
    (s : @world E A) :
  let r := step_body hstack scale_action c i l s in
  let o := events_of r in
  count is_training_step o = 1%nat /\ count is_eval_step o = 0%nat /\
  count is_env_reset o = 0%nat /\ count is_eval_line o = 0%nat /\
  count is_train_line o = 0%nat /\ count is_step_summary o = 0%nat /\
  saved_episodes o = [] /\ summary_steps o = [] /\
  (forall b, render c = Some b ->
             count is_render o = if b then 1%nat else 0%nat) /\
  (render c = None -> count is_render o = 0%nat) /\
  forall l' a, outcome_of r = Ret (l', a) ->
    exists tr rw,
      l_episode_batch l' = l_episode_batch l ++ [tr] /\
      batch_rewards [tr] = [rw] /\
      l_episodic_r l' = PyFloat.add (l_episodic_r l) rw.
Proof.
  cbv zeta. unfold step_body, for_range. unfold_ops.
  unfold call_agent_step, call_env_step, call_render.
  destruct s as [e a]. simpl.
  repeat (case_scrut; simpl; try rewrite train_calls_repeat; simpl).
  all: repeat apply conj; try reflexivity; intros;
    try discriminate;
    try match goal with
        | H : Some _ = Some ?b |- _ => injection H as <-; reflexivity
        end;
    match goal with
    | H : Ret _ = Ret _ |- _ => injection H as <- <-
    end;
    do 2 eexists; repeat apply conj; reflexivity.
Qed.

Lemma sum_from_snoc (acc : float) (rs : list float) (r : float) :
  sum_from acc (rs ++ [r]) = PyFloat.add (sum_from acc rs) r.
Proof. unfold sum_from. rewrite fold_left_app. reflexivity. Qed.

Lemma summary_steps_shift (base i : Z) (m : nat) :
  (base + i)
  :: map (fun j => base + (i + 1 + Z.of_nat j)) (seq 0 m) =
  map (fun j => base + (i + Z.of_nat j)) (seq 0 (S m)).
Proof.
  simpl. rewrite Z.add_0_r. f_equal.
  rewrite <- seq_shift, map_map. apply map_ext. intros j.
  f_equal. lia.
Qed.

Lemma step_loop_obs (c : config) (episode : Z) (k : nat) :
  forall (i : Z) (l : ep_locals Arr Ctl) (s : @world E A),
    let r := step_loop hstack scale_action c episode k i l s in
    let o := events_of r in
    count is_training_step o = count is_env_step o /\
    count is_eval_step o = 0%nat /\ count is_env_reset o = 0%nat /\
    count is_eval_line o = 0%nat /\ count is_train_line o = 0%nat /\
    saved_episodes o = [] /\
    (forall b, render c = Some b ->
               count is_render o =
               if b then count is_env_step o else 0%nat) /\
    (render c = None -> count is_render o = 0%nat) /\
    summary_steps o =
      map (fun j => episode * _max_episode_steps + (i + Z.of_nat j))
          (seq 0 (count is_step_summary o)) /\
    forall l', outcome_of r = Ret l' ->
      (l_episodic_r l =
         sum_from PyFloat.zero (batch_rewards (l_episode_batch l)) ->
       l_episodic_r l' =
         sum_from PyFloat.zero (batch_rewards (l_episode_batch l'))) /\
      (l_done l = false ->
       (count is_step_summary o + (if l_done l' then 1 else 0))%nat =
         count is_env_step o /\
       (l_done l' = false -> count is_env_step o = k)).
Proof.
  induction k as [|k IH]; intros i l s; cbv zeta.
  - simpl. unfold ret, events_of, outcome_of; simpl.
    repeat apply conj; try reflexivity.
    + intros b _. destruct b; reflexivity.
    + intros l' Hl. injection Hl as <-. split; [auto|].
      intros Hd. rewrite Hd. split; reflexivity.
  - destruct (step_body_run c i l s)
      as (s1 & o1 & l1 & action & tr & Hb & B1 & _).
    pose proof (step_body_obs c i l s) as Q. cbv zeta in Q. rewrite Hb in Q.
    unfold events_of, outcome_of in Q; cbn [fst snd] in Q.
    destruct Q as (Q1 & Q2 & Q3 & Q4 & Q5 & Q6 & Q7 & Q8 & Q9 & Q10 & Q11).
    destruct (Q11 l1 action eq_refl) as (tr' & rw & T1 & T2 & T3).
    destruct (l_done l1) eqn:Hd.
    + assert (Hs : step_loop hstack scale_action c episode (S k) i l s =
                   (s1, o1, Ret l1)).
      { simpl. unfold bind at 1. rewrite Hb, Hd. unfold ret.
        rewrite app_nil_r. reflexivity. }
      rewrite Hs. unfold events_of, outcome_of; simpl.
      rewrite Q1, Q2, Q3, Q4, Q5, Q6, Q7, Q8, B1.
      repeat apply conj; try reflexivity.
      * intros b Hr. rewrite (Q9 b Hr). destruct b; reflexivity.
      * exact Q10.
      * intros l' Hl. injection Hl as <-. split.
        -- intros Hinv.
           rewrite T1, batch_rewards_app, T2, sum_from_snoc, <- Hinv.
           exact T3.
        -- intros _. rewrite Hd. split; [reflexivity | discriminate].
    + pose proof (IH (i + 1) l1 s1) as R. cbv zeta in R.
      destruct (step_loop hstack scale_action c episode k (i + 1) l1 s1)
        as [[s2 o2] r2] eqn:Hk.
      assert (Hs : step_loop hstack scale_action c episode (S k) i l s =
                   (s2,
                    o1 ++ EvStepSummary action (l_episodic_q l1) (i + 1)
                            (episode * _max_episode_steps + i) :: o2,
                    r2)).
      { simpl. unfold bind at 1. rewrite Hb, Hd. unfold bind, emit.
        rewrite Hk. reflexivity. }
      rewrite Hs. unfold events_of, outcome_of in *; cbn [fst snd] in *.
      destruct R as (R1 & R2 & R3 & R4 & R5 & R6 & R7 & R8 & R9 & R10).
      rewrite ?count_app, ?count_cons, ?saved_episodes_app,
        ?summary_steps_app.
      simpl.
      rewrite Q1, Q2, Q3, Q4, Q5, Q6, Q7, Q8, B1, R1, R2, R3, R4, R5, R6, R9.
      simpl.
      repeat apply conj; try reflexivity.
      * intros b Hr. rewrite (Q9 b Hr), (R7 b Hr). destruct b; reflexivity.
      * intros Hr. rewrite (Q10 Hr), (R8 Hr). reflexivity.
      * apply summary_steps_shift.
      * intros l' Hl. destruct (R10 l' Hl) as (R10a & R10b). split.
        -- intros Hinv. apply R10a.
           rewrite T1, batch_rewards_app, T2, sum_from_snoc, <- Hinv.
           exact T3.
        -- intros _. destruct (R10b Hd) as (S1 & S2). split.
           ++ rewrite <- S1. reflexivity.
           ++ intros Hd'. rewrite (S2 Hd'). reflexivity.
Qed.

Lemma eval_loop_obs (k : nat) :
  forall (j : Z) (l : run_locals Arr) (s : @world E A),
    let o := events_of (eval_loop hstack k j l s) in
    count is_eval_step o = count is_env_step o /\
    count is_training_step o = 0%nat /\ count is_env_reset o = 0%nat /\
    count is_eval_line o = 0%nat /\ count is_train_line o = 0%nat /\
    count is_step_summary o = 0%nat /\ count is_render o = 0%nat /\
    saved_episodes o = [].
Proof.
  induction k as [|k IH]; intros j l s; cbv zeta.
  - repeat apply conj; reflexivity.
  - simpl. unfold bind, call_agent_step, call_env_step.
    destruct (agent_step (agent s) _ _ _) as [a1 [[u c0] q]].
    simpl. destruct (env_step (env s) u) as [e1 [[[o' r] d] inf]]. simpl.
    destruct d.
    + unfold ret, events_of. simpl. repeat apply conj; reflexivity.
    + match goal with
      | |- context [eval_loop hstack k ?j' ?l' ?s'] =>
          pose proof (IH j' l' s') as R; cbv zeta in R;
          destruct (eval_loop hstack k j' l' s') as [[s2 o2] r2]
      end.
      unfold events_of in *. simpl in *.
      destruct R as (R1 & R2 & R3 & R4 & R5 & R6 & R7 & R8).
      rewrite !count_cons. simpl.
      rewrite R1, R2, R3, R4, R5, R6, R7, R8.
      repeat apply conj; reflexivity.
Qed.

Lemma eval_runs_obs (k : nat) :
  forall (eval_run : Z) (ms mq : float) (j : option Z) (s : @world E A),
    let r := eval_runs hstack k eval_run ms mq j s in
    let o := events_of r in
    count is_eval_step o = count is_env_step o /\
    count is_training_step o = 0%nat /\
    count is_train_line o = 0%nat /\ count is_step_summary o = 0%nat /\
    count is_render o = 0%nat /\ saved_episodes o = [] /\
    (count is_env_reset o <= k)%nat /\
    (count is_env_step o <= k * Z.to_nat _max_episode_steps)%nat /\
    (forall v, outcome_of r = Ret v ->
               count is_eval_line o = k /\ count is_env_reset o = k).
Proof.
  induction k as [|k IH]; intros eval_run ms mq j s; cbv zeta.
  - unfold events_of, outcome_of. simpl.
    repeat apply conj; try reflexivity; try lia.
    intros v _. split; reflexivity.
  - destruct (eval_runs hstack (S k) eval_run ms mq j s) as [[s' o] r] eqn:Hr.
    unfold events_of, outcome_of; simpl. simpl in Hr. destruct s as [e0 a0].
    red_in Hr.
    destruct (env_reset e0) as [e1 ob]. red_in Hr.
    match type of Hr with
    | context [eval_loop hstack ?k0 ?j0 ?l0 ?s0] =>
        destruct (eval_loop_run k0 j0 l0 s0)
          as (s2 & o2 & l2 & Hl & L1 & _);
        pose proof (eval_loop_obs k0 j0 l0 s0) as Q; cbv zeta in Q;
        rewrite Hl in Q; unfold events_of in Q; simpl in Q;
        destruct Q as (Q1 & Q2 & Q3 & Q4 & Q5 & Q6 & Q7 & Q8)
    end.
    rewrite Hl in Hr. red_in Hr.
    destruct (PyFloat.is_nan (r_eval_score l2));
      [injection Hr as <- <- <-; rewrite ?app_nil_r, !count_cons; simpl;
       rewrite ?Q1, ?Q2, ?Q3, ?Q4, ?Q5, ?Q6, ?Q7, ?Q8;
       repeat apply conj; try reflexivity; try lia; intros; discriminate|].
    destruct (PyFloat.is_inf (r_eval_score l2));
      [injection Hr as <- <- <-; rewrite ?app_nil_r, !count_cons; simpl;
       rewrite ?Q1, ?Q2, ?Q3, ?Q4, ?Q5, ?Q6, ?Q7, ?Q8;
       repeat apply conj; try reflexivity; try lia; intros; discriminate|].
    red_in Hr.
    destruct (r_j l2) as [jv|];
      [|injection Hr as <- <- <-; rewrite ?app_nil_r, !count_cons; simpl;
        rewrite ?Q1, ?Q2, ?Q3, ?Q4, ?Q5, ?Q6, ?Q7, ?Q8;
        repeat apply conj; try reflexivity; try lia; intros; discriminate].
    red_in Hr.
    match type of Hr with
    | context [eval_runs hstack k ?a ?b ?c ?d ?s0] =>
        pose proof (IH a b c d s0) as R; cbv zeta in R;
        destruct (eval_runs hstack k a b c d s0) as [[s3 o3] r3]
    end.
    unfold events_of, outcome_of in R; simpl in R.
    destruct R as (R1 & R2 & R3 & R4 & R5 & R6 & R7 & R8 & R9).
    injection Hr as <- <- <-.
    rewrite ?count_cons, ?count_app, ?count_cons, ?saved_episodes_app.
    simpl.
    rewrite ?saved_episodes_app, ?count_app, ?count_cons. simpl.
    rewrite ?Q1, ?Q2, ?Q3, ?Q4, ?Q5, ?Q6, ?Q7, ?Q8, ?R1, ?R2, ?R3, ?R4, ?R5,
      ?R6.
    repeat apply conj; try reflexivity; try lia.
    intros v Hv. destruct (R9 v Hv) as (R9a & R9b). rewrite R9a, R9b.
    split; reflexivity.
Qed.

Lemma flush_events_obs (batch : list (list (field Arr Ctl))) :
  let o := map (@EvRemember Arr Act Ctl) batch in
  count is_training_step o = 0%nat /\ count is_eval_step o = 0%nat /\
  count is_env_reset o = 0%nat /\ count is_eval_line o = 0%nat /\
  count is_train_line o = 0%nat /\ count is_step_summary o = 0%nat /\
  count is_render o = 0%nat /\ saved_episodes o = [] /\
  summary_steps o = [].
Proof.
  cbv zeta.
  induction batch as [|tr rest (I1 & I2 & I3 & I4 & I5 & I6 & I7 & I8 & I9)];
    simpl.
  - repeat apply conj; reflexivity.
  - rewrite !count_cons, I1, I2, I3, I4, I5, I6, I7, I8, I9.
    repeat apply conj; reflexivity.
Qed.

Lemma summary_steps_none (o : list (event Arr Act Ctl)) :
  count is_step_summary o = 0%nat -> summary_steps o = [].
Proof.
  induction o as [|ev o IH]; [reflexivity|].
  rewrite count_cons. destruct ev; simpl; intros Hc; try (apply IH; exact Hc).
  discriminate.
Qed.

(** opening an episode of [train] into its step loop, its flush and its
    evaluation *)
Ltac open_episode c episode tl s Ha :=
  destruct (episode_body hstack scale_action c episode tl s)
    as [[?s' ?o] ?r] eqn:Ha;
  unfold events_of, outcome_of; simpl;
  destruct s as [?e0 ?a0]; destruct tl as [?best ?ti ?tj]; red_in Ha;
  match type of Ha with
  | context [env_reset ?e] => destruct (env_reset e) as [?e1 ?ob]
  end;
  red_in Ha;
  match type of Ha with
  | context [step_loop hstack scale_action c episode ?k0 ?i0 ?l0 ?s0] =>
      let P := fresh "P" in
      let Hl := fresh "Hl" in
      destruct (step_loop_run c episode k0 i0 l0 s0)
        as (?s1 & ?o1 & ?l1 & ?new & Hl & ?L1 & ?L2 & ?L3 & ?L4 & ?L5 & ?L6
            & ?L7 & ?L8 & ?L9);
      pose proof (step_loop_obs c episode k0 i0 l0 s0) as P;
      cbv zeta in P; rewrite Hl in P;
      unfold events_of, outcome_of in P; cbn [fst snd] in P;
      destruct P as (?P1 & ?P2 & ?P3 & ?P4 & ?P5 & ?P6 & ?P7 & ?P8 & ?P9 & P);
      destruct (P _ eq_refl) as (?P10 & ?P11); clear P;
      rewrite Hl in Ha; red_in Ha
  end;
  match type of Ha with
  | context [flush_batch ?b ?s0] =>
      let Hf := fresh "Hf" in
      let G := fresh "G" in
      destruct (flush_batch_run b s0) as [?s2 Hf];
      pose proof (flush_events_quiet b) as (?F1 & ?F2 & ?F3 & ?F4 & ?F5);
      pose proof (flush_events_obs b) as G; cbv zeta in G;
      destruct G as (?G1 & ?G2 & ?G3 & ?G4 & ?G5 & ?G6 & ?G7 & ?G8 & ?G9);
      rewrite Hf in Ha; red_in Ha
  end.

(** rewriting with the facts on the parts of an episode *)
Ltac use_facts :=
  repeat first
    [ progress rewrite ?count_cons, ?count_app, ?best_scores_app,
        ?remembered_app, ?saved_episodes_app, ?summary_steps_app, ?app_nil_r
    | progress simpl
    | match goal with
      | H : count ?p ?o = _ |- context [count ?p ?o] => rewrite H
      | H : saved_episodes ?o = _ |- context [saved_episodes ?o] => rewrite H
      | H : summary_steps ?o = _ |- context [summary_steps ?o] => rewrite H
      | H : remembered ?o = _ |- context [remembered ?o] => rewrite H
      | H : best_scores ?o = _ |- context [best_scores ?o] => rewrite H
      end ];
  rewrite ?count_nil.

Ltac close_episode Ha tj :=
  let Q := fresh "Q" in
  let Q' := fresh "Q" in
  pose proof (eval_runs_obs 5 0 PyFloat.zero PyFloat.zero tj) as Q;
  pose proof (eval_runs_quiet 5 0 PyFloat.zero PyFloat.zero tj) as Q';
  cbv zeta in Q, Q';
  repeat (case_in Ha; red_in Ha); injection Ha as <- <- <-;
  try match goal with
      | H : eval_runs _ _ _ _ _ _ ?s0 = _ |- _ =>
          specialize (Q s0); specialize (Q' s0); rewrite H in Q, Q';
          unfold events_of, outcome_of in Q, Q';
          simpl in Q, Q';
          destruct Q as (?Q1 & ?Q2 & ?Q3 & ?Q4 & ?Q5 & ?Q6 & ?Q7 & ?Q8 & ?Q9);
          destruct Q' as (_ & Q' & _);
          pose proof (remembered_none _ Q') as ?Hrem3;
          match goal with
          | K : count is_step_summary _ = 0%nat |- _ =>
              pose proof (summary_steps_none _ K) as ?Hsum3
          end
      end;
  try clear Q; try clear Q'.

Lemma episode_body_steps (c : config) (episode : Z) (tl : train_locals)
    (s : @world E A) :
  let o := events_of (episode_body hstack scale_action c episode tl s) in
  count is_training_step o = List.length (remembered o) /\
  (forall b, render c = Some b ->
             count is_render o =
             if b then count is_training_step o else 0%nat) /\
  (render c = None -> count is_render o = 0%nat) /\
  (saved_episodes o = [] \/
   (saved_episodes o = [episode] /\ (episode + 1) mod 20 = 0)) /\
  summary_steps o =
    map (fun j => episode * _max_episode_steps + (0 + Z.of_nat j))
        (seq 0 (count is_step_summary o)) /\
  ((count is_step_summary o + 1)%nat = count is_training_step o \/
   (count is_step_summary o = count is_training_step o /\
    count is_training_step o = Z.to_nat _max_episode_steps)).
Proof.
  cbv zeta. open_episode c episode tl s Ha.
  simpl in L6. subst. pose proof (remembered_none _ L3) as Hrem.
  destruct (P11 eq_refl) as (P12 & P13). clear P10 P11.
  close_episode Ha tj; use_facts; rewrite ?Nat.add_0_r;
    repeat match goal with
           | H : (_ =? _) = true |- _ => apply Z.eqb_eq in H
           end;
    repeat apply conj; try reflexivity;
    try (symmetry; exact L7);
    try (intros b Hr; rewrite (P7 b Hr); destruct b; reflexivity);
    try exact P8;
    try (left; reflexivity);
    try (right; split; [reflexivity | assumption]);
    (destruct (l_done l1);
     [ left; exact P12
     | rewrite Nat.add_0_r in P12; right; split;
       [exact P12 | apply P13; reflexivity] ]).
Qed.

Lemma episode_body_schedule (c : config) (episode : Z) (tl : train_locals)
    (s : @world E A) :
  let r := episode_body hstack scale_action c episode tl s in
  let o := events_of r in
  ((episode + 1) mod 20 <> 0 ->
   count is_eval_step o = 0%nat /\ count is_env_reset o = 1%nat /\
   count is_eval_line o = 0%nat) /\
  (forall tl', outcome_of r = Ret tl' ->
     count is_train_line o = 1%nat /\
     count is_eval_line o =
       (if (episode + 1) mod 20 =? 0 then 5%nat else 0%nat) /\
     count is_env_reset o =
       (if (episode + 1) mod 20 =? 0 then 6%nat else 1%nat)).
Proof.
  cbv zeta. open_episode c episode tl s Ha.
  simpl in L6. subst. clear P10 P11.
  close_episode Ha tj; use_facts; rewrite ?Nat.add_0_r;
    repeat match goal with
           | H : (_ =? _) = true |- _ => apply Z.eqb_eq in H
           | H : (_ =? _) = false |- _ => apply Z.eqb_neq in H
           end;
    (split;
     [ intros Hm; try congruence; repeat apply conj; reflexivity
     | intros tl' Ht; try discriminate;
       match goal with
       | H : forall v, Ret _ = Ret v -> _ |- _ =>
           destruct (H _ eq_refl) as (K1 & K2); rewrite ?K1, ?K2
       | _ => idtac
       end;
       repeat apply conj; reflexivity ]).
Qed.

Lemma episode_body_reward (c : config) (episode : Z) (tl : train_locals)
    (s : @world E A) :
  let r := episode_body hstack scale_action c episode tl s in
  let o := events_of r in
  let total := sum_from PyFloat.zero (batch_rewards (remembered o)) in
  (PyFloat.is_nan total = true ->
   outcome_of r = Raise ValueError /\ count is_train_line o = 0%nat) /\
  (PyFloat.is_nan total = false -> PyFloat.is_inf total = true ->
   outcome_of r = Raise OverflowError /\ count is_train_line o = 0%nat) /\
  (forall tl', outcome_of r = Ret tl' ->
     exists q t d,
       In (EvPrintLine "T" (episode + 1) (PyFloat.trunc total) q t (Some d))
          o).
Proof.
  cbv zeta. open_episode c episode tl s Ha.
  simpl in L6. subst. pose proof (remembered_none _ L3) as Hrem.
  specialize (P10 eq_refl). clear P11.
  close_episode Ha tj; use_facts; rewrite <- ?P10;
    repeat apply conj; intros; try congruence; try discriminate;
    try (split; reflexivity);
    do 3 eexists; right; apply in_or_app; right; apply in_or_app; right;
    left; reflexivity.
Qed.

Lemma episode_body_zero_cap (c : config) (episode : Z) (tl : train_locals)
    (s : @world E A) :
  _max_episode_steps <= 0 -> t_i tl = None ->
  episode_body hstack scale_action c episode tl s =
  ({| env := fst (env_reset (env s)); agent := agent s |},
   [EvEnvReset], Raise (UnboundLocalError "i")).
Proof.
  intros Hcap Hi.
  assert (Hk : Z.to_nat _max_episode_steps = 0%nat) by lia.
  unfold episode_body, bind, call_env_reset, call_get_current_distance.
  destruct s as [e0 a0]. simpl. destruct (env_reset e0) as [e1 ob]. simpl.
  rewrite Hk. simpl. rewrite Hi. reflexivity.
Qed.

(** *** The evaluation schedule *)

Lemma div20_step (e : Z) :
  0 <= e ->
  (e + 1) / 20 = e / 20 + (if (e + 1) mod 20 =? 0 then 1 else 0).
Proof.
  intros He. destruct ((e + 1) mod 20 =? 0) eqn:Hm.
  - apply Z.eqb_eq in Hm.
    pose proof (Z.div_mod (e + 1) 20 ltac:(lia)) as H1.
    pose proof (Z.div_mod e 20 ltac:(lia)) as H2.
    pose proof (Z.mod_pos_bound e 20 ltac:(lia)) as H3.
    lia.
  - apply Z.eqb_neq in Hm.
    pose proof (Z.div_mod (e + 1) 20 ltac:(lia)) as H1.
    pose proof (Z.div_mod e 20 ltac:(lia)) as H2.
    pose proof (Z.mod_pos_bound e 20 ltac:(lia)) as H3.
    pose proof (Z.mod_pos_bound (e + 1) 20 ltac:(lia)) as H4.
    lia.
Qed.

(** the evaluations among the [k] episodes that start at [e] *)
Lemma evaluations_step (e : Z) (k : nat) :
  0 <= e ->
  Z.to_nat ((e + Z.of_nat (S k)) / 20 - e / 20) =
  ((if ((e + 1) mod 20 =? 0)%Z then 1 else 0) +
   Z.to_nat ((e + 1 + Z.of_nat k) / 20 - (e + 1) / 20))%nat.
Proof.
  intros He. pose proof (div20_step e He) as Hs.
  assert (Hm : (e + 1) / 20 <= (e + 1 + Z.of_nat k) / 20)
    by (apply Z.div_le_mono; lia).
  replace (e + Z.of_nat (S k)) with (e + 1 + Z.of_nat k) by lia.
  destruct ((e + 1) mod 20 =? 0); lia.
Qed.

Lemma episodes_obs (c : config) (k : nat) :
  forall (episode : Z) (tl : train_locals) (s : @world E A),
    0 <= episode ->
    let r := episodes hstack scale_action c k episode tl s in
    let o := events_of r in
    count is_training_step o = List.length (remembered o) /\
    (forall b, render c = Some b ->
               count is_render o =
               if b then count is_training_step o else 0%nat) /\
    (render c = None -> count is_render o = 0%nat) /\
    Forall (fun e => episode <= e < episode + Z.of_nat k /\
                     (e + 1) mod 20 = 0) (saved_episodes o) /\
    (forall tl', outcome_of r = Ret tl' ->
       count is_train_line o = k /\
       count is_eval_line o =
         (5 * Z.to_nat ((episode + Z.of_nat k) / 20 - episode / 20))%nat /\
       count is_env_reset o =
         (k + 5 * Z.to_nat ((episode + Z.of_nat k) / 20 - episode / 20))%nat).
Proof.
  induction k as [|k IH]; intros episode tl s Hep; cbv zeta.
  - simpl. unfold ret, events_of, outcome_of. simpl.
    repeat apply conj; try apply Forall_nil; try reflexivity.
    + intros b _. destruct b; reflexivity.
    + intros tl' _. rewrite Z.add_0_r, Z.sub_diag.
      repeat apply conj; reflexivity.
  - pose proof (episode_body_steps c episode tl s) as Q. cbv zeta in Q.
    pose proof (episode_body_schedule c episode tl s) as S. cbv zeta in S.
    pose proof (evaluations_step episode k Hep) as Hev.
    simpl episodes. unfold bind.
    destruct (episode_body hstack scale_action c episode tl s)
      as [[s1 o1] [tl1|e|]];
      unfold events_of, outcome_of in *; cbn [fst snd] in *;
      destruct Q as (Q1 & Q2 & Q3 & Q4 & _); destruct S as (_ & S2).
    + pose proof (IH (episode + 1) tl1 s1 ltac:(lia)) as R. cbv zeta in R.
      destruct (episodes hstack scale_action c k (episode + 1) tl1 s1)
        as [[s2 o2] r2].
      unfold events_of, outcome_of in *; cbn [fst snd] in *.
      destruct R as (R1 & R2 & R3 & R4 & R5).
      destruct (S2 tl1 eq_refl) as (S2a & S2b & S2c).
      rewrite remembered_app, saved_episodes_app, !count_app, !length_app.
      repeat apply conj.
      * lia.
      * intros b Hb. rewrite (Q2 b Hb), (R2 b Hb). destruct b; lia.
      * intros Hb. rewrite (Q3 Hb), (R3 Hb). reflexivity.
      * apply Forall_app. split.
        -- destruct Q4 as [-> | (-> & Q4)]; constructor; [|constructor].
           split; [lia | exact Q4].
        -- eapply Forall_impl; [|exact R4]. simpl. intros e (He1 & He2).
           split; [lia | exact He2].
      * intros tl' Ht. destruct (R5 tl' Ht) as (R5a & R5b & R5c).
        rewrite S2a, S2b, S2c, R5a, R5b, R5c, Hev.
        destruct ((episode + 1) mod 20 =? 0); repeat apply conj; lia.
    + repeat apply conj; try reflexivity; try assumption.
      * destruct Q4 as [-> | (-> & Q4)]; constructor; [|constructor].
        split; [lia | exact Q4].
      * intros tl' Ht. discriminate.
    + repeat apply conj; try reflexivity; try assumption.
      * destruct Q4 as [-> | (-> & Q4)]; constructor; [|constructor].
        split; [lia | exact Q4].
      * intros tl' Ht. discriminate.
Qed.

Lemma train_obs (c : config) (s : @world E A) :
  let r := train hstack scale_action c s in
  let o := events_of r in
  count is_training_step o = List.length (remembered o) /\
  (forall b, render c = Some b ->
             count is_render o =
             if b then count is_training_step o else 0%nat) /\
  (render c = None -> count is_render o = 0%nat) /\
  (forall n, n_episodes c = Some n ->
     Forall (fun e => 0 <= e < n /\ (e + 1) mod 20 = 0) (saved_episodes o) /\
     (forall tl', outcome_of r = Ret tl' ->
        count is_train_line o = Z.to_nat n /\
        count is_eval_line o = (5 * Z.to_nat (n / 20))%nat /\
        count is_env_reset o = (Z.to_nat n + 5 * Z.to_nat (n / 20))%nat)).
Proof.
  cbv zeta. unfold train. destruct (n_episodes c) as [n|].
  - pose proof (episodes_obs c (Z.to_nat n) 0
                  {| current_best_eval_score := PyFloat.zero;
                     t_i := None; t_j := None |} s ltac:(lia)) as Q.
    cbv zeta in Q. destruct Q as (Q1 & Q2 & Q3 & Q4 & Q5).
    repeat apply conj; try assumption.
    intros n' Hn. injection Hn as <-. split.
    + eapply Forall_impl; [|exact Q4]. simpl. intros e (He1 & He2).
      split; [lia | exact He2].
    + intros tl' Ht. destruct (Q5 tl' Ht) as (Q5a & Q5b & Q5c).
      rewrite Q5a, Q5b, Q5c.
      destruct (Z.le_gt_cases 0 n) as [Hn | Hn].
      * rewrite Z2Nat.id by exact Hn. rewrite Z.add_0_l.
        change (0 / 20) with 0. rewrite Z.sub_0_r.
        repeat apply conj; reflexivity.
      * replace (Z.to_nat n) with 0%nat by lia. simpl Z.of_nat.
        assert (Hd : n / 20 < 0) by (apply Z.div_lt_upper_bound; lia).
        replace (Z.to_nat (n / 20)) with 0%nat by lia.
        repeat apply conj; reflexivity.
  - unfold raise, events_of, outcome_of. simpl.
    repeat apply conj; try reflexivity.
    + intros b _. destruct b; reflexivity.
    + intros n Hn. discriminate.
Qed.

Lemma train_zero_cap (c : config) (s : @world E A) (n : Z) :
  n_episodes c = Some n -> 0 < n -> _max_episode_steps <= 0 ->
  train hstack scale_action c s =
  ({| env := fst (env_reset (env s)); agent := agent s |},
   [EvEnvReset], Raise (UnboundLocalError "i")).
Proof.
  intros Hn Hpos Hcap. unfold train. rewrite Hn.
  destruct (Z.to_nat n) as [|k] eqn:Hk; [lia|].
  simpl. unfold bind.
  rewrite (episode_body_zero_cap c 0
             {| current_best_eval_score := PyFloat.zero;
                t_i := None; t_j := None |} s Hcap eq_refl).
  reflexivity.
Qed.

End Facts.
End TrainFacts.

(** * The claims of the specification *)

Module Claims.
Import Rollout.

Section Statements.

Context {Arr Act Ctl : Type} (hstack : Arr -> Arr -> Arr)
        (scale_action : Act -> Act).
Context {E A : Type} {EnvOps : Environment Arr Act E}
        {AgentOps : Agent Arr Act Ctl A}.
Context {TE TA : Type} {TEnvOps : Train.Environment Arr Act TE}
        {TAgentOps : Train.Agent Arr Act Ctl TA}.

(** C1.  A best-score checkpoint (category ["B"], tagged with the current
    episode) is saved by [create_checkpoint] if and only if the generator
    is in evaluation mode, [save_best] is on and the running mean reward
    [mean_er] is strictly above [best_score]; when it is saved,
    [best_score] becomes that mean, otherwise it is unchanged.  In the call
    made by [generate_rollout] the mean is [r_total / episode].  On
    evaluation rollouts with running means 2.0, 1.5 and 3.0 it fires at
    rollouts 1 and 3 only. *)
Theorem best_checkpoint_fires :
  (forall (s : @rstate E A) (tag : Z),
     periodic_ckpt (cfg (self s)) <> None ->
     let r := @create_checkpoint Arr Act Ctl E A s in
     let g := self s in
     let g' := self (state_of r) in
     (In (EvSave "B" tag) (events_of r) <->
      (eval g = true /\ save_best (cfg g) = Some true /\
       (exists m, mean_er g = Some m /\
                  PyFloat.gtb m (best_score g) = true) /\
       tag = episode g)) /\
     (In (EvSave "B" tag) (events_of r) ->
      mean_er g = Some (best_score g')) /\
     ((forall t, ~ In (EvSave "B" t) (events_of r)) ->
      best_score g' = best_score g)) /\
  (forall (fuel : nat) (s : @rstate E A) (tag : Z),
     let r := generate_rollout hstack fuel s in
     let g := self s in
     let g' := self (state_of r) in
     let m := PyFloat.div (r_total g') (PyFloat.of_int (episode g')) in
     outcome_of r = Ret tt ->
     mean_er g' = Some m /\
     (In (EvSave "B" tag) (events_of r) <->
      (eval g = true /\ save_best (cfg g) = Some true /\
       PyFloat.gtb m (best_score g) = true /\ tag = episode g')) /\
     best_score g' =
       (if eval g
           && match save_best (cfg g) with Some b => b | None => false end
           && PyFloat.gtb m (best_score g)
        then m else best_score g)) /\
  (let s1 := state_of (Stub.rollout Stub.eval_start) in
   let s2 := state_of (Stub.rollout s1) in
   let s3 := state_of (Stub.rollout s2) in
   mean_er (self s1) = Some Stub.f2 /\
   mean_er (self s2) = Some Stub.f1_5 /\
   mean_er (self s3) = Some Stub.f3 /\
   saved_tags "B" (events_of (Stub.rollout Stub.eval_start)) = [1] /\
   saved_tags "B" (events_of (Stub.rollout s1)) = [] /\
   saved_tags "B" (events_of (Stub.rollout s2)) = [3] /\
   saved_tags "B" (events_of (Stub.rollouts 3 Stub.eval_start)) = [1; 3] /\
   outcome_of (Stub.rollouts 3 Stub.eval_start) = Ret tt).
Proof.
  split; [|split].
  - intros s tag Hp r g g'. subst r g g'.
    pose proof (RolloutFacts.create_checkpoint_step (Arr:=Arr) (Act:=Act)
                  (Ctl:=Ctl) s) as (_ & _ & _ & _ & Hstep).
    split; [|split].
    + apply RolloutFacts.create_checkpoint_best. exact Hp.
    + intros Hin. destruct Hstep as [[_ Hno] | (_ & _ & Hm & _)].
      * exfalso. exact (Hno tag Hin).
      * exact Hm.
    + intros Hno. destruct Hstep as [[Hb _] | (_ & _ & _ & _ & _ & Hin)].
      * exact Hb.
      * exfalso. exact (Hno _ Hin).
  - intros fuel s tag r g g' m Hret. subst r g g' m.
    pose proof (RolloutFacts.rollout_checkpoints hstack fuel s Hret)
      as (_ & Hm & Hb & Hbest & _).
    split; [exact Hm | split; [apply Hb | exact Hbest]].
  - vm_compute. repeat split; reflexivity.
Qed.

(** C2.  A periodic checkpoint (category ["P"], tagged with the current
    episode) is saved by [create_checkpoint] exactly when [periodic_ckpt]
    is truthy and the episode count is divisible by it; with
    [periodic_ckpt = 5] over 12 episodes it fires at episodes 5 and 10
    only. *)
Theorem periodic_checkpoint_fires :
  (forall (s : @rstate E A) (p : pyint) (tag : Z),
     periodic_ckpt (cfg (self s)) = Some p ->
     (In (EvSave "P" tag) (events_of (@create_checkpoint Arr Act Ctl E A s)) <->
      (truthy p = true /\ episode (self s) mod int_of p = 0 /\
       tag = episode (self s)))) /\
  (forall (fuel : nat) (s : @rstate E A) (p : pyint) (tag : Z),
     let r := generate_rollout hstack fuel s in
     periodic_ckpt (cfg (self s)) = Some p ->
     outcome_of r = Ret tt ->
     (In (EvSave "P" tag) (events_of r) <->
      (truthy p = true /\
       episode (self (state_of r)) mod int_of p = 0 /\
       tag = episode (self (state_of r))))) /\
  (saved_tags "P" (events_of (Stub.rollouts 12 Stub.train_start)) = [5; 10] /\
   episode (self (state_of (Stub.rollouts 12 Stub.train_start))) = 12 /\
   outcome_of (Stub.rollouts 12 Stub.train_start) = Ret tt).
Proof.
  split; [|split].
  - intros s p tag Hp. apply RolloutFacts.create_checkpoint_periodic. exact Hp.
  - intros fuel s p tag r Hp Hret. subst r.
    pose proof (RolloutFacts.rollout_checkpoints hstack fuel s Hret)
      as (_ & _ & _ & _ & Hper).
    apply Hper. exact Hp.
  - vm_compute. repeat split; reflexivity.
Qed.

(** C3.  [done()] returns true if and only if [episode >= n_episodes];
    every [generate_rollout()] call that returns increases [episode] by
    exactly 1, no call decreases it, and no operation but [reset] does;
    so once [done()] has returned true it returns true on every later
    call.  (In evaluation mode the final log must be able to run: the
    mean statistics exist and the success rate is computable.) *)
Theorem done_iff_budget_exhausted :
  (forall (s : @rstate E A) (n : Z),
     n_episodes (cfg (self s)) = Some n ->
     final_log_ok (self s) n ->
     outcome_of (@done Arr Act Ctl E A s) = Ret (n <=? episode (self s)) /\
     state_of (@done Arr Act Ctl E A s) = s /\
     ((n <=? episode (self s)) = true <-> episode (self s) >= n)) /\
  (forall (s : @rstate E A) (b : bool),
     outcome_of (@done Arr Act Ctl E A s) = Ret b ->
     exists n, n_episodes (cfg (self s)) = Some n /\
               (b = true <-> episode (self s) >= n)) /\
  (forall (fuel : nat) (s : @rstate E A),
     let r := generate_rollout hstack fuel s in
     (outcome_of r = Ret tt ->
      episode (self (state_of r)) = episode (self s) + 1) /\
     episode (self s) <= episode (self (state_of r)) <= episode (self s) + 1 /\
     cfg (self (state_of r)) = cfg (self s)) /\
  (forall (s : @rstate E A) (ops : list op),
     forallb (fun o => negb (is_reset o)) ops = true ->
     outcome_of (@done Arr Act Ctl E A s) = Ret true ->
     let s' := run_ops hstack ops s in
     (forall b, outcome_of (@done Arr Act Ctl E A s') = Ret b -> b = true) /\
     (forall n, n_episodes (cfg (self s')) = Some n ->
                final_log_ok (self s') n ->
                outcome_of (@done Arr Act Ctl E A s') = Ret true)).
Proof.
  split; [|split; [|split]].
  - intros s n Hn Hok. split; [|split].
    + apply RolloutFacts.done_returns; assumption.
    + apply RolloutFacts.done_frame.
    + rewrite Z.leb_le. lia.
  - intros s b Hb.
    destruct (RolloutFacts.done_sound s b Hb) as (n & Hn & Hv).
    exists n. split; [exact Hn|]. subst b. rewrite Z.leb_le. lia.
  - intros fuel s r. subst r.
    pose proof (RolloutFacts.rollout_frame hstack fuel s)
      as (F1 & _ & _ & _ & F5 & F6 & _).
    split; [exact F6 | split; [exact F5 | exact F1]].
  - intros s ops Hops Hdone s'. subst s'.
    destruct (RolloutFacts.done_sound s true Hdone) as (n & Hn & Hv).
    symmetry in Hv. apply Z.leb_le in Hv.
    pose proof (RolloutFacts.run_ops_facts hstack ops s) as (R1 & _ & R3 & _).
    specialize (R3 Hops).
    assert (Hle : n <= episode (self (run_ops hstack ops s))) by lia.
    split.
    + intros b Hb.
      destruct (RolloutFacts.done_sound _ b Hb) as (n' & Hn' & Hv').
      rewrite R1, Hn in Hn'. injection Hn' as <-.
      subst b. apply Z.leb_le. exact Hle.
    + intros n' Hn' Hok.
      rewrite (RolloutFacts.done_returns _ n' Hn' Hok).
      rewrite R1, Hn in Hn'. injection Hn' as <-.
      f_equal. apply Z.leb_le. exact Hle.
Qed.

(** C4.  Every environment step of a rollout, in training and in
    evaluation mode and whatever the done flag, is followed at once by
    exactly one [agent.remember] of the eight fields (observation, goal,
    achieved goal, action, reward, next observation, next goal, done flag),
    in this order.  In the script-level loop each training step appends
    one such list to the batch, which is handed to [remember] entry by
    entry when the episode ends. *)
Theorem transition_recorded_per_step :
  (forall (l : locals Arr) (s : @rstate E A)
          (a1 : A) (act : Act) (u : Ctl) (q : float)
          (e1 : E) (x2 : obs_dict Arr) (r : float) (d : bool)
          (inf : info_dict),
     agent_step (agent s)
       (hstack (observation (l_x l)) (desired_goal (l_x l)))
       (negb (eval (self s))) = (a1, (act, u, q)) ->
     env_step (env s) act = (e1, (x2, r, d, inf)) ->
     exists rest,
       events_of (loop_body hstack l s) =
         EvAgentStep (hstack (observation (l_x l)) (desired_goal (l_x l)))
                     (negb (eval (self s)))
         :: EvEnvStep act
         :: EvRemember
              [ FArr (observation (l_x l)); FArr (desired_goal (l_x l));
                FArr (achieved_goal (l_x l)); FCtl u; FFloat r;
                FArr (observation x2); FArr (desired_goal x2);
                FInt (int_of_bool d) ]
         :: rest /\
       count is_env_step rest = 0%nat /\
       count is_remember rest = 0%nat) /\
  (forall (fuel : nat) (s : @rstate E A),
     recorded false (events_of (generate_rollout hstack fuel s)) /\
     count is_remember (events_of (generate_rollout hstack fuel s)) =
     count is_env_step (events_of (generate_rollout hstack fuel s))) /\
  (forall (c : Train.config) (i : Z) (l : Train.ep_locals Arr Ctl)
          (s : @Train.world TE TA)
          (a1 : TA) (action : Act) (u : Ctl) (q : float)
          (e1 : TE) (new_obs : Train.obs_dict Arr) (r : float) (d : bool)
          (inf : Train.info_dict),
     Train.agent_step (Train.agent s)
       (hstack (Train.obs (Train.l_obs l)) (Train.goal (Train.l_obs l)))
       Train.is_u_discrete None = (a1, (action, u, q)) ->
     Train.env_step (Train.env s) (scale_action action) =
       (e1, (new_obs, r, d, inf)) ->
     exists s' o l',
       Train.step_body hstack scale_action c i l s =
         (s', o, Ret (l', scale_action action)) /\
       Train.l_episode_batch l' =
         Train.l_episode_batch l ++
         [ [ Train.FArr (Train.obs (Train.l_obs l));
             Train.FArr (Train.goal (Train.l_obs l));
             Train.FArr (Train.ag (Train.l_obs l));
             Train.FCtl u; Train.FFloat r;
             Train.FArr (Train.obs new_obs);
             Train.FArr (Train.goal new_obs);
             Train.FInt (int_of_bool d) ] ]) /\
  (forall (c : Train.config) (episode : Z) (k : nat) (i : Z)
          (l : Train.ep_locals Arr Ctl) (s : @Train.world TE TA),
     Train.l_episode_batch l = [] ->
     exists s1 o1 l1 s2,
       Train.step_loop hstack scale_action c episode k i l s =
         (s1, o1, Ret l1) /\
       List.length (Train.l_episode_batch l1) = count Train.is_env_step o1 /\
       Forall Train.eight_fields (Train.l_episode_batch l1) /\
       count Train.is_remember o1 = 0%nat /\
       Train.flush_batch (Train.l_episode_batch l1) s1 =
         (s2, map Train.EvRemember (Train.l_episode_batch l1), Ret tt)).
Proof.
  split; [|split; [|split]].
  - intros l s a1 act u q e1 x2 r d inf Hag Hen.
    exact (RolloutFacts.loop_body_shape hstack l s a1 act u q e1 x2 r d inf
             Hag Hen).
  - intros fuel s.
    pose proof (RolloutFacts.rollout_events hstack fuel s) as (R1 & R2 & _).
    split; assumption.
  - intros c i l s a1 action u q e1 new_obs r d inf Hag Hen.
    exact (TrainFacts.step_body_shape hstack scale_action c i l s
             a1 action u q e1 new_obs r d inf Hag Hen).
  - intros c episode k i l s Hempty.
    destruct (TrainFacts.step_loop_run hstack scale_action c episode k i l s)
      as (s1 & o1 & l1 & new & Hl & _ & _ & L3 & _ & _ & L6 & L7 & L8 & _).
    rewrite Hempty in L6. simpl in L6.
    destruct (TrainFacts.flush_batch_run (Train.l_episode_batch l1) s1)
      as [s2 Hf].
    exists s1, o1, l1, s2. rewrite L6.
    repeat split; try assumption. rewrite <- L6. exact Hf.
Qed.

(** C5.  In [generate_rollout], [agent.train()] is called exactly
    [train_cycles_per_ts] times after each environment step outside
    evaluation mode and never in evaluation mode; in the script-level loop
    it is called exactly 5 times per step, whatever the configuration
    says about [train_cycles_per_ts]. *)
Theorem train_calls_per_step :
  (forall (l : locals Arr) (s : @rstate E A) (n : Z),
     eval (self s) = false ->
     render (cfg (self s)) <> None ->
     train_cycles_per_ts (cfg (self s)) = Some n ->
     count is_train (events_of (loop_body hstack l s)) = Z.to_nat n /\
     count is_env_step (events_of (loop_body hstack l s)) = 1%nat) /\
  (forall (fuel : nat) (s : @rstate E A) (n : Z),
     eval (self s) = false ->
     render (cfg (self s)) <> None ->
     train_cycles_per_ts (cfg (self s)) = Some n ->
     count is_train (events_of (generate_rollout hstack fuel s)) =
     (Z.to_nat n *
      count is_env_step (events_of (generate_rollout hstack fuel s)))%nat) /\
  (forall (l : locals Arr) (s : @rstate E A),
     eval (self s) = true ->
     count is_train (events_of (loop_body hstack l s)) = 0%nat) /\
  (forall (fuel : nat) (s : @rstate E A),
     eval (self s) = true ->
     count is_train (events_of (generate_rollout hstack fuel s)) = 0%nat) /\
  (forall (c : Train.config) (i : Z) (l : Train.ep_locals Arr Ctl)
          (s : @Train.world TE TA),
     count Train.is_train
       (events_of (Train.step_body hstack scale_action c i l s)) = 5%nat /\
     count Train.is_env_step
       (events_of (Train.step_body hstack scale_action c i l s)) = 1%nat) /\
  (forall (c1 c2 : Train.config) (s : @Train.world TE TA),
     Train.n_episodes c1 = Train.n_episodes c2 ->
     Train.render c1 = Train.render c2 ->
     Train.train hstack scale_action c1 s =
     Train.train hstack scale_action c2 s).
Proof.
  split; [|split; [|split; [|split; [|split]]]].
  - intros l s n He Hr Ht. split.
    + exact (RolloutFacts.loop_body_train_training hstack l s n He Hr Ht).
    + exact (proj1 (RolloutFacts.loop_body_counts hstack l s)).
  - intros fuel s n He Hr Ht.
    exact (RolloutFacts.rollout_train_training hstack fuel s n He Hr Ht).
  - intros l s He. exact (RolloutFacts.loop_body_train_eval hstack l s He).
  - intros fuel s He.
    pose proof (RolloutFacts.rollout_events hstack fuel s) as (_ & _ & _ & _ & R).
    exact (R He).
  - intros c i l s.
    destruct (TrainFacts.step_body_run hstack scale_action c i l s)
      as (s' & o & l' & action & tr & Hb & B1 & B2 & _).
    rewrite Hb. split; assumption.
  - intros c1 c2 s Hn Hr.
    exact (TrainFacts.train_config hstack scale_action c1 c2 s Hn Hr).
Qed.

(** C6 (as amended).  When a [generate_rollout()] call returns in
    evaluation mode, the success counter has grown by 1 if the [info] of
    the last step signalled success and is unchanged otherwise; in training
    mode the counter is never changed. *)
Theorem success_counted_in_evaluation :
  forall (fuel : nat) (s : @rstate E A),
    let r := generate_rollout hstack fuel s in
    (eval (self s) = true -> outcome_of r = Ret tt ->
     exists i, final_info hstack fuel s = Some i /\
               success (self (state_of r)) =
               success (self s) + (if is_success i then 1 else 0)) /\
    (eval (self s) = false ->
     success (self (state_of r)) = success (self s)).
Proof.
  intros fuel s r. subst r. split.
  - intros He Hret. exact (RolloutFacts.rollout_success hstack fuel s He Hret).
  - intros He.
    pose proof (RolloutFacts.rollout_frame hstack fuel s)
      as (_ & _ & _ & _ & _ & _ & _ & F8).
    exact (F8 He).
Qed.

(** C7.  With a summary writer, a rollout that returns has written the two
    scalars of the episode (episodic reward and episodic Q-estimate, tagged
    with the run name).  Without one ([summary_writer = None], the default
    of [__init__]) nothing is written, and the rollout does not return: the
    guard tests [self.summary], which [__init__] always sets, so
    [update_summaries] runs and raises on [None.add_summary]. *)
Theorem rollout_without_sink_raises :
  (forall (fuel : nat) (s : @rstate E A),
     summary_writer (self s) <> None -> summary (self s) <> None ->
     outcome_of (generate_rollout hstack fuel s) = Ret tt ->
     exists l counter,
       final_locals hstack fuel s = Some l /\
       filter is_summary (events_of (generate_rollout hstack fuel s)) =
       [EvAddSummary
          [((name (self s) ++ "/episodic_r")%string, l_episodic_r l);
           ((name (self s) ++ "/episodic_q")%string, l_episodic_q l)]
          counter]) /\
  (forall (fuel : nat) (s : @rstate E A),
     summary_writer (self s) = None -> summary (self s) <> None ->
     outcome_of (generate_rollout hstack fuel s) <> Ret tt /\
     filter is_summary (events_of (generate_rollout hstack fuel s)) = []) /\
  (forall (e : E) (a : A) (c : config) (_eval : bool) (fuel : nat),
     outcome_of
       (generate_rollout hstack fuel
          (state_of (@init Arr Act Ctl E A e a c _eval None))) <> Ret tt) /\
  outcome_of (Stub.rollout Stub.no_sink_start) =
    Raise (AttributeError "add_summary").
Proof.
  split; [|split; [|split]].
  - intros fuel s Hw Hs Hret.
    exact (proj1 (RolloutFacts.rollout_summaries hstack fuel s) Hw Hs Hret).
  - intros fuel s Hw Hs. split.
    + exact (RolloutFacts.rollout_no_sink hstack fuel s Hw Hs).
    + exact (proj2 (RolloutFacts.rollout_summaries hstack fuel s) Hw).
  - intros e a c _eval fuel.
    pose proof (RolloutFacts.init_facts (Arr:=Arr) (Act:=Act) (Ctl:=Ctl)
                  e a c _eval None)
      as (_ & _ & _ & _ & _ & Hw & Hs & _).
    exact (RolloutFacts.rollout_no_sink hstack fuel _ Hw Hs).
  - vm_compute. reflexivity.
Qed.

(** C8.  Every [generate_rollout()] call terminates (it never runs out of
    fuel once the fuel covers the step cap, and more fuel changes nothing)
    and performs at most [env.max_episode_steps] environment steps; each
    episode and each evaluation run of the script-level loop performs at
    most [env._max_episode_steps] steps. *)
Theorem rollout_terminates_within_cap :
  (forall (fuel : nat) (s : @rstate E A),
     (Z.to_nat max_episode_steps <= fuel)%nat ->
     outcome_of (generate_rollout hstack fuel s) <> OutOfFuel /\
     (forall fuel', (fuel <= fuel')%nat ->
        generate_rollout hstack fuel' s = generate_rollout hstack fuel s)) /\
  (forall (fuel : nat) (s : @rstate E A),
     Z.of_nat (count is_env_step (events_of (generate_rollout hstack fuel s)))
     <= Z.max 0 max_episode_steps) /\
  (forall (c : Train.config) (episode : Z) (i : Z)
          (l : Train.ep_locals Arr Ctl) (s : @Train.world TE TA),
     exists s' o l',
       Train.step_loop hstack scale_action c episode
         (Z.to_nat Train._max_episode_steps) i l s = (s', o, Ret l') /\
       Z.of_nat (count Train.is_env_step o)
       <= Z.max 0 Train._max_episode_steps) /\
  (forall (j : Z) (l : Train.run_locals Arr) (s : @Train.world TE TA),
     exists s' o l',
       Train.eval_loop hstack (Z.to_nat Train._max_episode_steps) j l s =
         (s', o, Ret l') /\
       Z.of_nat (count Train.is_env_step o)
       <= Z.max 0 Train._max_episode_steps).
Proof.
  split; [|split; [|split]].
  - intros fuel s Hf. exact (RolloutFacts.rollout_fuel hstack fuel s Hf).
  - intros fuel s.
    pose proof (RolloutFacts.rollout_events hstack fuel s) as (_ & _ & R & _).
    lia.
  - intros c episode i l s.
    destruct (TrainFacts.step_loop_run hstack scale_action c episode
                (Z.to_nat Train._max_episode_steps) i l s)
      as (s' & o & l' & new & Hl & L1 & _).
    exists s', o, l'. split; [exact Hl | lia].
  - intros j l s.
    destruct (TrainFacts.eval_loop_run hstack
                (Z.to_nat Train._max_episode_steps) j l s)
      as (s' & o & l' & Hl & L1 & _).
    exists s', o, l'. split; [exact Hl | lia].
Qed.

(** C9.  [assert "train_cycles_per_ts"] asserts a non-empty string: it
    holds in every state, deleting it changes nothing, no rollout ever
    raises [AssertionError], and a configuration without the key fails on
    the attribute read of the next line instead. *)
Theorem assert_is_dead_code :
  truthy_str "train_cycles_per_ts" = true /\
  (forall s : @rstate E A,
     @assert (@rstate E A) (event Arr Act Ctl)
       (truthy_str "train_cycles_per_ts") s = (s, [], Ret tt)) /\
  (forall (l : locals Arr) (s : @rstate E A),
     loop_body hstack l s = loop_body_no_assert hstack l s) /\
  (forall (fuel : nat) (s : @rstate E A),
     outcome_of (generate_rollout hstack fuel s) <> Raise AssertionError) /\
  (forall (l : locals Arr) (s : @rstate E A),
     eval (self s) = false ->
     render (cfg (self s)) <> None ->
     train_cycles_per_ts (cfg (self s)) = None ->
     outcome_of (loop_body hstack l s) =
     Raise (AttributeError "train_cycles_per_ts")).
Proof.
  split; [|split; [|split; [|split]]].
  - reflexivity.
  - intros s. reflexivity.
  - intros l s. exact (RolloutFacts.loop_body_assert_dead hstack l s).
  - intros fuel s.
    pose proof (RolloutFacts.rollout_events hstack fuel s) as (_ & _ & _ & R & _).
    exact R.
  - intros l s He Hr Ht.
    exact (RolloutFacts.loop_body_missing_cycles hstack l s He Hr Ht).
Qed.

(** C10.  The best score starts at 0 and never decreases: every operation
    of the generator leaves [best_score] unchanged or raises it to a
    strictly larger running mean reward, and so does every episode of the
    script-level loop with [current_best_eval_score]; hence the best score
    is always at least 0, and a best-score checkpoint is only ever saved
    for a running mean (or cumulative) evaluation reward above 0. *)
Theorem best_score_never_decreases :
  (forall (e : E) (a : A) (c : config) (_eval : bool)
          (writer : option tf_object),
     best_score (self (state_of (@init Arr Act Ctl E A e a c _eval writer)))
     = PyFloat.zero) /\
  (forall (o : op) (s : @rstate E A),
     let g := self s in
     let g' := self (run_op hstack o s) in
     best_score g' = best_score g \/
     (PyFloat.gtb (best_score g') (best_score g) = true /\
      mean_er g' = Some (best_score g'))) /\
  (forall (e : E) (a : A) (c : config) (_eval : bool)
          (writer : option tf_object) (ops : list op),
     PyFloat.leb PyFloat.zero
       (best_score
          (self (run_ops hstack ops
                   (state_of (@init Arr Act Ctl E A e a c _eval writer)))))
     = true) /\
  (forall (s : @rstate E A) (m : float),
     PyFloat.leb PyFloat.zero (best_score (self s)) = true ->
     mean_er (self s) = Some m ->
     PyFloat.leb m PyFloat.zero = true ->
     forall tag,
       ~ In (EvSave "B" tag) (events_of (@create_checkpoint Arr Act Ctl E A s))) /\
  (forall (fuel : nat) (s : @rstate E A) (tag : Z),
     PyFloat.leb PyFloat.zero (best_score (self s)) = true ->
     In (EvSave "B" tag) (events_of (generate_rollout hstack fuel s)) ->
     exists m,
       mean_er (self (state_of (generate_rollout hstack fuel s))) = Some m /\
       PyFloat.gtb m PyFloat.zero = true) /\
  (forall (c : Train.config) (episode : Z) (tl tl' : Train.train_locals)
          (s : @Train.world TE TA),
     let r := Train.episode_body hstack scale_action c episode tl s in
     outcome_of r = Ret tl' ->
     (Train.current_best_eval_score tl' = Train.current_best_eval_score tl /\
      count Train.is_save (events_of r) = 0%nat) \/
     (PyFloat.gtb (Train.current_best_eval_score tl')
                  (Train.current_best_eval_score tl) = true /\
      count Train.is_save (events_of r) = 1%nat)) /\
  (forall (c : Train.config) (s : @Train.world TE TA),
     let r := Train.train hstack scale_action c s in
     count Train.is_save (events_of r) =
       List.length (Train.best_scores (events_of r)) /\
     Forall (fun m => PyFloat.gtb m PyFloat.zero = true)
            (Train.best_scores (events_of r)) /\
     (forall tl', outcome_of r = Ret tl' ->
        PyFloat.leb PyFloat.zero (Train.current_best_eval_score tl') = true)).
Proof.
  split; [|split; [|split; [|split; [|split; [|split]]]]].
  - intros e a c _eval writer.
    exact (proj1 (proj2 (RolloutFacts.init_facts (Arr:=Arr) (Act:=Act)
                           (Ctl:=Ctl) e a c _eval writer))).
  - intros o s g g'. subst g g'.
    exact (proj2 (proj2 (proj2 (RolloutFacts.run_op_facts hstack o s)))).
  - intros e a c _eval writer ops.
    pose proof (RolloutFacts.run_ops_facts hstack ops
                  (state_of (@init Arr Act Ctl E A e a c _eval writer)))
      as (_ & _ & _ & R).
    apply R.
    rewrite (proj1 (proj2 (RolloutFacts.init_facts (Arr:=Arr) (Act:=Act)
                             (Ctl:=Ctl) e a c _eval writer))).
    reflexivity.
  - intros s m Hb Hm Hle tag.
    exact (RolloutFacts.create_checkpoint_nonpos s m Hb Hm Hle tag).
  - intros fuel s tag Hb Hin.
    pose proof (RolloutFacts.rollout_best hstack fuel s) as B. cbv zeta in B.
    destruct B as [[_ Hno] | (_ & B2 & B3 & _)].
    + exfalso. exact (Hno tag Hin).
    + eexists. split; [exact B3|].
      exact (PyFloatFacts.gtb_pos _ _ Hb B2).
  - intros c episode tl tl' s r Hret. subst r.
    pose proof (TrainFacts.episode_body_facts hstack scale_action c episode tl s)
      as (_ & _ & _ & Q).
    rewrite Hret in Q.
    destruct Q as [(Q1 & Q2 & _) | (Q1 & Q2 & _)]; [left | right];
      split; assumption.
  - intros c s r. subst r.
    pose proof (TrainFacts.train_facts hstack scale_action c s)
      as (_ & _ & T3 & T4 & T5).
    split; [exact T3 | split; [exact T4 | exact T5]].
Qed.

End Statements.

(** ** Concrete instances *)

(** C1 at the first evaluation rollout of the stub: it returns, and the
    best-score checkpoint tagged 1 is saved. *)
Lemma best_checkpoint_fires_witness :
  periodic_ckpt (cfg (self Stub.eval_start)) <> None /\
  outcome_of
    (generate_rollout Stub.hstack (EnvOps := Stub.scripted_env 3)
       (AgentOps := Stub.counting_agent) 3 Stub.eval_start) = Ret tt /\
  In (EvSave "B" 1)
    (events_of
       (generate_rollout Stub.hstack (EnvOps := Stub.scripted_env 3)
          (AgentOps := Stub.counting_agent) 3 Stub.eval_start)) /\
  ~ In (EvSave "B" 0)
      (events_of (@create_checkpoint Z Z Z Stub.script nat Stub.eval_start)).
Proof.
  assert (Hp : periodic_ckpt (cfg (self Stub.eval_start)) <> None)
    by (vm_compute; discriminate).
  assert (Hret : outcome_of
                   (generate_rollout Stub.hstack
                      (EnvOps := Stub.scripted_env 3)
                      (AgentOps := Stub.counting_agent) 3 Stub.eval_start)
                 = Ret tt) by (vm_compute; reflexivity).
  pose proof (best_checkpoint_fires Stub.hstack
                (EnvOps := Stub.scripted_env 3)
                (AgentOps := Stub.counting_agent)) as (T1 & T2 & _).
  split; [exact Hp | split; [exact Hret | split]].
  - destruct (T2 3%nat Stub.eval_start 1 Hret) as (_ & Hiff & _).
    apply Hiff. vm_compute. repeat split; reflexivity.
  - destruct (T1 Stub.eval_start 0 Hp) as (Hiff & _).
    intros Hin. apply Hiff in Hin. destruct Hin as (_ & _ & (m & Hm & _) & _).
    vm_compute in Hm. discriminate Hm.
Defined.

(** C2 at the fifth training rollout of the stub. *)
Lemma periodic_checkpoint_fires_witness :
  periodic_ckpt
    (cfg (self (state_of (Stub.rollouts 4 Stub.train_start))))
    = Some (PInt 5) /\
  outcome_of
    (generate_rollout Stub.hstack (EnvOps := Stub.scripted_env 3)
       (AgentOps := Stub.counting_agent) 3
       (state_of (Stub.rollouts 4 Stub.train_start))) = Ret tt /\
  In (EvSave "P" 5)
    (events_of
       (generate_rollout Stub.hstack (EnvOps := Stub.scripted_env 3)
          (AgentOps := Stub.counting_agent) 3
          (state_of (Stub.rollouts 4 Stub.train_start)))).
Proof.
  assert (Hp : periodic_ckpt
                 (cfg (self (state_of (Stub.rollouts 4 Stub.train_start))))
               = Some (PInt 5)) by (vm_compute; reflexivity).
  assert (Hret : outcome_of
                   (generate_rollout Stub.hstack
                      (EnvOps := Stub.scripted_env 3)
                      (AgentOps := Stub.counting_agent) 3
                      (state_of (Stub.rollouts 4 Stub.train_start)))
                 = Ret tt) by (vm_compute; reflexivity).
  pose proof (periodic_checkpoint_fires Stub.hstack
                (EnvOps := Stub.scripted_env 3)
                (AgentOps := Stub.counting_agent)) as (_ & T2 & _).
  split; [exact Hp | split; [exact Hret|]].
  apply (T2 3%nat _ (PInt 5) 5 Hp Hret).
  vm_compute. repeat split; reflexivity.
Defined.

(** C3 after the three evaluation rollouts of the stub, whose budget is 3. *)
Lemma done_iff_budget_exhausted_witness :
  let s3 := state_of (Stub.rollouts 3 Stub.eval_start) in
  n_episodes (cfg (self s3)) = Some 3 /\
  final_log_ok (self s3) 3 /\
  outcome_of (@done Z Z Z Stub.script nat s3) = Ret (3 <=? episode (self s3)) /\
  (3 <=? episode (self s3)) = true.
Proof.
  cbv zeta.
  assert (Hn : n_episodes
                 (cfg (self (state_of (Stub.rollouts 3 Stub.eval_start))))
               = Some 3) by (vm_compute; reflexivity).
  assert (Hok : final_log_ok
                  (self (state_of (Stub.rollouts 3 Stub.eval_start))) 3).
  { intros _ _. vm_compute. repeat split; discriminate. }
  pose proof (done_iff_budget_exhausted Stub.hstack
                (EnvOps := Stub.scripted_env 3)
                (AgentOps := Stub.counting_agent)) as (T1 & _).
  destruct (T1 _ 3 Hn Hok) as (Hd & _ & _).
  split; [exact Hn | split; [exact Hok | split; [exact Hd|]]].
  vm_compute. reflexivity.
Defined.

(** C4 at the first step of a training rollout of the stub. *)
Lemma transition_recorded_per_step_witness :
  exists rest,
    events_of
      (loop_body Stub.hstack (EnvOps := Stub.scripted_env 3)
         (AgentOps := Stub.counting_agent)
         (start Stub.an_obs) Stub.train_start) =
    EvAgentStep 3 true :: EvEnvStep 0
    :: EvRemember [FArr 1; FArr 2; FArr 3; FCtl 7; FFloat Stub.f1;
                   FArr 4; FArr 5; FInt 1]
    :: rest /\
    count is_env_step rest = 0%nat /\ count is_remember rest = 0%nat.
Proof.
  pose proof (transition_recorded_per_step Stub.hstack Stub.scale_action
                (EnvOps := Stub.scripted_env 3)
                (AgentOps := Stub.counting_agent)
                (TEnvOps := Stub.g2goal 3) (TAgentOps := Stub.ddpg))
    as (T1 & _).
  exact (T1 (start Stub.an_obs) Stub.train_start
            0%nat 0 7 PyFloat.zero
            (repeat (Stub.one_step Stub.f1 false) 11) Stub.next_obs Stub.f1
            true {| is_success := false |} eq_refl eq_refl).
Defined.

(** C5 at the first step of a training rollout of the stub, where
    [train_cycles_per_ts] is 2. *)
Lemma train_calls_per_step_witness :
  eval (self Stub.train_start) = false /\
  render (cfg (self Stub.train_start)) <> None /\
  train_cycles_per_ts (cfg (self Stub.train_start)) = Some 2 /\
  count is_train
    (events_of
       (loop_body Stub.hstack (EnvOps := Stub.scripted_env 3)
          (AgentOps := Stub.counting_agent)
          (start Stub.an_obs) Stub.train_start)) = 2%nat.
Proof.
  assert (He : eval (self Stub.train_start) = false) by (vm_compute; reflexivity).
  assert (Hr : render (cfg (self Stub.train_start)) <> None)
    by (vm_compute; discriminate).
  assert (Ht : train_cycles_per_ts (cfg (self Stub.train_start)) = Some 2)
    by (vm_compute; reflexivity).
  pose proof (train_calls_per_step Stub.hstack Stub.scale_action
                (EnvOps := Stub.scripted_env 3)
                (AgentOps := Stub.counting_agent)
                (TEnvOps := Stub.g2goal 3) (TAgentOps := Stub.ddpg))
    as (T1 & _).
  split; [exact He | split; [exact Hr | split; [exact Ht|]]].
  exact (proj1 (T1 (start Stub.an_obs) Stub.train_start 2 He Hr Ht)).
Defined.

(** C6, as the claim states it, fails in training mode: the rollout
    returns, its last [info] signals success, and the success counter has
    not moved. *)
Lemma success_not_counted_in_training :
  eval (self Stub.train_success_start) = false /\
  outcome_of (Stub.rollout Stub.train_success_start) = Ret tt /\
  final_info Stub.hstack (EnvOps := Stub.scripted_env 3)
    (AgentOps := Stub.counting_agent) 3 Stub.train_success_start =
    Some {| is_success := true |} /\
  success (self (state_of (Stub.rollout Stub.train_success_start))) =
    success (self Stub.train_success_start) /\
  success (self (state_of (Stub.rollout Stub.train_success_start))) <>
    success (self Stub.train_success_start) + 1.
Proof.
  vm_compute. repeat split; try reflexivity. discriminate.
Qed.

(** C6 as amended, at an evaluation rollout of the stub that ends on a
    success. *)
Lemma success_counted_in_evaluation_witness :
  eval (self Stub.eval_success_start) = true /\
  outcome_of
    (generate_rollout Stub.hstack (EnvOps := Stub.scripted_env 3)
       (AgentOps := Stub.counting_agent) 3 Stub.eval_success_start)
    = Ret tt /\
  exists i,
    final_info Stub.hstack (EnvOps := Stub.scripted_env 3)
      (AgentOps := Stub.counting_agent) 3 Stub.eval_success_start = Some i /\
    success
      (self
         (state_of
            (generate_rollout Stub.hstack (EnvOps := Stub.scripted_env 3)
               (AgentOps := Stub.counting_agent) 3
               Stub.eval_success_start))) =
    success (self Stub.eval_success_start) + (if is_success i then 1 else 0).
Proof.
  assert (He : eval (self Stub.eval_success_start) = true)
    by (vm_compute; reflexivity).
  assert (Hret : outcome_of
                   (generate_rollout Stub.hstack
                      (EnvOps := Stub.scripted_env 3)
                      (AgentOps := Stub.counting_agent) 3
                      Stub.eval_success_start) = Ret tt)
    by (vm_compute; reflexivity).
  split; [exact He | split; [exact Hret|]].
  exact (proj1 (success_counted_in_evaluation Stub.hstack
                  (EnvOps := Stub.scripted_env 3)
                  (AgentOps := Stub.counting_agent)
                  3%nat Stub.eval_success_start) He Hret).
Defined.

(** C7 at a generator of the stub built without a summary writer. *)
Lemma rollout_without_sink_raises_witness :
  summary_writer (self Stub.no_sink_start) = None /\
  summary (self Stub.no_sink_start) <> None /\
  outcome_of (Stub.rollout Stub.no_sink_start) <> Ret tt.
Proof.
  assert (Hw : summary_writer (self Stub.no_sink_start) = None) by (vm_compute; reflexivity).
  assert (Hs : summary (self Stub.no_sink_start) <> None)
    by (vm_compute; discriminate).
  pose proof (rollout_without_sink_raises Stub.hstack
                (EnvOps := Stub.scripted_env 3)
                (AgentOps := Stub.counting_agent)) as (_ & T2 & _).
  split; [exact Hw | split; [exact Hs|]].
  exact (proj1 (T2 3%nat Stub.no_sink_start Hw Hs)).
Defined.

(** C8 on the stub, whose step cap is 3, with a fuel of 3. *)
Lemma rollout_terminates_within_cap_witness :
  (Z.to_nat (@max_episode_steps Z Z Stub.script (Stub.scripted_env 3))
   <= 3)%nat /\
  outcome_of (Stub.rollout Stub.train_start) <> OutOfFuel.
Proof.
  assert (Hf : (Z.to_nat (@max_episode_steps Z Z Stub.script
                            (Stub.scripted_env 3)) <= 3)%nat)
    by (vm_compute; lia).
  pose proof (rollout_terminates_within_cap Stub.hstack Stub.scale_action
                (EnvOps := Stub.scripted_env 3)
                (AgentOps := Stub.counting_agent)
                (TEnvOps := Stub.g2goal 3) (TAgentOps := Stub.ddpg))
    as (T1 & _).
  split; [exact Hf|].
  exact (proj1 (T1 3%nat Stub.train_start Hf)).
Defined.

(** C9 on a training generator of the stub whose configuration lacks
    [train_cycles_per_ts]: the assertion passes and the attribute read
    raises. *)
Lemma assert_is_dead_code_witness :
  eval (self Stub.missing_cycles_start) = false /\
  render (cfg (self Stub.missing_cycles_start)) <> None /\
  train_cycles_per_ts (cfg (self Stub.missing_cycles_start)) = None /\
  outcome_of
    (loop_body Stub.hstack (EnvOps := Stub.scripted_env 3)
       (AgentOps := Stub.counting_agent)
       (start Stub.an_obs) Stub.missing_cycles_start) =
  Raise (AttributeError "train_cycles_per_ts").
Proof.
  assert (He : eval (self Stub.missing_cycles_start) = false) by (vm_compute; reflexivity).
  assert (Hr : render (cfg (self Stub.missing_cycles_start)) <> None)
    by (vm_compute; discriminate).
  assert (Ht : train_cycles_per_ts (cfg (self Stub.missing_cycles_start))
               = None) by (vm_compute; reflexivity).
  pose proof (assert_is_dead_code Stub.hstack
                (EnvOps := Stub.scripted_env 3)
                (AgentOps := Stub.counting_agent)) as (_ & _ & _ & _ & T5).
  split; [exact He | split; [exact Hr | split; [exact Ht|]]].
  exact (T5 (start Stub.an_obs) Stub.missing_cycles_start He Hr Ht).
Defined.

(** C10 after an evaluation rollout of the stub with reward 0: the running
    mean is 0, the best score is 0, and no best-score checkpoint is
    saved. *)
Lemma best_score_never_decreases_witness :
  let s1 := state_of (Stub.rollout Stub.eval_zero_start) in
  PyFloat.leb PyFloat.zero (best_score (self s1)) = true /\
  mean_er (self s1) = Some PyFloat.zero /\
  PyFloat.leb PyFloat.zero PyFloat.zero = true /\
  ~ In (EvSave "B" 1)
      (events_of (@create_checkpoint Z Z Z Stub.script nat s1)).
Proof.
  cbv zeta.
  assert (Hb : PyFloat.leb PyFloat.zero
                 (best_score
                    (self (state_of (Stub.rollout Stub.eval_zero_start))))
               = true) by (vm_compute; reflexivity).
  assert (Hm : mean_er (self (state_of (Stub.rollout Stub.eval_zero_start)))
               = Some PyFloat.zero) by (vm_compute; reflexivity).
  assert (Hle : PyFloat.leb PyFloat.zero PyFloat.zero = true) by (vm_compute; reflexivity).
  pose proof (best_score_never_decreases Stub.hstack Stub.scale_action
                (EnvOps := Stub.scripted_env 3)
                (AgentOps := Stub.counting_agent)
                (TEnvOps := Stub.g2goal 3) (TAgentOps := Stub.ddpg))
    as (_ & _ & _ & T4 & _).
  split; [exact Hb | split; [exact Hm | split; [exact Hle|]]].
  exact (T4 _ PyFloat.zero Hb Hm Hle 1).
Defined.

End Claims.

(** * Further properties of the code *)

Module Extras.
Import Rollout.

Section Statements.

Context {Arr Act Ctl : Type} (hstack : Arr -> Arr -> Arr)
        (scale_action : Act -> Act).
Context {E A : Type} {EnvOps : Environment Arr Act E}
        {AgentOps : Agent Arr Act Ctl A}.
Context {TE TA : Type} {TEnvOps : Train.Environment Arr Act TE}
        {TAgentOps : Train.Agent Arr Act Ctl TA}.

(** X1.  A rollout resets the environment exactly once, as its first call;
    then come only the calls of the loop ([agent.step], [env.step],
    [agent.remember], [env.render], [agent.train], [time.sleep]); then only
    reports (summaries, log lines, checkpoints).  Nothing is reported
    before the last step, and neither the environment nor the agent is
    called after it. *)
Theorem rollout_calls_in_order :
  forall (fuel : nat) (s : @rstate E A),
    (exists o2 o3,
       events_of (generate_rollout hstack fuel s) = EvEnvReset :: o2 ++ o3 /\
       Forall (fun ev => is_loop_event ev = true) o2 /\
       Forall (fun ev => is_report_event ev = true) o3) /\
    count is_env_reset (events_of (generate_rollout hstack fuel s)) = 1%nat.
Proof.
  intros fuel s. split.
  - exact (RolloutFacts.rollout_call_order hstack fuel s).
  - pose proof (RolloutFacts.rollout_obs hstack fuel s)
      as (_ & _ & _ & _ & _ & R & _).
    exact R.
Qed.

(** X2.  Every [agent.step] of a rollout is called with
    [explore = not self.eval]: exploration is on in training mode and off
    in evaluation mode, at every step. *)
Theorem explore_only_outside_evaluation :
  forall (fuel : nat) (s : @rstate E A),
    Forall (fun e => e = negb (eval (self s)))
           (explore_flags (events_of (generate_rollout hstack fuel s))).
Proof.
  intros fuel s.
  exact (proj1 (RolloutFacts.rollout_obs hstack fuel s)).
Qed.

(** X3.  [time.sleep(step_sleep)] is called once after every step of an
    evaluation rollout whose configuration has [step_sleep] (and [render]),
    always with the configured duration; a training rollout never sleeps,
    and neither does a generator without [step_sleep]. *)
Theorem sleep_once_per_evaluation_step :
  forall (fuel : nat) (s : @rstate E A),
    let o := events_of (generate_rollout hstack fuel s) in
    (forall d, eval (self s) = true -> render (cfg (self s)) <> None ->
               step_sleep (cfg (self s)) = Some d ->
               sleeps o = repeat d (count is_env_step o)) /\
    (eval (self s) = false -> sleeps o = []) /\
    (step_sleep (cfg (self s)) = None -> sleeps o = []).
Proof.
  intros fuel s o. subst o.
  pose proof (RolloutFacts.rollout_obs hstack fuel s)
    as (_ & R2 & R3 & R4 & _).
  split; [exact R4 | split; [exact R2 | exact R3]].
Qed.

(** X4.  With [render] in the configuration, [env.render()] is called once
    after every step when it is true and never when it is false. *)
Theorem render_once_per_step :
  forall (fuel : nat) (s : @rstate E A) (b : bool),
    render (cfg (self s)) = Some b ->
    count is_render (events_of (generate_rollout hstack fuel s)) =
    if b then count is_env_step (events_of (generate_rollout hstack fuel s))
    else 0%nat.
Proof.
  intros fuel s b Hb.
  pose proof (RolloutFacts.rollout_obs hstack fuel s)
    as (_ & _ & _ & _ & R5 & _).
  exact (R5 b Hb).
Qed.

(** X5.  Without [render] in the configuration a rollout raises
    [AttributeError] in its first iteration: one step has been taken and
    recorded, the agent has not been trained, and the generator's own
    attributes (episode count, statistics) are untouched. *)
Theorem missing_render_raises_after_first_step :
  forall (fuel : nat) (s : @rstate E A),
    render (cfg (self s)) = None -> 0 < max_episode_steps ->
    let r := generate_rollout hstack (S fuel) s in
    outcome_of r = Raise (AttributeError "render") /\
    self (state_of r) = self s /\
    count is_env_step (events_of r) = 1%nat /\
    count is_remember (events_of r) = 1%nat /\
    count is_train (events_of r) = 0%nat /\
    count is_render (events_of r) = 0%nat.
Proof.
  intros fuel s Hr Hpos.
  exact (RolloutFacts.rollout_no_render hstack fuel s Hr Hpos).
Qed.

(** X6.  With a step cap of zero (or less) the loop body never runs, the
    local [info] is never bound, and the rollout cannot return: the episode
    is counted, and on a generator that lacks nothing else the read of
    [info] raises [UnboundLocalError]. *)
Theorem zero_step_cap_leaves_info_unbound :
  forall (fuel : nat) (s : @rstate E A),
    max_episode_steps <= 0 ->
    let r := generate_rollout hstack fuel s in
    count is_env_step (events_of r) = 0%nat /\
    outcome_of r <> Ret tt /\
    episode (self (state_of r)) = episode (self s) + 1 /\
    (ready (self s) -> outcome_of r = Raise (UnboundLocalError "info")).
Proof.
  intros fuel s Hcap.
  pose proof (RolloutFacts.rollout_zero_cap hstack fuel s Hcap)
    as (_ & Z2 & Z3 & Z4 & Z5).
  cbv zeta. repeat apply conj; assumption.
Qed.

(** X7.  A rollout returns normally when the step cap is positive and the
    generator has what the rollout reads: [render], in training mode
    [train_cycles_per_ts], a summary writer, [periodic_ckpt], in evaluation
    mode [eval_counter] and [save_best], and an episode count whose
    successor is neither zero nor too large for a float.  A generator
    fresh from [__init__] with a writer and a configuration that has
    [render] (and [train_cycles_per_ts] in training mode) is in that
    state. *)
Theorem rollout_returns_when_configured :
  (forall (fuel : nat) (s : @rstate E A),
     ready (self s) -> 0 < max_episode_steps ->
     (Z.to_nat max_episode_steps <= fuel)%nat ->
     outcome_of (generate_rollout hstack fuel s) = Ret tt) /\
  (forall (e : E) (a : A) (c : config) (_eval : bool) (w : tf_object),
     render c <> None ->
     (_eval = false -> train_cycles_per_ts c <> None) ->
     ready (self (state_of (@init Arr Act Ctl E A e a c _eval (Some w))))).
Proof.
  split.
  - intros fuel s Hr Hpos Hf.
    exact (RolloutFacts.rollout_returns hstack fuel s Hr Hpos Hf).
  - intros e a c _eval w Hr Ht. destruct c as [rd tc pc sb ne ss].
    unfold ready, init, reset, bind, update_self, modify, emit, state_of.
    simpl in *.
    repeat apply conj; try assumption; try discriminate;
      try (destruct pc; discriminate); try (destruct sb; discriminate).
    + intros _ He. rewrite He. discriminate.
    + reflexivity.
Qed.

(** X8.  A rollout that returns has added the episode's Q-sum and reward
    sum to [q_total] and [r_total] and the number of its steps to
    [t_steps], and has set [mean_eq] and [mean_er] to the totals divided by
    the new episode count.  The episode's reward sum is the float sum, from
    left to right starting at 0.0, of the rewards it recorded. *)
Theorem rollout_accumulates_statistics :
  forall (fuel : nat) (s : @rstate E A),
    let r := generate_rollout hstack fuel s in
    let g := self s in
    let g' := self (state_of r) in
    outcome_of r = Ret tt ->
    exists l,
      final_locals hstack fuel s = Some l /\
      l_episodic_r l = sum_from PyFloat.zero (rewards (events_of r)) /\
      l_t l = Z.of_nat (count is_env_step (events_of r)) /\
      q_total g' = PyFloat.add (q_total g) (l_episodic_q l) /\
      r_total g' = PyFloat.add (r_total g) (l_episodic_r l) /\
      t_steps g' = t_steps g + l_t l /\
      mean_eq g' =
        Some (PyFloat.div (q_total g') (PyFloat.of_int (episode g'))) /\
      mean_er g' =
        Some (PyFloat.div (r_total g') (PyFloat.of_int (episode g'))).
Proof.
  intros fuel s r g g' Hret. subst r g g'.
  destruct (RolloutFacts.rollout_stats hstack fuel s Hret)
    as (l & Hl & S1 & S2 & S3 & S4 & S5 & _).
  pose proof (RolloutFacts.rollout_obs hstack fuel s)
    as (_ & _ & _ & _ & _ & _ & _ & R8).
  destruct (R8 l Hl) as (R8a & R8b).
  exists l. repeat apply conj; assumption.
Qed.

(** X9.  The summary of a rollout that returns is written at step
    [episode] (the new episode count) in training mode and at step
    [eval_counter + 1] in evaluation mode, where [eval_counter] is then
    incremented; [reset()] puts [episode] back to 0 but leaves
    [eval_counter] alone, so evaluation summaries keep counting across a
    reset. *)
Theorem summary_counter_per_mode :
  (forall (fuel : nat) (s : @rstate E A),
     let r := generate_rollout hstack fuel s in
     let g := self s in
     let g' := self (state_of r) in
     summary_writer g <> None -> summary g <> None ->
     outcome_of r = Ret tt ->
     exists l counter,
       final_locals hstack fuel s = Some l /\
       filter is_summary (events_of r) =
       [EvAddSummary
          [((name g ++ "/episodic_r")%string, l_episodic_r l);
           ((name g ++ "/episodic_q")%string, l_episodic_q l)] counter] /\
       (eval g = false ->
        counter = episode g' /\ eval_counter g' = eval_counter g) /\
       (eval g = true ->
        eval_counter g' = Some counter /\
        exists c, eval_counter g = Some c /\ counter = c + 1)) /\
  (forall s : @rstate E A,
     let g' := self (state_of (@reset Arr Act Ctl E A s)) in
     eval_counter g' = eval_counter (self s) /\ episode g' = 0).
Proof.
  split.
  - intros fuel s r g g' Hw Hs Hret. subst r g g'.
    destruct (RolloutFacts.rollout_summary_counter hstack fuel s Hw Hs Hret)
      as (l & Hl & Hsum).
    destruct (RolloutFacts.rollout_stats hstack fuel s Hret)
      as (l' & _ & _ & _ & _ & _ & _ & _ & S7 & S8 & _).
    pose proof (RolloutFacts.rollout_frame hstack fuel s)
      as (_ & _ & _ & _ & _ & F6 & _).
    exists l. eexists. split; [exact Hl|]. split; [exact Hsum|]. split.
    + intros He. rewrite He. split; [rewrite (F6 Hret); reflexivity|].
      exact (S7 He).
    + intros He. rewrite He. destruct (S8 He Hs) as (c & Hc & Hc').
      rewrite Hc, Hc'. split; [reflexivity|]. exists c. split; reflexivity.
  - intros s. destruct s as [g e a]. split; reflexivity.
Qed.

(** X10.  A training rollout that returns prints exactly one log line,
    with the generator's name, the new episode count, the episode's reward
    and Q sums and its number of steps; an evaluation rollout prints
    none. *)
Theorem training_rollout_logs_one_line :
  forall (fuel : nat) (s : @rstate E A),
    let r := generate_rollout hstack fuel s in
    let g := self s in
    outcome_of r = Ret tt ->
    exists l,
      final_locals hstack fuel s = Some l /\
      filter is_print_line (events_of r) =
      (if eval g then []
       else [EvPrintLine (name g) (episode (self (state_of r)))
               (l_episodic_r l) (l_episodic_q l) (l_t l)]).
Proof.
  intros fuel s r g Hret. subst r g.
  destruct (RolloutFacts.rollout_stats hstack fuel s Hret)
    as (l & Hl & _ & _ & _ & _ & _ & _ & _ & _ & S9).
  exists l. split; assumption.
Qed.

(** X11.  A generator built from a configuration that has neither
    [periodic_ckpt] nor [save_best] never saves a checkpoint, whatever is
    called on it before the rollout: [__init__] sets both to [False]. *)
Theorem default_options_never_checkpoint :
  forall (e : E) (a : A) (c : config) (_eval : bool)
         (writer : option tf_object) (ops : list op) (fuel : nat),
    periodic_ckpt c = None -> save_best c = None ->
    count is_checkpoint
      (events_of
         (generate_rollout hstack fuel
            (run_ops hstack ops
               (state_of (@init Arr Act Ctl E A e a c _eval writer)))))
    = 0%nat.
Proof.
  intros e a c _eval writer ops fuel Hp Hb.
  pose proof (RolloutFacts.init_facts (Arr:=Arr) (Act:=Act) (Ctl:=Ctl)
                e a c _eval writer)
    as (_ & _ & _ & _ & _ & _ & _ & _ & _ & _ & _ & I1 & I2).
  pose proof (RolloutFacts.run_ops_facts hstack ops
                (state_of (@init Arr Act Ctl E A e a c _eval writer)))
    as (R1 & _).
  apply (RolloutFacts.rollout_no_checkpoint hstack fuel _ (PBool false)).
  - rewrite R1. exact (I1 Hp).
  - reflexivity.
  - right. rewrite R1. exact (I2 Hb).
Qed.

(** X12.  In evaluation mode [done()] is silent while the budget lasts;
    once [episode >= n_episodes] it prints the evaluation result (mean
    reward, mean Q-value, total steps and the success rate
    [100 * (success / n_episodes)]) between two blank lines and returns
    true; with [n_episodes = 0] the rate cannot be computed and it raises
    [ZeroDivisionError] after the first blank line.  In training mode
    [done()] prints nothing. *)
Theorem done_reports_evaluation_result :
  (forall (s : @rstate E A) (n : Z) (mq mr : float),
     eval (self s) = true ->
     n_episodes (cfg (self s)) = Some n ->
     mean_eq (self s) = Some mq -> mean_er (self s) = Some mr ->
     (episode (self s) < n ->
      @done Arr Act Ctl E A s = (s, [], Ret false)) /\
     (n <= episode (self s) -> n <> 0 ->
      PyFloat.is_inf (PyFloat.int_div (success (self s)) n) = false ->
      @done Arr Act Ctl E A s =
      (s, [ EvPrintBlank;
            EvEvalResult mr mq (t_steps (self s))
              (PyFloat.mul (PyFloat.of_int 100)
                 (PyFloat.int_div (success (self s)) n));
            EvPrintBlank ], Ret true)) /\
     (n <= episode (self s) -> n = 0 ->
      @done Arr Act Ctl E A s = (s, [EvPrintBlank], Raise ZeroDivisionError))) /\
  (forall (s : @rstate E A) (n : Z),
     eval (self s) = false ->
     n_episodes (cfg (self s)) = Some n ->
     @done Arr Act Ctl E A s = (s, [], Ret (n <=? episode (self s)))).
Proof.
  split.
  - intros s n mq mr He Hn Hq Hr.
    exact (RolloutFacts.done_eval_log s n mq mr He Hn Hq Hr).
  - intros s n He Hn.
    exact (RolloutFacts.done_training s n Hn He).
Qed.

(** X13.  [done()] called on an evaluation generator fresh from
    [__init__] whose budget is already used up ([n_episodes <= 0]) raises
    [AttributeError]: the final log reads [mean_eq], which only a rollout
    sets. *)
Theorem done_before_first_rollout_raises :
  forall (e : E) (a : A) (c : config) (writer : option tf_object) (n : Z),
    n_episodes c = Some n -> n <= 0 ->
    outcome_of
      (@done Arr Act Ctl E A
         (state_of (@init Arr Act Ctl E A e a c true writer)))
    = Raise (AttributeError "mean_eq").
Proof.
  intros e a c writer n Hn Hle.
  rewrite (RolloutFacts.done_eval_unset
             (state_of (@init Arr Act Ctl E A e a c true writer)) n).
  - reflexivity.
  - reflexivity.
  - destruct c as [rd tc pc sb ne ss]. simpl in *. exact Hn.
  - destruct c as [rd tc pc sb ne ss]. simpl. exact Hle.
  - destruct c as [rd tc pc sb ne ss]. reflexivity.
Qed.

(** X14.  No rollout of a generator obtained from [__init__] by any
    sequence of method calls raises [ZeroDivisionError]: the episode count
    never goes below 0, and the means are computed after it has been
    incremented. *)
Theorem rollout_never_divides_by_zero :
  forall (e : E) (a : A) (c : config) (_eval : bool)
         (writer : option tf_object) (ops : list op) (fuel : nat),
    outcome_of
      (generate_rollout hstack fuel
         (run_ops hstack ops
            (state_of (@init Arr Act Ctl E A e a c _eval writer))))
    <> Raise ZeroDivisionError.
Proof.
  intros e a c _eval writer ops fuel.
  apply RolloutFacts.rollout_no_zero_div.
  apply RolloutFacts.run_ops_episode.
  pose proof (RolloutFacts.init_facts (Arr:=Arr) (Act:=Act) (Ctl:=Ctl)
                e a c _eval writer) as (_ & _ & I3 & _).
  rewrite I3. lia.
Qed.

(** X15.  The exceptions that the statements of [generate_rollout] can
    raise themselves: [AttributeError] on one of six named attributes,
    [UnboundLocalError] on [info], [ZeroDivisionError] and [OverflowError]
    in the means; never anything else. *)
Theorem rollout_failure_modes :
  forall (fuel : nat) (s : @rstate E A) (e : exn),
    outcome_of (generate_rollout hstack fuel s) = Raise e ->
    In e [ AttributeError "render"; AttributeError "train_cycles_per_ts";
           AttributeError "eval_counter"; AttributeError "add_summary";
           AttributeError "periodic_ckpt"; AttributeError "save_best";
           UnboundLocalError "info"; ZeroDivisionError; OverflowError ].
Proof.
  intros fuel s e He.
  exact (RolloutFacts.rollout_raises hstack fuel s e He).
Qed.

(** X16.  [update_stats] called while [episode] is 0 raises
    [ZeroDivisionError] at the first mean, after it has already added its
    arguments to [q_total], [r_total] and [t_steps]; the means keep their
    old values. *)
Theorem update_stats_before_first_episode :
  forall (q r : float) (t : Z) (s : @rstate E A),
    episode (self s) = 0 ->
    let res := @update_stats Arr Act Ctl E A q r t s in
    let g := self s in
    let g' := self (state_of res) in
    outcome_of res = Raise ZeroDivisionError /\
    q_total g' = PyFloat.add (q_total g) q /\
    r_total g' = PyFloat.add (r_total g) r /\
    t_steps g' = t_steps g + t /\
    mean_eq g' = mean_eq g /\ mean_er g' = mean_er g.
Proof.
  intros q r t s He.
  exact (RolloutFacts.update_stats_zero_episode q r t s He).
Qed.

(** X17.  A rollout that returns has taken at least one step and has
    stopped at the first step whose done flag is set, or else after
    exactly [max_episode_steps] steps: the done flags it recorded are 0 for
    every step but the last. *)
Theorem rollout_stops_at_first_done :
  forall (fuel : nat) (s : @rstate E A),
    let r := generate_rollout hstack fuel s in
    outcome_of r = Ret tt ->
    exists k b,
      done_flags (events_of r) = repeat 0 k ++ [int_of_bool b] /\
      count is_env_step (events_of r) = S k /\
      (b = true \/ Z.of_nat (S k) = max_episode_steps).
Proof.
  intros fuel s r Hret. subst r.
  exact (RolloutFacts.rollout_done_flags hstack fuel s Hret).
Qed.

(** X18.  [train]: across the whole run, evaluation included and whatever
    the outcome, every training step's transition is handed to
    [ddpg_agent.remember] (eight fields each), and [ddpg_agent.train] is
    called five times per training step; evaluation steps are neither
    remembered nor trained on. *)
Theorem every_training_step_is_remembered :
  forall (c : Train.config) (s : @Train.world TE TA),
    let o := events_of (Train.train hstack scale_action c s) in
    count Train.is_training_step o = List.length (Train.remembered o) /\
    Forall Train.eight_fields (Train.remembered o) /\
    count Train.is_remember o = List.length (Train.remembered o) /\
    count Train.is_train o = (5 * count Train.is_training_step o)%nat.
Proof.
  intros c s o. subst o.
  pose proof (TrainFacts.train_obs hstack scale_action c s) as (O1 & _).
  pose proof (TrainFacts.train_facts hstack scale_action c s)
    as (T1 & T2 & _).
  repeat apply conj; try assumption.
  - generalize (events_of (Train.train hstack scale_action c s)).
    intros o. induction o as [|ev o IH]; [reflexivity|].
    rewrite count_cons. destruct ev; simpl; rewrite ?IH; reflexivity.
  - rewrite O1. exact T2.
Qed.

(** X19.  [train] that returns has run [n_episodes] training episodes and
    five evaluation runs after every twentieth of them: it has printed
    [n] training lines and [5 * (n // 20)] evaluation lines, and has reset
    the environment once per episode and once per evaluation run. *)
Theorem evaluation_every_twenty_episodes :
  forall (c : Train.config) (s : @Train.world TE TA) (n : Z)
         (tl : Train.train_locals),
    Train.n_episodes c = Some n ->
    outcome_of (Train.train hstack scale_action c s) = Ret tl ->
    let o := events_of (Train.train hstack scale_action c s) in
    count Train.is_train_line o = Z.to_nat n /\
    count Train.is_eval_line o = (5 * Z.to_nat (n / 20))%nat /\
    count Train.is_env_reset o = (Z.to_nat n + 5 * Z.to_nat (n / 20))%nat.
Proof.
  intros c s n tl Hn Hret o. subst o.
  pose proof (TrainFacts.train_obs hstack scale_action c s)
    as (_ & _ & _ & O4).
  destruct (O4 n Hn) as (_ & O5).
  exact (O5 tl Hret).
Qed.

(** X20.  [train] saves a checkpoint only after an evaluation: every
    checkpoint is tagged with the 0-based index [e] of an episode of the
    run with [(e + 1) % 20 == 0]. *)
Theorem checkpoints_only_after_evaluation :
  forall (c : Train.config) (s : @Train.world TE TA) (n : Z),
    Train.n_episodes c = Some n ->
    Forall (fun e => 0 <= e < n /\ (e + 1) mod 20 = 0)
           (Train.saved_episodes
              (events_of (Train.train hstack scale_action c s))).
Proof.
  intros c s n Hn.
  pose proof (TrainFacts.train_obs hstack scale_action c s)
    as (_ & _ & _ & O4).
  exact (proj1 (O4 n Hn)).
Qed.

(** X21.  [train] renders once per training step when the configuration
    has a true [render], and never otherwise; unlike [generate_rollout], a
    configuration without [render] is accepted.  Evaluation steps are never
    rendered. *)
Theorem train_render_is_optional :
  forall (c : Train.config) (s : @Train.world TE TA),
    let o := events_of (Train.train hstack scale_action c s) in
    (forall b, Train.render c = Some b ->
               count Train.is_render o =
               if b then count Train.is_training_step o else 0%nat) /\
    (Train.render c = None -> count Train.is_render o = 0%nat).
Proof.
  intros c s o. subst o.
  pose proof (TrainFacts.train_obs hstack scale_action c s)
    as (_ & O2 & O3 & _).
  split; assumption.
Qed.

(** X22.  With [env._max_episode_steps <= 0] the step loop of the first
    episode never runs, the loop variable [i] stays unbound, and [train]
    raises [UnboundLocalError] at the log line, after a single
    [env.reset()]. *)
Theorem train_zero_step_cap_raises :
  forall (c : Train.config) (s : @Train.world TE TA) (n : Z),
    Train.n_episodes c = Some n -> 0 < n ->
    Train._max_episode_steps <= 0 ->
    Train.train hstack scale_action c s =
    ({| Train.env := fst (Train.env_reset (Train.env s));
        Train.agent := Train.agent s |},
     [Train.EvEnvReset], Raise (UnboundLocalError "i")).
Proof.
  intros c s n Hn Hpos Hcap.
  exact (TrainFacts.train_zero_cap hstack scale_action c s n Hn Hpos Hcap).
Qed.

(** X23.  The reward printed for a training episode is [int()] of the float
    sum, from left to right, of the rewards of the transitions the episode
    handed to the agent.  When that sum is not a number the episode raises
    [ValueError], and when it is infinite [OverflowError], at the log line:
    after the transitions were remembered, before anything is printed. *)
Theorem episode_reward_must_be_finite :
  forall (c : Train.config) (episode : Z) (tl : Train.train_locals)
         (s : @Train.world TE TA),
    let r := Train.episode_body hstack scale_action c episode tl s in
    let o := events_of r in
    let total :=
      sum_from PyFloat.zero (Train.batch_rewards (Train.remembered o)) in
    (PyFloat.is_nan total = true ->
     outcome_of r = Raise ValueError /\
     count Train.is_train_line o = 0%nat) /\
    (PyFloat.is_nan total = false -> PyFloat.is_inf total = true ->
     outcome_of r = Raise OverflowError /\
     count Train.is_train_line o = 0%nat) /\
    (forall tl', outcome_of r = Ret tl' ->
       exists q t d,
         In (Train.EvPrintLine "T" (episode + 1) (PyFloat.trunc total) q t
               (Some d)) o).
Proof.
  intros c episode tl s.
  exact (TrainFacts.episode_body_reward hstack scale_action c episode tl s).
Qed.

(** X24.  In an episode of [train] a step summary is written after every
    step but a terminal one ([break] comes first), at the global steps
    [episode * env._max_episode_steps + i] for [i = 0, 1, ...]: an episode
    of [m] summaries has [m + 1] steps, or [m] steps when it ran to the
    step cap. *)
Theorem step_summaries_skip_terminal_step :
  forall (c : Train.config) (episode : Z) (tl : Train.train_locals)
         (s : @Train.world TE TA),
    let o := events_of (Train.episode_body hstack scale_action c episode tl s) in
    let m := count Train.is_step_summary o in
    Train.summary_steps o =
      map (fun j => episode * Train._max_episode_steps + Z.of_nat j)
          (seq 0 m) /\
    ((m + 1)%nat = count Train.is_training_step o \/
     (m = count Train.is_training_step o /\
      count Train.is_training_step o = Z.to_nat Train._max_episode_steps)).
Proof.
  intros c episode tl s o m. subst o m.
  pose proof (TrainFacts.episode_body_steps hstack scale_action c episode tl s)
    as (_ & _ & _ & _ & S5 & S6).
  split; [|exact S6].
  rewrite S5. apply map_ext. intros j. rewrite Z.add_0_l. reflexivity.
Qed.

End Statements.

(** ** The properties on the scripted environment *)

(** a rollout of the scripted environment with a step cap of 3 *)
Local Notation "'stub_rollout' s" :=
  (@generate_rollout Z Z Z Stub.hstack Stub.script nat (Stub.scripted_env 3)
     Stub.counting_agent 3 s)
  (at level 10, s at level 9, only parsing).

(** [train] on the scripted environment with a step cap of 3 *)
Local Notation "'stub_train' c w" :=
  (@Train.train Z Z Z Stub.hstack Stub.scale_action Stub.script nat
     (Stub.g2goal 3) Stub.ddpg c w)
  (at level 10, c at level 9, w at level 9, only parsing).

(** X3 on an evaluation rollout of two steps that sleeps 1.5 s. *)
Lemma sleep_once_per_evaluation_step_witness :
  sleeps (events_of (stub_rollout Stub.sleepy_start)) =
  repeat Stub.f1_5
    (count is_env_step (events_of (stub_rollout Stub.sleepy_start))).
Proof.
  apply (proj1 (sleep_once_per_evaluation_step Stub.hstack
                  (EnvOps := Stub.scripted_env 3)
                  (AgentOps := Stub.counting_agent)
                  3%nat Stub.sleepy_start) Stub.f1_5).
  - vm_compute. reflexivity.
  - vm_compute. discriminate.
  - vm_compute. reflexivity.
Defined.

(** X4 on a training rollout of two steps that renders. *)
Lemma render_once_per_step_witness :
  count is_render (events_of (stub_rollout Stub.rendering_start)) =
  count is_env_step (events_of (stub_rollout Stub.rendering_start)).
Proof.
  apply (render_once_per_step Stub.hstack
           (EnvOps := Stub.scripted_env 3) (AgentOps := Stub.counting_agent)
           3%nat Stub.rendering_start true).
  vm_compute. reflexivity.
Defined.

(** X5 on a training generator whose configuration has no [render]. *)
Lemma missing_render_raises_after_first_step_witness :
  outcome_of (stub_rollout Stub.no_render_start) =
    Raise (AttributeError "render") /\
  self (state_of (stub_rollout Stub.no_render_start)) =
    self Stub.no_render_start.
Proof.
  assert (Hr : render (cfg (self Stub.no_render_start)) = None)
    by (vm_compute; reflexivity).
  assert (Hpos : 0 < @max_episode_steps Z Z Stub.script (Stub.scripted_env 3))
    by (vm_compute; reflexivity).
  pose proof (missing_render_raises_after_first_step Stub.hstack
                (EnvOps := Stub.scripted_env 3)
                (AgentOps := Stub.counting_agent)
                2%nat Stub.no_render_start Hr Hpos) as (H1 & H2 & _).
  split; [exact H1 | exact H2].
Defined.

(** X6 on the scripted environment with a step cap of 0. *)
Lemma zero_step_cap_leaves_info_unbound_witness :
  outcome_of
    (@generate_rollout Z Z Z Stub.hstack Stub.script nat (Stub.scripted_env 0)
       Stub.counting_agent 3 Stub.train_start) =
  Raise (UnboundLocalError "info").
Proof.
  assert (Hcap : @max_episode_steps Z Z Stub.script (Stub.scripted_env 0) <= 0)
    by (vm_compute; discriminate).
  apply (proj2 (proj2 (proj2
           (zero_step_cap_leaves_info_unbound Stub.hstack
              (EnvOps := Stub.scripted_env 0)
              (AgentOps := Stub.counting_agent)
              3%nat Stub.train_start Hcap)))).
  unfold ready. repeat apply conj; intros; vm_compute;
    first [reflexivity | discriminate].
Defined.

(** X7 on the first training rollout of the scripted environment. *)
Lemma rollout_returns_when_configured_witness :
  outcome_of (stub_rollout Stub.train_start) = Ret tt.
Proof.
  apply (proj1 (rollout_returns_when_configured Stub.hstack
                  (EnvOps := Stub.scripted_env 3)
                  (AgentOps := Stub.counting_agent))
           3%nat Stub.train_start).
  - unfold ready. repeat apply conj; intros; vm_compute;
      first [reflexivity | discriminate].
  - vm_compute. reflexivity.
  - vm_compute. lia.
Defined.

(** X8 on a training rollout of two steps with rewards 1 and 2. *)
Lemma rollout_accumulates_statistics_witness :
  exists l,
    final_locals Stub.hstack (EnvOps := Stub.scripted_env 3)
      (AgentOps := Stub.counting_agent) 3 Stub.rendering_start = Some l /\
    l_episodic_r l =
      sum_from PyFloat.zero
        (rewards (events_of (stub_rollout Stub.rendering_start))) /\
    t_steps (self (state_of (stub_rollout Stub.rendering_start))) =
      t_steps (self Stub.rendering_start) + l_t l.
Proof.
  assert (Hret : outcome_of (stub_rollout Stub.rendering_start) = Ret tt)
    by (vm_compute; reflexivity).
  destruct (rollout_accumulates_statistics Stub.hstack
              (EnvOps := Stub.scripted_env 3)
              (AgentOps := Stub.counting_agent)
              3%nat Stub.rendering_start Hret)
    as (l & Hl & H1 & _ & _ & _ & H5 & _).
  exists l. split; [exact Hl | split; [exact H1 | exact H5]].
Defined.

(** X9 on the first evaluation rollout of the scripted environment. *)
Lemma summary_counter_per_mode_witness :
  exists l counter,
    final_locals Stub.hstack (EnvOps := Stub.scripted_env 3)
      (AgentOps := Stub.counting_agent) 3 Stub.eval_start = Some l /\
    filter is_summary (events_of (stub_rollout Stub.eval_start)) =
      [EvAddSummary
         [((name (self Stub.eval_start) ++ "/episodic_r")%string,
           l_episodic_r l);
          ((name (self Stub.eval_start) ++ "/episodic_q")%string,
           l_episodic_q l)] counter] /\
    eval_counter (self (state_of (stub_rollout Stub.eval_start))) =
      Some counter.
Proof.
  assert (Hw : summary_writer (self Stub.eval_start) <> None)
    by (vm_compute; discriminate).
  assert (Hs : summary (self Stub.eval_start) <> None)
    by (vm_compute; discriminate).
  assert (Hret : outcome_of (stub_rollout Stub.eval_start) = Ret tt)
    by (vm_compute; reflexivity).
  assert (He : eval (self Stub.eval_start) = true)
    by (vm_compute; reflexivity).
  destruct (proj1 (summary_counter_per_mode Stub.hstack
                     (EnvOps := Stub.scripted_env 3)
                     (AgentOps := Stub.counting_agent))
              3%nat Stub.eval_start Hw Hs Hret)
    as (l & counter & Hl & Hsum & _ & Hev).
  exists l, counter.
  split; [exact Hl | split; [exact Hsum | exact (proj1 (Hev He))]].
Defined.

(** X10 on a training rollout of two steps. *)
Lemma training_rollout_logs_one_line_witness :
  exists l,
    final_locals Stub.hstack (EnvOps := Stub.scripted_env 3)
      (AgentOps := Stub.counting_agent) 3 Stub.rendering_start = Some l /\
    filter is_print_line (events_of (stub_rollout Stub.rendering_start)) =
    (if eval (self Stub.rendering_start) then []
     else [EvPrintLine (name (self Stub.rendering_start))
             (episode (self (state_of (stub_rollout Stub.rendering_start))))
             (l_episodic_r l) (l_episodic_q l) (l_t l)]).
Proof.
  assert (Hret : outcome_of (stub_rollout Stub.rendering_start) = Ret tt)
    by (vm_compute; reflexivity).
  exact (training_rollout_logs_one_line Stub.hstack
           (EnvOps := Stub.scripted_env 3) (AgentOps := Stub.counting_agent)
           3%nat Stub.rendering_start Hret).
Defined.

(** X11 on a generator built from a configuration without
    [periodic_ckpt] and [save_best]. *)
Lemma default_options_never_checkpoint_witness :
  count is_checkpoint
    (events_of
       (stub_rollout
          (@run_ops Z Z Z Stub.hstack Stub.script nat (Stub.scripted_env 3)
             Stub.counting_agent [OpGenerateRollout 3; OpCreateCheckpoint]
             (state_of
                (@init Z Z Z Stub.script nat
                   [(Stub.f1, false, false); (Stub.f2, true, true)] 0%nat
                   Stub.sleepy_config true (Some TfObject))))))
  = 0%nat.
Proof.
  apply (default_options_never_checkpoint Stub.hstack
           (EnvOps := Stub.scripted_env 3) (AgentOps := Stub.counting_agent));
    reflexivity.
Defined.

(** X12 after the three evaluation rollouts of the scripted environment:
    the budget of 3 is used up and the result is printed. *)
Lemma done_reports_evaluation_result_witness :
  @done Z Z Z Stub.script nat (state_of (Stub.rollouts 3 Stub.eval_start)) =
  (state_of (Stub.rollouts 3 Stub.eval_start),
   [ EvPrintBlank;
     EvEvalResult Stub.f3 PyFloat.zero
       (t_steps (self (state_of (Stub.rollouts 3 Stub.eval_start))))
       (PyFloat.mul (PyFloat.of_int 100)
          (PyFloat.int_div
             (success (self (state_of (Stub.rollouts 3 Stub.eval_start))))
             3));
     EvPrintBlank ], Ret true).
Proof.
  apply (proj1 (proj2
           (proj1 (@done_reports_evaluation_result Z Z Z Stub.script nat)
              (state_of (Stub.rollouts 3 Stub.eval_start)) 3
              PyFloat.zero Stub.f3
              ltac:(vm_compute; reflexivity) ltac:(vm_compute; reflexivity)
              ltac:(vm_compute; reflexivity) ltac:(vm_compute; reflexivity)))).
  - vm_compute. discriminate.
  - discriminate.
  - vm_compute. reflexivity.
Defined.

(** X13 on an evaluation generator with a budget of 0 episodes. *)
Lemma done_before_first_rollout_raises_witness :
  outcome_of
    (@done Z Z Z Stub.script nat
       (state_of
          (@init Z Z Z Stub.script nat [Stub.one_step Stub.f1 false] 0%nat
             Stub.zero_budget_config true (Some TfObject))))
  = Raise (AttributeError "mean_eq").
Proof.
  apply (@done_before_first_rollout_raises Z Z Z Stub.script nat
           [Stub.one_step Stub.f1 false] 0%nat Stub.zero_budget_config
           (Some TfObject) 0).
  - reflexivity.
  - lia.
Defined.

(** X15 on the generator built without a summary writer. *)
Lemma rollout_failure_modes_witness :
  In (AttributeError "add_summary")
     [ AttributeError "render"; AttributeError "train_cycles_per_ts";
       AttributeError "eval_counter"; AttributeError "add_summary";
       AttributeError "periodic_ckpt"; AttributeError "save_best";
       UnboundLocalError "info"; ZeroDivisionError; OverflowError ].
Proof.
  apply (rollout_failure_modes Stub.hstack
           (EnvOps := Stub.scripted_env 3) (AgentOps := Stub.counting_agent)
           3%nat Stub.no_sink_start (AttributeError "add_summary")).
  vm_compute. reflexivity.
Defined.

(** X16 on a generator fresh from [__init__]. *)
Lemma update_stats_before_first_episode_witness :
  outcome_of
    (@update_stats Z Z Z Stub.script nat Stub.f1 Stub.f2 5 Stub.train_start)
  = Raise ZeroDivisionError /\
  t_steps
    (self
       (state_of
          (@update_stats Z Z Z Stub.script nat Stub.f1 Stub.f2 5
             Stub.train_start)))
  = t_steps (self Stub.train_start) + 5.
Proof.
  assert (He : episode (self Stub.train_start) = 0)
    by (vm_compute; reflexivity).
  pose proof (@update_stats_before_first_episode Z Z Z Stub.script nat
                Stub.f1 Stub.f2 5 Stub.train_start He)
    as (H1 & _ & _ & H4 & _).
  split; [exact H1 | exact H4].
Defined.

(** X17 on a training rollout whose second step reports done. *)
Lemma rollout_stops_at_first_done_witness :
  exists k b,
    done_flags (events_of (stub_rollout Stub.rendering_start)) =
      repeat 0 k ++ [int_of_bool b] /\
    count is_env_step (events_of (stub_rollout Stub.rendering_start)) = S k /\
    (b = true \/
     Z.of_nat (S k) = @max_episode_steps Z Z Stub.script (Stub.scripted_env 3)).
Proof.
  assert (Hret : outcome_of (stub_rollout Stub.rendering_start) = Ret tt)
    by (vm_compute; reflexivity).
  exact (rollout_stops_at_first_done Stub.hstack
           (EnvOps := Stub.scripted_env 3) (AgentOps := Stub.counting_agent)
           3%nat Stub.rendering_start Hret).
Defined.

(** X19 on forty episodes of one step: two evaluations of five runs. *)
Lemma evaluation_every_twenty_episodes_witness :
  count Train.is_train_line
    (events_of (stub_train Stub.long_config Stub.long_world)) = Z.to_nat 40 /\
  count Train.is_eval_line
    (events_of (stub_train Stub.long_config Stub.long_world)) =
    (5 * Z.to_nat (40 / 20))%nat /\
  count Train.is_env_reset
    (events_of (stub_train Stub.long_config Stub.long_world)) =
    (Z.to_nat 40 + 5 * Z.to_nat (40 / 20))%nat.
Proof.
  assert (Hret : outcome_of (stub_train Stub.long_config Stub.long_world) =
                 Ret {| Train.current_best_eval_score := PyFloat.of_int 5;
                        Train.t_i := Some 0; Train.t_j := Some 0 |})
    by (vm_compute; reflexivity).
  exact (evaluation_every_twenty_episodes Stub.hstack Stub.scale_action
           (TEnvOps := Stub.g2goal 3) (TAgentOps := Stub.ddpg)
           Stub.long_config Stub.long_world 40 _ eq_refl Hret).
Defined.

(** X20 on the same run: its one checkpoint is tagged 19. *)
Lemma checkpoints_only_after_evaluation_witness :
  Forall (fun e => 0 <= e < 40 /\ (e + 1) mod 20 = 0)
         (Train.saved_episodes
            (events_of (stub_train Stub.long_config Stub.long_world))).
Proof.
  exact (checkpoints_only_after_evaluation Stub.hstack Stub.scale_action
           (TEnvOps := Stub.g2goal 3) (TAgentOps := Stub.ddpg)
           Stub.long_config Stub.long_world 40 eq_refl).
Defined.

(** X21 on the same run, which renders. *)
Lemma train_render_is_optional_witness :
  count Train.is_render
    (events_of (stub_train Stub.long_config Stub.long_world)) =
  count Train.is_training_step
    (events_of (stub_train Stub.long_config Stub.long_world)).
Proof.
  exact (proj1 (train_render_is_optional Stub.hstack Stub.scale_action
                  (TEnvOps := Stub.g2goal 3) (TAgentOps := Stub.ddpg)
                  Stub.long_config Stub.long_world) true eq_refl).
Defined.

(** X22 on the scripted environment with a step cap of 0. *)
Lemma train_zero_step_cap_raises_witness :
  @Train.train Z Z Z Stub.hstack Stub.scale_action Stub.script nat
    (Stub.g2goal 0) Stub.ddpg Stub.long_config Stub.long_world =
  ({| Train.env :=
        fst (@Train.env_reset Z Z Stub.script (Stub.g2goal 0)
               (Train.env Stub.long_world));
      Train.agent := Train.agent Stub.long_world |},
   [Train.EvEnvReset], Raise (UnboundLocalError "i")).
Proof.
  apply (train_zero_step_cap_raises Stub.hstack Stub.scale_action
           (TEnvOps := Stub.g2goal 0) (TAgentOps := Stub.ddpg)
           Stub.long_config Stub.long_world 40).
  - reflexivity.
  - lia.
  - vm_compute. discriminate.
Defined.

(** X23 on an episode whose only reward is not a number. *)
Lemma episode_reward_must_be_finite_witness :
  outcome_of
    (@Train.episode_body Z Z Z Stub.hstack Stub.scale_action Stub.script nat
       (Stub.g2goal 3) Stub.ddpg Stub.script_config 0 Stub.fresh_locals
       Stub.nan_world) = Raise ValueError /\
  count Train.is_train_line
    (events_of
       (@Train.episode_body Z Z Z Stub.hstack Stub.scale_action Stub.script
          nat (Stub.g2goal 3) Stub.ddpg Stub.script_config 0
          Stub.fresh_locals Stub.nan_world)) = 0%nat.
Proof.
  apply (proj1 (episode_reward_must_be_finite Stub.hstack Stub.scale_action
                  (TEnvOps := Stub.g2goal 3) (TAgentOps := Stub.ddpg)
                  Stub.script_config 0 Stub.fresh_locals Stub.nan_world)).
  vm_compute. reflexivity.
Defined.

End Extras.
